(** * Mandelbrot visualizer: view state, history and render pipeline

    A shallow embedding of [X9Z3_Mandelbrot-Visualizer.py].

    Conventions of the embedding.
    - Python [float] values are idealised as real numbers ([R]): arithmetic
      is exact, without rounding or overflow.  Only [float()] on a text is
      modelled to the bit: it returns the nearest double, an infinity or
      nan, and the comparisons made on its results are those of the floats.
      The object holds finite floats; where the source goes on with a nan
      or an infinity the model stops with [NonFinite].
    - Python [int] values are [Z]; loop counters produced by [range] are [nat].
    - A Python [str] is the string of its characters, taken to be ASCII.
    - A Python list is a Rocq list in the same order: [append] adds at the
      right end and [pop] removes the right end.
    - A Python exception is an explicit [Raise] result.
    - Display-only collaborators (canvas, buttons, the loading label, the
      text of the dimensions read-out) are left out; what [print] emits is
      kept in a console log. *)

From Stdlib Require Import Reals Lra Lia ZArith String Ascii Bool List.
From Stdlib Require SpecFloat.
Import ListNotations.

Open Scope R_scope.

(* ================================================================== *)
(** * Python run-time primitives *)

(** The exceptions of Python that the program can raise, and [NonFinite],
    which is not one of them: it ends a run of the model where the source
    goes on with a float that is nan or an infinity, for which the object
    model, holding its floats as reals, has no state. *)
Inductive exn : Type :=
| IndexError
| ZeroDivisionError
| ValueError
| TypeError
| NonFinite.

Inductive result (A : Type) : Type :=
| Ok (a : A)
| Raise (e : exn).

Arguments Ok {A} a.
Arguments Raise {A} e.

Definition bind {A B : Type} (m : result A) (k : A -> result B) : result B :=
  match m with
  | Ok a => k a
  | Raise e => Raise e
  end.

Notation "x <- m ;; k" := (bind m (fun x => k))
  (at level 61, m at next level, right associativity).
Notation "' pat <- m ;; k" := (bind m (fun x => match x with pat => k end))
  (at level 61, pat pattern, m at next level, right associativity).

(** [a / b] on floats (and true division on ints). *)
Definition py_div (a b : R) : result R :=
  if Req_dec_T b 0 then Raise ZeroDivisionError else Ok (a / b).

(** [sqrt(a)]. *)
Definition py_sqrt (a : R) : result R :=
  if Rlt_dec a 0 then Raise ValueError else Ok (sqrt a).

(** [b ** e] with a float exponent.  A negative base with a fractional
    exponent yields a complex number in Python, which is not a component a
    [vec] accepts; it is reported as [TypeError]. *)
Definition float_pow (b e : R) : result R :=
  if Req_dec_T b 0 then
    if Rlt_dec e 0 then Raise ZeroDivisionError
    else if Req_dec_T e 0 then Ok 1 else Ok 0
  else if Rlt_dec b 0 then
    if Req_dec_T (IZR (Int_part e)) e then Ok (powerRZ b (Int_part e))
    else Raise TypeError
  else Ok (Rpower b e).

(** [int(r)]: truncation toward zero. *)
Definition py_int (r : R) : Z :=
  if Rle_dec 0 r then Int_part r else (- Int_part (- r))%Z.

(** [l[i]] for a non-negative index. *)
Definition py_index {A : Type} (l : list A) (i : nat) : result A :=
  match nth_error l i with
  | Some a => Ok a
  | None => Raise IndexError
  end.

(** [l.pop()]: removes and returns the last item. *)
Fixpoint list_pop {A : Type} (l : list A) : result (A * list A) :=
  match l with
  | [] => Raise IndexError
  | a :: r =>
      match r with
      | [] => Ok (a, [])
      | _ :: _ => '(b, r') <- list_pop r ;; Ok (b, a :: r')
      end
  end.

(** [l[i] = a]. *)
Fixpoint list_set {A : Type} (l : list A) (i : nat) (a : A) : result (list A) :=
  match l, i with
  | [], _ => Raise IndexError
  | _ :: r, O => Ok (a :: r)
  | b :: r, S j => r' <- list_set r j a ;; Ok (b :: r')
  end.

(** [range(n)]. *)
Definition py_range (n : Z) : list nat := seq 0 (Z.to_nat n).

(** [for i in items: s = body(i, s)]. *)
Fixpoint for_each {I S : Type} (items : list I) (body : I -> S -> result S)
    (s : S) : result S :=
  match items with
  | [] => Ok s
  | i :: rest => s' <- body i s ;; for_each rest body s'
  end.

(** ** [float(str)]

    What [float()] returns from a text: surrounding white space is
    dropped; underscores are accepted between two digits; then comes a
    spelling of an infinity or of nan, in any letter case, or a decimal
    literal (an optional sign, digits with an optional fraction, an
    optional decimal exponent), which is rounded to the nearest double,
    ties to even, and to an infinity beyond the largest double.  Anything
    else raises [ValueError].  Texts are taken to be ASCII. *)

(** A float as [float()] returns it.  A finite float is held as the real
    number it denotes; the two zeros are not told apart. *)
Inductive pyfloat : Type :=
| Finite (x : R)
| Infinite (negative : bool)
| NaN.

(** [a >= b] on floats: false whenever one side is nan. *)
Definition float_ge (a b : pyfloat) : bool :=
  match a, b with
  | NaN, _ | _, NaN => false
  | Finite x, Finite y => if Rge_dec x y then true else false
  | Finite _, Infinite negative => negative
  | Infinite negative, Finite _ => negb negative
  | Infinite negative, Infinite negative' => implb negative negative'
  end.

Definition is_space (c : ascii) : bool :=
  let n := nat_of_ascii c in
  Nat.eqb n 32 || (Nat.leb 9 n && Nat.leb n 13).

Fixpoint lstrip (cs : list ascii) : list ascii :=
  match cs with
  | c :: r => if is_space c then lstrip r else cs
  | [] => []
  end.

Definition strip (cs : list ascii) : list ascii :=
  rev (lstrip (rev (lstrip cs))).

Definition digit_value (c : ascii) : option Z :=
  let n := nat_of_ascii c in
  if Nat.leb 48 n && Nat.leb n 57 then Some (Z.of_nat (n - 48)) else None.

Definition is_digit (c : ascii) : bool :=
  match digit_value c with
  | Some _ => true
  | None => false
  end.

(** Digit grouping: an underscore is dropped when it stands between two
    digits and is an error anywhere else.  [prev] is the character before
    [cs], if there is one. *)
Fixpoint remove_underscores (prev : option ascii) (cs : list ascii)
    : result (list ascii) :=
  match cs with
  | [] =>
      match prev with
      | Some p => if Ascii.eqb p "_" then Raise ValueError else Ok []
      | None => Ok []
      end
  | c :: r =>
      let prev_is_digit :=
        match prev with
        | Some p => is_digit p
        | None => false
        end in
      let prev_is_underscore :=
        match prev with
        | Some p => Ascii.eqb p "_"
        | None => false
        end in
      if Ascii.eqb c "_" then
        if prev_is_digit then remove_underscores (Some c) r
        else Raise ValueError
      else if prev_is_underscore && negb (is_digit c) then Raise ValueError
      else r' <- remove_underscores (Some c) r ;; Ok (c :: r')
  end.

(** Reads a run of digits: the number read so far, how many digits were
    consumed, and the remaining characters. *)
Fixpoint read_digits (cs : list ascii) (acc : Z) (count : nat)
    : Z * nat * list ascii :=
  match cs with
  | c :: r =>
      match digit_value c with
      | Some d => read_digits r (acc * 10 + d)%Z (S count)
      | None => (acc, count, cs)
      end
  | [] => (acc, count, [])
  end.

Definition read_sign (cs : list ascii) : bool * list ascii :=
  match cs with
  | c :: r =>
      if Ascii.eqb c "-" then (true, r)
      else if Ascii.eqb c "+" then (false, r)
      else (false, cs)
  | [] => (false, [])
  end.

Definition read_exponent (cs : list ascii) : result Z :=
  match cs with
  | [] => Ok 0%Z
  | c :: r =>
      if Ascii.eqb c "e" || Ascii.eqb c "E" then
        let '(neg, r1) := read_sign r in
        let '(e, n, r2) := read_digits r1 0%Z O in
        match n, r2 with
        | S _, [] => Ok (if neg then (- e)%Z else e)
        | _, _ => Raise ValueError
        end
      else Raise ValueError
  end.

(** A decimal literal as sign, digits and power of ten. *)
Definition read_decimal (cs : list ascii) : result (bool * Z * Z) :=
  let '(neg, r0) := read_sign cs in
  let '(ip, n1, r1) := read_digits r0 0%Z O in
  let '(m, n2, r2) :=
    match r1 with
    | c :: r =>
        if Ascii.eqb c "." then
          let '(m, k, r') := read_digits r ip O in (m, k, r')
        else (ip, O, r1)
    | [] => (ip, O, [])
    end in
  match (n1 + n2)%nat with
  | O => Raise ValueError
  | S _ =>
      e <- read_exponent r2 ;;
      Ok (neg, m, (e - Z.of_nat n2)%Z)
  end.

Definition lower (c : ascii) : ascii :=
  let n := nat_of_ascii c in
  if Nat.leb 65 n && Nat.leb n 90 then ascii_of_nat (n + 32) else c.

(** The spellings of the non-finite floats. *)
Definition read_inf_or_nan (cs : list ascii) : option SpecFloat.spec_float :=
  let '(neg, r) := read_sign cs in
  let word := string_of_list_ascii (map lower r) in
  if String.eqb word "inf" || String.eqb word "infinity"
  then Some (SpecFloat.S754_infinity neg)
  else if String.eqb word "nan" then Some SpecFloat.S754_nan
  else None.

(** The double nearest to [m * 10 ** e], ties to even. *)
Definition decimal_to_double (neg : bool) (m e : Z) : SpecFloat.spec_float :=
  match m with
  | Zpos p =>
      if (0 <=? e)%Z then
        SpecFloat.binary_round 53 1024 neg (p * Z.to_pos (10 ^ e)) 0
      else
        SpecFloat.SFdiv 53 1024 (SpecFloat.S754_finite neg p 0)
          (SpecFloat.S754_finite false (Z.to_pos (10 ^ (- e))) 0)
  | _ => SpecFloat.S754_zero neg
  end.

(** The double a text denotes. *)
Definition read_float (s : string) : result SpecFloat.spec_float :=
  let cs := strip (list_ascii_of_string s) in
  cs <- remove_underscores None cs ;;
  match read_inf_or_nan cs with
  | Some f => Ok f
  | None => '(neg, m, e) <- read_decimal cs ;; Ok (decimal_to_double neg m e)
  end.

(** [m * 2 ** e]. *)
Definition scale2 (m e : Z) : R :=
  match e with
  | Zneg k => IZR m / IZR (Z.pow_pos 2 k)
  | _ => IZR (m * 2 ^ e)
  end.

Definition float_of_double (f : SpecFloat.spec_float) : pyfloat :=
  match f with
  | SpecFloat.S754_zero _ => Finite 0
  | SpecFloat.S754_infinity negative => Infinite negative
  | SpecFloat.S754_nan => NaN
  | SpecFloat.S754_finite negative m e =>
      Finite (scale2 (if negative then Zneg m else Zpos m) e)
  end.

Definition py_float (s : string) : result pyfloat :=
  f <- read_float s ;; Ok (float_of_double f).

(** The floats as the object holds them.  The object model has reals for
    its floats; a nan or an infinity on its way into the object ends the
    run of the model with [NonFinite]. *)
Fixpoint finite_values (xs : list pyfloat) : result (list R) :=
  match xs with
  | [] => Ok []
  | Finite x :: rest => r <- finite_values rest ;; Ok (x :: r)
  | _ :: _ => Raise NonFinite
  end.

(* ================================================================== *)
(** * Methods *)

(** VPython's [vec]. *)
Record vec : Type := mkvec { vec_x : R; vec_y : R; vec_z : R }.

Definition vec_scale (v : vec) (k : R) : vec :=
  mkvec (vec_x v * k) (vec_y v * k) (vec_z v * k).

Definition colormaps (colors : vec) (cmap : string) : result vec :=
  if String.eqb cmap "spectral" then
    let R_ := Rabs (sin (100 * vec_x colors + 1)) in
    let G_ := sin (100 * vec_y colors + 2) in
    let B_ := sin (100 * vec_z colors + 3) in
    Ok (mkvec R_ G_ B_)
  else if String.eqb cmap "inferno" then
    R_ <- py_sqrt (vec_x colors) ;;
    let G_ := vec_y colors ^ 2 in
    let B_ := -5 * (vec_z colors - 0.2) ^ 2 + 0.2 in
    Ok (mkvec R_ G_ B_)
  else if String.eqb cmap "viridis" then
    let R_ := sin (vec_x colors + 0.5) ^ 16 in
    let G_ := vec_y colors in
    let B_ := -3 * (vec_z colors - 0.38) ^ 2 + 0.6 in
    Ok (mkvec R_ G_ B_)
  else if String.eqb cmap "plasma" then
    let R_ := sin (vec_x colors) in
    e <- py_div 1 6 ;;
    p <- float_pow (vec_y colors) e ;;
    let G_ := vec_y colors ^ 10 + p - 0.8 in
    let B_ := - vec_z colors + 1 in
    Ok (mkvec R_ G_ B_)
  else
    let R_ := sin (vec_x colors + 0.9) ^ 30 in
    let G_ := sin (vec_y colors + 0.97) ^ 80 * 0.9 in
    let B_ := - ((vec_z colors + 0.5) ^ 6 - 0.8) ^ 2 + 1 in
    Ok (mkvec R_ G_ B_).

(** The loop of [split]: the finished words and the word being read. *)
Fixpoint split_loop (cs : string) (separator : string)
    (split_string : list string) (current_word : string) : list string :=
  match cs with
  | EmptyString => split_string ++ [current_word]
  | String s rest =>
      if String.eqb (String s EmptyString) separator then
        split_loop rest separator (split_string ++ [current_word]) EmptyString
      else
        split_loop rest separator split_string
          (current_word ++ String s EmptyString)
  end.

Definition split (string_ : option string) (separator : string) : list string :=
  match string_ with
  | None => []
  | Some s => split_loop s separator [] EmptyString
  end.

(* ================================================================== *)
(** * Classes *)

(** A VPython [vertex]; objects are told apart by the order of their
    creation. *)
Record vertex : Type := mkvertex {
  vertex_id : nat;
  vertex_pos : vec;
  vertex_color : vec
}.

(** A VPython [quad]; its corners refer to vertex objects ([None] is
    Python's [None]). *)
Record quad : Type := mkquad {
  quad_v0 : option nat;
  quad_v1 : option nat;
  quad_v2 : option nat;
  quad_v3 : option nat;
  quad_visible : bool
}.

(** The attributes of a [Mandelbrot] object. *)
Record Mandelbrot : Type := mkMandelbrot {
  max_iter : Z;
  x_min : R;
  x_max : R;
  y_min : R;
  y_max : R;
  height : Z;
  width : Z;
  colormap : string;
  rendered_vertices : list vertex;
  existing_vertices : list vertex;
  rendered_quads : list quad;
  existing_quads : list quad;
  dimensions_undo_list : list (list R);
  dimensions_redo_list : list (list R);
  loaded : bool
}.

(** Attribute assignment, [self.f = v]. *)
Definition set_max_iter (v : Z) (self : Mandelbrot) : Mandelbrot :=
  mkMandelbrot v (x_min self) (x_max self) (y_min self) (y_max self) (height
    self) (width self) (colormap self) (rendered_vertices self)
    (existing_vertices self) (rendered_quads self) (existing_quads self)
    (dimensions_undo_list self) (dimensions_redo_list self) (loaded self).

Definition set_x_min (v : R) (self : Mandelbrot) : Mandelbrot :=
  mkMandelbrot (max_iter self) v (x_max self) (y_min self) (y_max self)
    (height self) (width self) (colormap self) (rendered_vertices self)
    (existing_vertices self) (rendered_quads self) (existing_quads self)
    (dimensions_undo_list self) (dimensions_redo_list self) (loaded self).

Definition set_x_max (v : R) (self : Mandelbrot) : Mandelbrot :=
  mkMandelbrot (max_iter self) (x_min self) v (y_min self) (y_max self)
    (height self) (width self) (colormap self) (rendered_vertices self)
    (existing_vertices self) (rendered_quads self) (existing_quads self)
    (dimensions_undo_list self) (dimensions_redo_list self) (loaded self).

Definition set_y_min (v : R) (self : Mandelbrot) : Mandelbrot :=
  mkMandelbrot (max_iter self) (x_min self) (x_max self) v (y_max self)
    (height self) (width self) (colormap self) (rendered_vertices self)
    (existing_vertices self) (rendered_quads self) (existing_quads self)
    (dimensions_undo_list self) (dimensions_redo_list self) (loaded self).

Definition set_y_max (v : R) (self : Mandelbrot) : Mandelbrot :=
  mkMandelbrot (max_iter self) (x_min self) (x_max self) (y_min self) v
    (height self) (width self) (colormap self) (rendered_vertices self)
    (existing_vertices self) (rendered_quads self) (existing_quads self)
    (dimensions_undo_list self) (dimensions_redo_list self) (loaded self).

Definition set_height (v : Z) (self : Mandelbrot) : Mandelbrot :=
  mkMandelbrot (max_iter self) (x_min self) (x_max self) (y_min self) (y_max
    self) v (width self) (colormap self) (rendered_vertices self)
    (existing_vertices self) (rendered_quads self) (existing_quads self)
    (dimensions_undo_list self) (dimensions_redo_list self) (loaded self).

Definition set_width (v : Z) (self : Mandelbrot) : Mandelbrot :=
  mkMandelbrot (max_iter self) (x_min self) (x_max self) (y_min self) (y_max
    self) (height self) v (colormap self) (rendered_vertices self)
    (existing_vertices self) (rendered_quads self) (existing_quads self)
    (dimensions_undo_list self) (dimensions_redo_list self) (loaded self).

Definition set_colormap (v : string) (self : Mandelbrot) : Mandelbrot :=
  mkMandelbrot (max_iter self) (x_min self) (x_max self) (y_min self) (y_max
    self) (height self) (width self) v (rendered_vertices self)
    (existing_vertices self) (rendered_quads self) (existing_quads self)
    (dimensions_undo_list self) (dimensions_redo_list self) (loaded self).

Definition set_rendered_vertices (v : list vertex) (self : Mandelbrot) : Mandelbrot :=
  mkMandelbrot (max_iter self) (x_min self) (x_max self) (y_min self) (y_max
    self) (height self) (width self) (colormap self) v (existing_vertices
    self) (rendered_quads self) (existing_quads self) (dimensions_undo_list
    self) (dimensions_redo_list self) (loaded self).

Definition set_existing_vertices (v : list vertex) (self : Mandelbrot) : Mandelbrot :=
  mkMandelbrot (max_iter self) (x_min self) (x_max self) (y_min self) (y_max
    self) (height self) (width self) (colormap self) (rendered_vertices
    self) v (rendered_quads self) (existing_quads self)
    (dimensions_undo_list self) (dimensions_redo_list self) (loaded self).

Definition set_rendered_quads (v : list quad) (self : Mandelbrot) : Mandelbrot :=
  mkMandelbrot (max_iter self) (x_min self) (x_max self) (y_min self) (y_max
    self) (height self) (width self) (colormap self) (rendered_vertices
    self) (existing_vertices self) v (existing_quads self)
    (dimensions_undo_list self) (dimensions_redo_list self) (loaded self).

Definition set_existing_quads (v : list quad) (self : Mandelbrot) : Mandelbrot :=
  mkMandelbrot (max_iter self) (x_min self) (x_max self) (y_min self) (y_max
    self) (height self) (width self) (colormap self) (rendered_vertices
    self) (existing_vertices self) (rendered_quads self) v
    (dimensions_undo_list self) (dimensions_redo_list self) (loaded self).

Definition set_dimensions_undo_list (v : list (list R)) (self : Mandelbrot) : Mandelbrot :=
  mkMandelbrot (max_iter self) (x_min self) (x_max self) (y_min self) (y_max
    self) (height self) (width self) (colormap self) (rendered_vertices
    self) (existing_vertices self) (rendered_quads self) (existing_quads
    self) v (dimensions_redo_list self) (loaded self).

Definition set_dimensions_redo_list (v : list (list R)) (self : Mandelbrot) : Mandelbrot :=
  mkMandelbrot (max_iter self) (x_min self) (x_max self) (y_min self) (y_max
    self) (height self) (width self) (colormap self) (rendered_vertices
    self) (existing_vertices self) (rendered_quads self) (existing_quads
    self) (dimensions_undo_list self) v (loaded self).

Definition set_loaded (v : bool) (self : Mandelbrot) : Mandelbrot :=
  mkMandelbrot (max_iter self) (x_min self) (x_max self) (y_min self) (y_max
    self) (height self) (width self) (colormap self) (rendered_vertices
    self) (existing_vertices self) (rendered_quads self) (existing_quads
    self) (dimensions_undo_list self) (dimensions_redo_list self) v.

(** The escape-time loop
    [while sqrt(z_re**2 + z_im**2) <= 2 and n < self.max_iter].
    [remaining] is [max_iter - n]: the test [n < max_iter] holds exactly
    when it is not zero. *)
Fixpoint escape_loop (remaining : nat) (c_re c_im z_re z_im : R) (n : Z)
    : result Z :=
  m <- py_sqrt (z_re ^ 2 + z_im ^ 2) ;;
  if Rle_dec m 2 then
    match remaining with
    | O => Ok n
    | S k =>
        let z_re_old := z_re in
        let z_re := z_re_old * z_re_old - z_im * z_im + c_re in
        let z_im := 2 * z_re_old * z_im + c_im in
        escape_loop k c_re c_im z_re z_im (n + 1)
    end
  else Ok n.

(** Escape count of the point [c_re + i c_im], from [z = 0] and [n = 0]. *)
Definition escape_time (c_re c_im : R) (max_iter : Z) : result Z :=
  escape_loop (Z.to_nat max_iter) c_re c_im 0 0 0.

(** Color assignment based on escape depth. *)
Definition color_of_count (n max_iter : Z) (colormap : string) : result vec :=
  if (n =? max_iter)%Z then Ok (mkvec 0 0 0)
  else
    q <- py_div (IZR n) (IZR max_iter) ;;
    colormaps (vec_scale (mkvec 1 1 1) q) colormap.

(** What the rendering loop computes for pixel [(px, py)]: the escape count
    and the color. *)
Definition pixel_sample (self : Mandelbrot) (center_x center_y zoom_x zoom_y : R)
    (px py : nat) : result (Z * vec) :=
  let x := center_x + (INR px - IZR (width self) / 2) * zoom_x in
  let y := center_y + (INR py - IZR (height self) / 2) * zoom_y in
  n <- escape_time x y (max_iter self) ;;
  pixel_color <- color_of_count n (max_iter self) (colormap self) ;;
  Ok (n, pixel_color).

(** The variables of the rendering loop: the object and the two column
    buffers. *)
Record render_state : Type := mkrender {
  r_self : Mandelbrot;
  current_col : list (option nat);
  previous_col : list (option nat)
}.

(** Body of the inner loop of [__load_new_mandelbrot]. *)
Definition render_pixel (center_x center_y zoom_x zoom_y : R) (px py : nat)
    (st : render_state) : result render_state :=
  let self := r_self st in
  '(_, pixel_color) <- pixel_sample self center_x center_y zoom_x zoom_y px py ;;
  '(old_vertex, pool) <- list_pop (existing_vertices self) ;;
  let self := set_existing_vertices pool self in
  let old_vertex :=
    mkvertex (vertex_id old_vertex)
      (mkvec (INR px - IZR (width self) / 2) (INR py - IZR (height self) / 2) 0)
      pixel_color in
  current_col <- list_set (current_col st) py (Some (vertex_id old_vertex)) ;;
  let self :=
    set_rendered_vertices (rendered_vertices self ++ [old_vertex]) self in
  if Nat.ltb 0 px && Nat.ltb 0 py then
    '(_, qpool) <- list_pop (existing_quads self) ;;
    let self := set_existing_quads qpool self in
    v0 <- py_index current_col py ;;
    v1 <- py_index current_col (py - 1) ;;
    v2 <- py_index (previous_col st) (py - 1) ;;
    v3 <- py_index (previous_col st) py ;;
    let pixel := mkquad v0 v1 v2 v3 true in
    let self := set_rendered_quads (rendered_quads self ++ [pixel]) self in
    Ok (mkrender self current_col (previous_col st))
  else Ok (mkrender self current_col (previous_col st)).

(** Body of the outer loop: one column, then the buffers are rolled. *)
Definition render_column (center_x center_y zoom_x zoom_y : R) (px : nat)
    (st : render_state) : result render_state :=
  st <- for_each (py_range (height (r_self st)))
          (render_pixel center_x center_y zoom_x zoom_y px) st ;;
  Ok (mkrender (r_self st) (current_col st) (current_col st)).

Definition __load_new_mandelbrot (self : Mandelbrot) : result Mandelbrot :=
  let self := set_loaded false self in
  let center_x := (x_min self + x_max self) / 2 in
  let center_y := (y_min self + y_max self) / 2 in
  let view_width := x_max self - x_min self in
  let view_height := y_max self - y_min self in
  zoom_x <- py_div view_width (IZR (width self)) ;;
  zoom_y <- py_div view_height (IZR (height self)) ;;
  let current_col := repeat None (Z.to_nat (height self)) in
  let previous_col := current_col in
  st <- for_each (py_range (width self))
          (render_column center_x center_y zoom_x zoom_y)
          (mkrender self current_col previous_col) ;;
  Ok (set_loaded true (r_self st)).

(** Body of the loop of [__load_fresh_objects]. *)
Definition load_fresh_object (self : Mandelbrot) (i : nat) : Mandelbrot :=
  let blank_vertex :=
    mkvertex (length (existing_vertices self) + length (rendered_vertices self))
      (mkvec 0 0 0) (mkvec 0 0 0) in
  let self :=
    set_existing_vertices (existing_vertices self ++ [blank_vertex]) self in
  if (Z.of_nat (length (existing_quads self)) <? (height self - 1) * width self)%Z
  then
    let v := Some (vertex_id blank_vertex) in
    let blank_quad := mkquad v v v v false in
    set_existing_quads (existing_quads self ++ [blank_quad]) self
  else self.

Definition __load_fresh_objects (fresh_load_size : Z) (self : Mandelbrot)
    : Mandelbrot :=
  fold_left load_fresh_object (py_range fresh_load_size) self.

Definition hide (q : quad) : quad :=
  mkquad (quad_v0 q) (quad_v1 q) (quad_v2 q) (quad_v3 q) false.

Definition __recycle_old_vertices (self : Mandelbrot) : Mandelbrot :=
  let self :=
    set_existing_vertices (existing_vertices self ++ rendered_vertices self)
      self in
  let self :=
    set_existing_quads (existing_quads self ++ map hide (rendered_quads self))
      self in
  let self := set_rendered_vertices [] self in
  set_rendered_quads [] self.

Definition change_parameters (max_iter : Z) (image_dimensions : list R)
    (resolution : list Z) (colormap : string) (self : Mandelbrot)
    : result Mandelbrot :=
  let self := set_loaded false self in
  let self := __recycle_old_vertices self in
  let self := set_max_iter max_iter self in
  d0 <- py_index image_dimensions 0 ;;
  let self := set_x_min d0 self in
  d1 <- py_index image_dimensions 1 ;;
  let self := set_x_max d1 self in
  d2 <- py_index image_dimensions 2 ;;
  let self := set_y_min d2 self in
  d3 <- py_index image_dimensions 3 ;;
  let self := set_y_max d3 self in
  h <- py_index resolution 0 ;;
  let self := set_height h self in
  w <- py_index resolution 1 ;;
  let self := set_width w self in
  let self := set_colormap colormap self in
  let self :=
    set_dimensions_undo_list (dimensions_undo_list self ++ [image_dimensions])
      self in
  let previous_load_size := Z.of_nat (length (existing_vertices self)) in
  let fresh_load_size := (height self * width self - previous_load_size)%Z in
  let self := __load_fresh_objects fresh_load_size self in
  __load_new_mandelbrot self.

(** [Mandelbrot(...)]: the constructor. *)
Definition Mandelbrot_init (max_iter : Z) (image_dimensions : list R)
    (resolution : list Z) (colormap : string) : result Mandelbrot :=
  d0 <- py_index image_dimensions 0 ;;
  d1 <- py_index image_dimensions 1 ;;
  d2 <- py_index image_dimensions 2 ;;
  d3 <- py_index image_dimensions 3 ;;
  h <- py_index resolution 0 ;;
  w <- py_index resolution 1 ;;
  let self :=
    mkMandelbrot max_iter d0 d1 d2 d3 h w colormap [] [] [] []
      [image_dimensions] [] false in
  let self := __load_fresh_objects (height self * width self) self in
  __load_new_mandelbrot self.

(** [image_dimensions] is a placeholder, as in the source. *)
Definition load_recent_dimensions (redo : bool) (max_iter : Z)
    (image_dimensions : list R) (resolution : list Z) (colormap : string)
    (self : Mandelbrot) : result Mandelbrot :=
  let self := set_loaded false self in
  if redo then
    if Nat.ltb 0 (length (dimensions_redo_list self)) then
      '(image_dimensions_to_load, rest) <- list_pop (dimensions_redo_list self) ;;
      let self := set_dimensions_redo_list rest self in
      change_parameters max_iter image_dimensions_to_load resolution colormap
        self
    else Ok self
  else
    if Nat.leb (length (dimensions_undo_list self)) 1 then Ok self
    else
      '(top, rest) <- list_pop (dimensions_undo_list self) ;;
      let self := set_dimensions_undo_list rest self in
      let self :=
        set_dimensions_redo_list (dimensions_redo_list self ++ [top]) self in
      '(image_dimensions_to_load, rest) <- list_pop (dimensions_undo_list self) ;;
      let self := set_dimensions_undo_list rest self in
      change_parameters max_iter image_dimensions_to_load resolution colormap
        self.

(* ================================================================== *)
(** * Simulation globals *)

Definition resolution_choices : list (list Z) :=
  [[30; 45]; [60; 90]; [120; 180]; [180; 270]; [240; 360]; [480; 720]]%Z.

Definition colormap_choices : list string :=
  ["default"; "inferno"; "viridis"; "spectral"; "plasma"]%string.

(** Default value of the [image_dimensions] parameters. *)
Definition default_dimensions : list R := [-2; 0.5; -1; 1].

(** The global [mandelbrot] object and what has been printed so far. *)
Record World : Type := mkWorld {
  mandelbrot : Mandelbrot;
  console : list string
}.

Definition set_mandelbrot (m : Mandelbrot) (w : World) : World :=
  mkWorld m (console w).

Definition print (msg : string) (w : World) : World :=
  mkWorld (mandelbrot w) (console w ++ [msg]).

(** [mandelbrot = Mandelbrot(resolution=resolution_choices[3])]. *)
Definition program_start : result World :=
  resolution <- py_index resolution_choices 3 ;;
  m <- Mandelbrot_init 100 default_dimensions resolution "default" ;;
  Ok (mkWorld m []).

(* ================================================================== *)
(** * Widget methods *)

(** One pass of the body of the drag loop of [resize_box] while the button
    is held: the aspect-locked opposite corner for the current sample. *)
Definition resize_box_sample (starting_mouse_pos current_mouse_pos : vec)
    : result vec :=
  let current_box_width := Rabs (vec_x current_mouse_pos - vec_x starting_mouse_pos) in
  let current_box_height := Rabs (vec_y current_mouse_pos - vec_y starting_mouse_pos) in
  let corner_sign_x :=
    if Rgt_dec (vec_x current_mouse_pos) (vec_x starting_mouse_pos) then 1 else -1 in
  let corner_sign_y :=
    if Rgt_dec (vec_y current_mouse_pos) (vec_y starting_mouse_pos) then 1 else -1 in
  ratio <- py_div current_box_height current_box_width ;;
  if Rgt_dec ratio (3 / 2) then
    Ok (mkvec
          (vec_x starting_mouse_pos + corner_sign_x * current_box_height * 3 / 2)
          (vec_y current_mouse_pos)
          0)
  else
    Ok (mkvec
          (vec_x current_mouse_pos)
          (vec_y starting_mouse_pos + corner_sign_y * current_box_width * 2 / 3)
          0).

(** The points of the red outline (raw drag area) after a sample. *)
Definition mouse_window_points (starting_mouse_pos current_mouse_pos : vec)
    : list vec :=
  [ starting_mouse_pos;
    mkvec (vec_x current_mouse_pos) (vec_y starting_mouse_pos) 0;
    current_mouse_pos;
    mkvec (vec_x starting_mouse_pos) (vec_y current_mouse_pos) 0;
    starting_mouse_pos ].

(** The points of the white outline (aspect-locked box) after a sample. *)
Definition highlighting_points (starting_mouse_pos opposite_corner_pos : vec)
    : list vec :=
  [ starting_mouse_pos;
    mkvec (vec_x opposite_corner_pos) (vec_y starting_mouse_pos) 0;
    opposite_corner_pos;
    mkvec (vec_x starting_mouse_pos) (vec_y opposite_corner_pos) 0;
    starting_mouse_pos ].

(** The branch of the drag loop taken once the button is released. *)
Definition resize_box_release (starting_mouse_pos opposite_corner_pos : vec)
    (w : World) : result World :=
  let m := mandelbrot w in
  let x_min_ := Rmin (vec_x starting_mouse_pos) (vec_x opposite_corner_pos)
                + IZR (width m) / 2 in
  let x_max_ := Rmax (vec_x starting_mouse_pos) (vec_x opposite_corner_pos)
                + IZR (width m) / 2 in
  let y_min_ := Rmin (vec_y starting_mouse_pos) (vec_y opposite_corner_pos)
                + IZR (height m) / 2 in
  let y_max_ := Rmax (vec_y starting_mouse_pos) (vec_y opposite_corner_pos)
                + IZR (height m) / 2 in
  let image_width := x_max m - x_min m in
  let image_height := y_max m - y_min m in
  sx <- py_div image_width (IZR (width m)) ;;
  let x_min_ := sx * x_min_ + x_min m in
  sx <- py_div image_width (IZR (width m)) ;;
  let x_max_ := sx * x_max_ + x_min m in
  sy <- py_div image_height (IZR (height m)) ;;
  let y_min_ := sy * y_min_ + y_min m in
  sy <- py_div image_height (IZR (height m)) ;;
  let y_max_ := sy * y_max_ + y_min m in
  m' <- change_parameters (max_iter m) [x_min_; x_max_; y_min_; y_max_]
          [height m; width m] (colormap m) m ;;
  Ok (set_mandelbrot m' w).

(** A whole drag: the press position, the pointer samples taken while the
    button was held, then the release. *)
Definition resize_box (starting_mouse_pos : vec) (samples : list vec)
    (w : World) : result World :=
  if negb (loaded (mandelbrot w)) then Ok w
  else
    opposite_corner_pos <-
      for_each samples
        (fun current_mouse_pos _ =>
           resize_box_sample starting_mouse_pos current_mouse_pos)
        starting_mouse_pos ;;
    resize_box_release starting_mouse_pos opposite_corner_pos w.

Definition recall_mandelbrot_dimensions (evt_redo : bool) (w : World)
    : result World :=
  let m := mandelbrot w in
  if negb (loaded m) then Ok w
  else if Nat.eqb (length (dimensions_undo_list m)) 1
          && Nat.eqb (length (dimensions_redo_list m)) 0 then Ok w
  else
    let max_iter := max_iter m in
    let resolution := [height m; width m] in
    let colormap := colormap m in
    m' <- load_recent_dimensions evt_redo max_iter default_dimensions
            resolution colormap m ;;
    Ok (set_mandelbrot m' w).

Definition change_resolution (evt_index : nat) (w : World) : result World :=
  let m := mandelbrot w in
  if negb (loaded m) then Ok w
  else
    let max_iter := max_iter m in
    '(image_dimensions, rest) <- list_pop (dimensions_undo_list m) ;;
    let m := set_dimensions_undo_list rest m in
    resolution <- py_index resolution_choices evt_index ;;
    let colormap := colormap m in
    m' <- change_parameters max_iter image_dimensions resolution colormap m ;;
    Ok (set_mandelbrot m' w).

Definition change_colormap (evt_selected : string) (w : World) : result World :=
  let m := mandelbrot w in
  if negb (loaded m) then Ok w
  else
    let max_iter := max_iter m in
    '(image_dimensions, rest) <- list_pop (dimensions_undo_list m) ;;
    let m := set_dimensions_undo_list rest m in
    let resolution := [height m; width m] in
    let colormap := evt_selected in
    m' <- change_parameters max_iter image_dimensions resolution colormap m ;;
    Ok (set_mandelbrot m' w).

Definition change_search_depth (evt_number : R) (w : World) : result World :=
  let m := mandelbrot w in
  if negb (loaded m) then Ok w
  else if Rlt_dec evt_number 1 then
    Ok (print "Please enter a number between 1 - 1000" w)
  else if Rgt_dec evt_number 1000 then
    Ok (print "Please enter a number between 1 - 1000" w)
  else
    let max_iter := py_int evt_number in
    '(image_dimensions, rest) <- list_pop (dimensions_undo_list m) ;;
    let m := set_dimensions_undo_list rest m in
    let resolution := [height m; width m] in
    let colormap := colormap m in
    m' <- change_parameters max_iter image_dimensions resolution colormap m ;;
    Ok (set_mandelbrot m' w).

(** [[float(item) for item in items]]. *)
Fixpoint floats_of (items : list string) : result (list pyfloat) :=
  match items with
  | [] => Ok []
  | item :: rest =>
      x <- py_float item ;;
      xs <- floats_of rest ;;
      Ok (x :: xs)
  end.

(** The [try] block of [change_image_dimensions]. *)
Definition parse_dimensions (evt_text : string) : result (list pyfloat) :=
  let split_elements := split (Some evt_text) "," in
  split_elements <- floats_of split_elements ;;
  if negb (Nat.eqb (length split_elements) 4) then Raise ValueError
  else
    e0 <- py_index split_elements 0 ;;
    e1 <- py_index split_elements 1 ;;
    if float_ge e0 e1 then Raise ValueError
    else
      e2 <- py_index split_elements 2 ;;
      e3 <- py_index split_elements 3 ;;
      if float_ge e2 e3 then Raise ValueError
      else Ok split_elements.

(** The bounds the [try] block lets through go to [change_parameters] as
    they are.  [finite_values] marks their way into the object model: with
    a nan or an infinity among them the source renders all the same, and
    the model ends there. *)
Definition change_image_dimensions (evt_text : string) (w : World)
    : result World :=
  let m := mandelbrot w in
  if negb (loaded m) then Ok w
  else
    match parse_dimensions evt_text with
    | Raise _ => Ok (print "Invalid dimensions." w)
    | Ok split_elements =>
        image_dimensions <- finite_values split_elements ;;
        m' <- change_parameters (max_iter m) image_dimensions
                [height m; width m] (colormap m) m ;;
        Ok (set_mandelbrot m' w)
    end.

(* ================================================================== *)
(** * Sessions *)

(** What the user can do. *)
Inductive event : Type :=
| Drag (starting_mouse_pos : vec) (samples : list vec)
| UndoRedo (redo : bool)
| SelectResolution (index : nat)
| SelectColormap (selected : string)
| EnterDepth (number : R)
| EnterDimensions (text : string).

Definition handle (e : event) (w : World) : result World :=
  match e with
  | Drag p samples => resize_box p samples w
  | UndoRedo redo => recall_mandelbrot_dimensions redo w
  | SelectResolution index => change_resolution index w
  | SelectColormap selected => change_colormap selected w
  | EnterDepth number => change_search_depth number w
  | EnterDimensions text => change_image_dimensions text w
  end.

(** The states a session can be in: the start of the program, then any
    event whose handler returns. *)
Inductive reachable : World -> Prop :=
| reachable_start : forall w, program_start = Ok w -> reachable w
| reachable_step : forall e w w',
    reachable w -> handle e w = Ok w' -> reachable w'.

(* ================================================================== *)
(** * Specification-side definitions *)

(** [y^e] for a base that is not negative and an exponent above zero. *)
Definition real_power (y e : R) : R :=
  if Req_dec_T y 0 then 0 else Rpower y e.

(** The five colormap formulas as the specification words them. *)
Definition spec_colormap (scheme : string) (x y z : R) : vec :=
  if String.eqb scheme "inferno" then
    mkvec (sqrt x) (y ^ 2) (0.2 - 5 * (z - 0.2) ^ 2)
  else if String.eqb scheme "viridis" then
    mkvec (sin (x + 0.5) ^ 16) y (0.6 - 3 * (z - 0.38) ^ 2)
  else if String.eqb scheme "plasma" then
    mkvec (sin x) (y ^ 10 + real_power y (1 / 6) - 0.8) (1 - z)
  else if String.eqb scheme "spectral" then
    mkvec (Rabs (sin (100 * x + 1))) (sin (100 * y + 2)) (sin (100 * z + 3))
  else
    mkvec (sin (x + 0.9) ^ 30) (0.9 * sin (y + 0.97) ^ 80)
      (1 - (((z + 0.5) ^ 6) - 0.8) ^ 2).

(** The visible region as the list history keeps. *)
Definition viewport (m : Mandelbrot) : list R :=
  [x_min m; x_max m; y_min m; y_max m].

(** Geometry objects in existence: pool plus active. *)
Definition total_vertices (m : Mandelbrot) : nat :=
  length (existing_vertices m) + length (rendered_vertices m).

Definition total_quads (m : Mandelbrot) : nat :=
  length (existing_quads m) + length (rendered_quads m).

Definition is_preset (h w : Z) : Prop := In [h; w] resolution_choices.

(** The text denotes exactly four finite floats [a, b, c, d] with [a < b]
    and [c < d]. *)
Definition valid_dimensions (text : string) (a b c d : R) : Prop :=
  floats_of (split (Some text) ",")
    = Ok [Finite a; Finite b; Finite c; Finite d] /\
  a < b /\ c < d.

(** Width and height of the box between two corners. *)
Definition box_width (p q : vec) : R := Rabs (vec_x q - vec_x p).
Definition box_height (p q : vec) : R := Rabs (vec_y q - vec_y p).

(** How many quads the pixel [(px, py)] takes from the pool. *)
Definition quads_taken (px py : nat) : nat :=
  if Nat.ltb 0 px && Nat.ltb 0 py then 1%nat else 0%nat.

(** The pool holds what the largest resolution requested so far needs:
    one vertex per pixel and one quad per pixel of all rows but one. *)
Definition pool_inv (m : Mandelbrot) : Prop :=
  exists hM wM,
    is_preset hM wM /\ (height m <= hM)%Z /\
    Z.of_nat (total_vertices m) = (hM * wM)%Z /\
    Z.of_nat (total_quads m) = ((hM - 1) * wM)%Z.

(** Size of the quad pool once [__load_fresh_objects] has run for a
    [h] by [w] grid, from [V] vertices and [Q] quads. *)
Definition quads_after (V Q h w : Z) : Z :=
  Z.max Q (Z.min (Q + Z.max 0 (h * w - V)) ((h - 1) * w)).

(** [m'] is [m] after [change_parameters] applied the given parameters. *)
Definition applied (max_iter_ : Z) (image_dimensions : list R) (h w : Z)
    (colormap_ : string) (m m' : Mandelbrot) : Prop :=
  max_iter m' = max_iter_ /\ viewport m' = image_dimensions /\
  height m' = h /\ width m' = w /\ colormap m' = colormap_ /\
  dimensions_undo_list m' = dimensions_undo_list m ++ [image_dimensions] /\
  dimensions_redo_list m' = dimensions_redo_list m /\
  loaded m' = true /\
  Z.of_nat (length (rendered_vertices m')) = (h * w)%Z /\
  Z.of_nat (total_vertices m') = Z.max (Z.of_nat (total_vertices m)) (h * w) /\
  Z.of_nat (total_quads m')
    = quads_after (Z.of_nat (total_vertices m)) (Z.of_nat (total_quads m)) h w.

(** What every state of a session satisfies. *)
Record wf (m : Mandelbrot) : Prop := mkwf {
  wf_preset : is_preset (height m) (width m);
  wf_pool : pool_inv m;
  wf_undo : exists older, dimensions_undo_list m = older ++ [viewport m];
  wf_dims : Forall (fun d : list R => length d = 4%nat)
              (dimensions_undo_list m ++ dimensions_redo_list m);
  wf_depth : (1 <= max_iter m <= 1000)%Z
}.

(** The attributes a render leaves alone. *)
Definition same_settings (m m' : Mandelbrot) : Prop :=
  max_iter m' = max_iter m /\ x_min m' = x_min m /\ x_max m' = x_max m /\
  y_min m' = y_min m /\ y_max m' = y_max m /\ height m' = height m /\
  width m' = width m /\ colormap m' = colormap m /\
  dimensions_undo_list m' = dimensions_undo_list m /\
  dimensions_redo_list m' = dimensions_redo_list m.

(* ================================================================== *)
(** * Definitions for further properties *)

(** Number of characters of [s] that are [c]. *)
Fixpoint count_char (c : ascii) (s : string) : nat :=
  match s with
  | EmptyString => O
  | String a rest => ((if Ascii.eqb a c then 1 else 0) + count_char c rest)%nat
  end.

(** The one-character string [c]. *)
Definition char (c : ascii) : string := String c EmptyString.

(** The bounds of the view are in order. *)
Definition valid_view (m : Mandelbrot) : Prop :=
  x_min m < x_max m /\ y_min m < y_max m.

(** A history entry with four numbers in order. *)
Definition valid_dims (d : list R) : Prop :=
  exists a b c e, d = [a; b; c; e] /\ a < b /\ c < e.

(** The point of the complex plane the render draws at the screen
    position [(sx, sy)]: pixel [(px, py)] sits at
    [(px - width / 2, py - height / 2)]. *)
Definition plane_x (m : Mandelbrot) (sx : R) : R :=
  (x_min m + x_max m) / 2 + sx * ((x_max m - x_min m) / IZR (width m)).

Definition plane_y (m : Mandelbrot) (sy : R) : R :=
  (y_min m + y_max m) / 2 + sy * ((y_max m - y_min m) / IZR (height m)).

(** The view [resize_box] asks for when the button is released with the
    box between [p] and [q]. *)
Definition release_view (m : Mandelbrot) (p q : vec) : list R :=
  [ (x_max m - x_min m) / IZR (width m)
      * (Rmin (vec_x p) (vec_x q) + IZR (width m) / 2) + x_min m;
    (x_max m - x_min m) / IZR (width m)
      * (Rmax (vec_x p) (vec_x q) + IZR (width m) / 2) + x_min m;
    (y_max m - y_min m) / IZR (height m)
      * (Rmin (vec_y p) (vec_y q) + IZR (height m) / 2) + y_min m;
    (y_max m - y_min m) / IZR (height m)
      * (Rmax (vec_y p) (vec_y q) + IZR (height m) / 2) + y_min m ].

(** An event other than a drag. *)
Definition no_drag (e : event) : Prop :=
  match e with
  | Drag _ _ => False
  | _ => True
  end.

(** [a] is below [b], for floats neither of which is nan: the order of
    the reals with the infinities at its two ends. *)
Definition float_below (a b : pyfloat) : Prop :=
  match a, b with
  | Finite x, Finite y => x < y
  | Infinite true, Finite _ => True
  | Finite _, Infinite false => True
  | Infinite true, Infinite false => True
  | _, _ => False
  end.

(** Bounds of moderate size, at most [10 ^ 100] in magnitude: the points
    of such a view, and the squares the escape test takes of them, stay
    far below the largest float. *)
Definition moderate (d : list R) : Prop :=
  Forall (fun x => Rabs x <= 10 ^ 100) d.

(** An event whose dimensions text is ASCII and, if the validation lets it
    through, comes with finite bounds of moderate size. *)
Definition moderate_event (e : event) : Prop :=
  match e with
  | EnterDimensions text =>
      Forall (fun c => (nat_of_ascii c < 128)%nat) (list_ascii_of_string text) /\
      forall dims,
        parse_dimensions text = Ok dims ->
        exists z, dims = map Finite z /\ moderate z
  | _ => True
  end.

(** An event a widget can deliver whose handler has no division by a drag
    width: anything but a drag, with a menu index that exists. *)
Definition widget_event (e : event) : Prop :=
  match e with
  | Drag _ _ => False
  | SelectResolution index => (index < length resolution_choices)%nat
  | _ => True
  end.

(** The pixels of a grid in the order the render visits them: column by
    column, each column from row 0 up. *)
Definition grid_pixels (m : Mandelbrot) : list (nat * nat) :=
  list_prod (py_range (width m)) (py_range (height m)).

(** Vertex [v] is what the rendering loop, run with the given center and
    step, makes of pixel [(px, py)]: placed at the pixel's screen position
    and colored by the pixel's sample. *)
Definition drawn (m : Mandelbrot) (cx cy zx zy : R) (v : vertex)
    (pixel : nat * nat) : Prop :=
  vertex_pos v
  = mkvec (INR (fst pixel) - IZR (width m) / 2)
          (INR (snd pixel) - IZR (height m) / 2) 0 /\
  exists n,
    pixel_sample m cx cy zx zy (fst pixel) (snd pixel) = Ok (n, vertex_color v).

(** The same, with the center and step [__load_new_mandelbrot] derives
    from the view. *)
Definition drawn_on (m : Mandelbrot) (v : vertex) (pixel : nat * nat) : Prop :=
  drawn m ((x_min m + x_max m) / 2) ((y_min m + y_max m) / 2)
    ((x_max m - x_min m) / IZR (width m))
    ((y_max m - y_min m) / IZR (height m)) v pixel.

(** A pixel that gets a quad: not in the first column nor the first row. *)
Definition has_quad (pixel : nat * nat) : bool :=
  Nat.ltb 0 (fst pixel) && Nat.ltb 0 (snd pixel).

(** What rendering the given pixels does to the four object lists. *)
Definition render_effect (cx cy zx zy : R) (pixels : list (nat * nat))
    (s s' : Mandelbrot) : Prop :=
  same_settings s s' /\
  exists newv newq takenv takenq,
    rendered_vertices s' = rendered_vertices s ++ newv /\
    existing_vertices s = existing_vertices s' ++ takenv /\
    rendered_quads s' = rendered_quads s ++ newq /\
    existing_quads s = existing_quads s' ++ takenq /\
    Forall2 (drawn s cx cy zx zy) newv pixels /\
    length takenv = length newv /\
    Forall (fun q => quad_visible q = true) newq /\
    length newq = length (filter has_quad pixels) /\
    length takenq = length newq.

(** What is on screen is the picture of the current settings: one active
    vertex per pixel, in rendering order, placed and colored for the
    current view, depth and colormap; one visible quad for each pixel off
    the first row and column; every pooled quad hidden. *)
Definition screen_ok (m : Mandelbrot) : Prop :=
  Forall2 (drawn_on m) (rendered_vertices m) (grid_pixels m) /\
  length (rendered_quads m) = length (filter has_quad (grid_pixels m)) /\
  Forall (fun q => quad_visible q = true) (rendered_quads m) /\
  Forall (fun q => quad_visible q = false) (existing_quads m).

(** The four object lists are the same. *)
Definition same_objects (m m' : Mandelbrot) : Prop :=
  rendered_vertices m' = rendered_vertices m /\
  existing_vertices m' = existing_vertices m /\
  rendered_quads m' = rendered_quads m /\
  existing_quads m' = existing_quads m.

(* ================================================================== *)
(** * Proof tactics *)

(** Inverts an equation between two results. *)
Ltac inv_ok H :=
  match type of H with
  | Ok _ = Ok _ => injection H as H; try subst
  | Raise _ = Ok _ => discriminate H
  | Ok _ = Raise _ => discriminate H
  end.

(** Runs the first call of a handler with a result known from [E]. *)
Ltac run E :=
  match type of E with
  | _ = ?r =>
      match goal with
      | |- context [bind ?c _] =>
          replace c with r by (symmetry; exact E)
      end
  end;
  cbn [bind].

(** Evaluates [floats_of (split (Some text) sep)] on a literal text. *)
Ltac eval_floats :=
  match goal with
  | |- context [split (Some ?t) ?sep] =>
      let toks := eval vm_compute in (split (Some t) sep) in
      change (split (Some t) sep) with toks
  end;
  cbn [floats_of]; unfold py_float;
  repeat match goal with
         | |- context [read_float ?tok] =>
             let r := eval vm_compute in (read_float tok) in
             change (read_float tok) with r
         end;
  cbn [bind float_of_double scale2];
  repeat match goal with
         | |- context [Z.pow_pos ?a ?k] =>
             let v := eval vm_compute in (Z.pow_pos a k) in
             change (Z.pow_pos a k) with v
         | |- context [(Zpos ?m * 2 ^ ?e)%Z] =>
             let v := eval vm_compute in (Zpos m * 2 ^ e)%Z in
             change (Zpos m * 2 ^ e)%Z with v
         | |- context [(Zneg ?m * 2 ^ ?e)%Z] =>
             let v := eval vm_compute in (Zneg m * 2 ^ e)%Z in
             change (Zneg m * 2 ^ e)%Z with v
         end.

(* ================================================================== *)
(** * Facts about the run-time primitives *)

Lemma bind_ok {A B : Type} (m : result A) (k : A -> result B) (b : B) :
  bind m k = Ok b -> exists a, m = Ok a /\ k a = Ok b.
Proof.
  destruct m as [a | e]; simpl; intros H.
  - exists a; split; [reflexivity | exact H].
  - discriminate H.
Qed.

Lemma list_pop_app {A : Type} (l : list A) (a : A) :
  list_pop (l ++ [a]) = Ok (a, l).
Proof.
  induction l as [| b l IH]; simpl.
  - reflexivity.
  - destruct (l ++ [a]) as [| c r] eqn:E.
    + destruct l; discriminate E.
    + rewrite IH. reflexivity.
Qed.

Lemma list_pop_nonempty {A : Type} (l : list A) :
  (0 < length l)%nat -> exists a r, list_pop l = Ok (a, r) /\ l = r ++ [a].
Proof.
  intros H. destruct (exists_last (l := l)) as [r [a E]].
  - intros ->. simpl in H. lia.
  - exists a, r. subst l. split; [apply list_pop_app | reflexivity].
Qed.

Lemma list_set_ok {A : Type} (l : list A) (i : nat) (a : A) :
  (i < length l)%nat ->
  exists l', list_set l i a = Ok l' /\ length l' = length l /\
             nth_error l' i = Some a.
Proof.
  revert i; induction l as [| b l IH]; intros i H; simpl in H.
  - lia.
  - destruct i as [| j]; simpl.
    + exists (a :: l). repeat split.
    + destruct (IH j) as [l' [E [L N]]]; [lia |].
      rewrite E. simpl. exists (b :: l'). simpl. repeat split; auto.
Qed.

Lemma py_index_ok {A : Type} (l : list A) (i : nat) :
  (i < length l)%nat -> exists a, py_index l i = Ok a.
Proof.
  intros H. unfold py_index.
  destruct (nth_error l i) as [a |] eqn:E.
  - exists a; reflexivity.
  - apply nth_error_None in E. lia.
Qed.

Lemma py_div_ok (a b : R) : b <> 0 -> py_div a b = Ok (a / b).
Proof.
  intros H. unfold py_div. destruct (Req_dec_T b 0); [contradiction | reflexivity].
Qed.

Lemma py_div_zero (a : R) : py_div a 0 = Raise ZeroDivisionError.
Proof.
  unfold py_div. destruct (Req_dec_T 0 0); [reflexivity | congruence].
Qed.

Lemma py_sqrt_ok (a : R) : 0 <= a -> py_sqrt a = Ok (sqrt a).
Proof.
  intros H. unfold py_sqrt. destruct (Rlt_dec a 0); [lra | reflexivity].
Qed.

Lemma float_pow_nonneg (b e : R) :
  0 <= b -> 0 < e -> float_pow b e = Ok (real_power b e).
Proof.
  intros Hb He. unfold float_pow, real_power.
  destruct (Req_dec_T b 0) as [E | N].
  - destruct (Rlt_dec e 0); [lra |].
    destruct (Req_dec_T e 0); [lra | reflexivity].
  - destruct (Rlt_dec b 0); [lra | reflexivity].
Qed.

Lemma py_int_range (r : R) (lo hi : Z) :
  (0 <= lo)%Z -> IZR lo <= r -> r <= IZR hi -> (lo <= py_int r <= hi)%Z.
Proof.
  intros H0 Hlo Hhi. unfold py_int.
  assert (0 <= r) by (apply IZR_le in H0; lra).
  destruct (Rle_dec 0 r); [| lra].
  destruct (base_Int_part r) as [B1 B2].
  split.
  - apply Z.lt_succ_r. apply lt_IZR. rewrite succ_IZR. lra.
  - apply le_IZR. lra.
Qed.

Lemma py_int_IZR (z : Z) : (0 <= z)%Z -> py_int (IZR z) = z.
Proof.
  intros H. unfold py_int.
  destruct (Rle_dec 0 (IZR z)) as [_ | N].
  - symmetry. apply Int_part_spec. split; lra.
  - exfalso; apply N. apply IZR_le in H. exact H.
Qed.

Lemma seq_positive_count (n : nat) :
  length (filter (Nat.ltb 0) (seq 0 n)) = (n - 1)%nat.
Proof.
  destruct n as [| n]; [reflexivity |].
  simpl. replace (n - 0)%nat with n by lia.
  assert (H : forall k a, (0 < a)%nat -> filter (Nat.ltb 0) (seq a k) = seq a k).
  { induction k as [| k IH]; intros a Ha; simpl; [reflexivity |].
    destruct a; [lia |]. simpl. f_equal. apply IH. lia. }
  rewrite H by lia. apply length_seq.
Qed.

(* ================================================================== *)
(** * Colormaps and the escape-time loop *)

Lemma colormaps_eval (x y z : R) (cmap : string) :
  0 <= x -> 0 <= y -> colormaps (mkvec x y z) cmap = Ok (spec_colormap cmap x y z).
Proof.
  intros Hx Hy. unfold colormaps, spec_colormap. simpl.
  destruct (String.eqb cmap "spectral") eqn:Es.
  - apply String.eqb_eq in Es. subst cmap. simpl. reflexivity.
  - destruct (String.eqb cmap "inferno") eqn:Ei.
    + rewrite py_sqrt_ok by exact Hx. simpl. f_equal. f_equal. lra.
    + destruct (String.eqb cmap "viridis") eqn:Ev.
      * f_equal. f_equal. lra.
      * destruct (String.eqb cmap "plasma") eqn:Ep.
        -- rewrite py_div_ok by lra. simpl.
           rewrite float_pow_nonneg by lra. simpl. f_equal. f_equal. lra.
        -- f_equal. f_equal; lra.
Qed.

Lemma escape_loop_bounds (k : nat) (c_re c_im z_re z_im : R) (n : Z) :
  exists n', escape_loop k c_re c_im z_re z_im n = Ok n' /\
             (n <= n' <= n + Z.of_nat k)%Z.
Proof.
  revert z_re z_im n; induction k as [| k IH]; intros z_re z_im n.
  - simpl. rewrite py_sqrt_ok by nra. simpl.
    destruct (Rle_dec _ 2); exists n; split; auto; lia.
  - cbn [escape_loop]. rewrite py_sqrt_ok by nra. cbn [bind].
    destruct (Rle_dec _ 2).
    + destruct (IH (z_re * z_re - z_im * z_im + c_re)
                   (2 * z_re * z_im + c_im) (n + 1)%Z) as [n' [E B]].
      exists n'. split; [exact E | lia].
    + exists n. split; [reflexivity | lia].
Qed.

Lemma escape_time_bounds (c_re c_im : R) (max_iter : Z) :
  (0 <= max_iter)%Z ->
  exists n, escape_time c_re c_im max_iter = Ok n /\ (0 <= n <= max_iter)%Z.
Proof.
  intros H. unfold escape_time.
  destruct (escape_loop_bounds (Z.to_nat max_iter) c_re c_im 0 0 0) as [n [E B]].
  exists n. split; [exact E | lia].
Qed.

Lemma color_of_count_ok (n max_iter : Z) (cmap : string) :
  (0 <= n <= max_iter)%Z ->
  exists c, color_of_count n max_iter cmap = Ok c /\
            (n = max_iter -> c = mkvec 0 0 0).
Proof.
  intros B. unfold color_of_count.
  destruct (Z.eqb_spec n max_iter) as [E | N].
  - exists (mkvec 0 0 0). split; auto.
  - assert (Hm : 0 < IZR max_iter) by (apply IZR_lt; lia).
    assert (Hn : 0 <= IZR n) by (apply IZR_le; lia).
    rewrite py_div_ok by lra. cbn [bind]. unfold vec_scale. simpl.
    assert (Hq : 0 <= 1 * (IZR n / IZR max_iter)).
    { rewrite Rmult_1_l. apply Rmult_le_pos; [exact Hn |].
      apply Rlt_le, Rinv_0_lt_compat, Hm. }
    rewrite colormaps_eval by exact Hq.
    eexists. split; [reflexivity | intros; contradiction].
Qed.

Lemma pixel_sample_ok (self : Mandelbrot) (cx cy zx zy : R) (px py : nat) :
  (0 <= max_iter self)%Z ->
  exists n c, pixel_sample self cx cy zx zy px py = Ok (n, c) /\
              (0 <= n <= max_iter self)%Z /\
              (n = max_iter self -> c = mkvec 0 0 0).
Proof.
  intros H. unfold pixel_sample.
  destruct (escape_time_bounds
              (cx + (INR px - IZR (width self) / 2) * zx)
              (cy + (INR py - IZR (height self) / 2) * zy) _ H) as [n [E B]].
  rewrite E. cbn [bind].
  destruct (color_of_count_ok n (max_iter self) (colormap self) B) as [c [Ec Hc]].
  rewrite Ec. cbn [bind]. exists n, c. auto.
Qed.

(* ================================================================== *)
(** * The rendering loop and the object pool *)

Lemma same_settings_refl (m : Mandelbrot) : same_settings m m.
Proof. unfold same_settings. repeat split. Qed.

Lemma same_settings_trans (m1 m2 m3 : Mandelbrot) :
  same_settings m1 m2 -> same_settings m2 m3 -> same_settings m1 m3.
Proof.
  unfold same_settings. intros H1 H2.
  decompose [and] H1. decompose [and] H2. repeat split; congruence.
Qed.

Lemma render_pixel_ok (cx cy zx zy : R) (px py : nat) (st : render_state) :
  (0 <= max_iter (r_self st))%Z ->
  (0 < length (existing_vertices (r_self st)))%nat ->
  (quads_taken px py <= length (existing_quads (r_self st)))%nat ->
  (py < length (current_col st))%nat ->
  (py < length (previous_col st))%nat ->
  exists st', render_pixel cx cy zx zy px py st = Ok st' /\
    same_settings (r_self st) (r_self st') /\
    loaded (r_self st') = loaded (r_self st) /\
    S (length (existing_vertices (r_self st')))
      = length (existing_vertices (r_self st)) /\
    length (rendered_vertices (r_self st'))
      = S (length (rendered_vertices (r_self st))) /\
    (length (existing_quads (r_self st')) + quads_taken px py)%nat
      = length (existing_quads (r_self st)) /\
    length (rendered_quads (r_self st'))
      = (length (rendered_quads (r_self st)) + quads_taken px py)%nat /\
    length (current_col st') = length (current_col st) /\
    previous_col st' = previous_col st.
Proof.
  intros Hm Hv Hq Hc Hp. unfold render_pixel.
  destruct (pixel_sample_ok (r_self st) cx cy zx zy px py Hm) as [n [c [E _]]].
  rewrite E. cbn [bind].
  destruct (list_pop_nonempty _ Hv) as [v [pool [Ev Lv]]].
  rewrite Ev. cbn [bind].
  destruct (list_set_ok (current_col st) py (Some (vertex_id v)) Hc)
    as [col [Ec [Lc _]]].
  cbn [vertex_id]. rewrite Ec. cbn [bind].
  unfold quads_taken in *.
  destruct (Nat.ltb 0 px && Nat.ltb 0 py) eqn:Eq.
  - cbn [existing_quads set_rendered_vertices set_existing_vertices].
    destruct (list_pop_nonempty (existing_quads (r_self st))) as [q [qpool [Eqp Lq]]];
      [lia |].
    rewrite Eqp. cbn [bind].
    apply andb_true_iff in Eq. destruct Eq as [_ Hpy]. apply Nat.ltb_lt in Hpy.
    destruct (py_index_ok col py) as [v0 E0]; [lia |].
    destruct (py_index_ok col (py - 1)) as [v1 E1]; [lia |].
    destruct (py_index_ok (previous_col st) (py - 1)) as [v2 E2]; [lia |].
    destruct (py_index_ok (previous_col st) py) as [v3 E3]; [lia |].
    rewrite E0, E1, E2, E3. cbn [bind].
    eexists. split; [reflexivity |]. cbn.
    rewrite Lv, Lq, !length_app. cbn.
    repeat split; lia.
  - eexists. split; [reflexivity |]. cbn.
    rewrite Lv, !length_app. cbn.
    repeat split; lia.
Qed.

Lemma quads_taken_le (px py : nat) :
  (quads_taken px py <= (if Nat.ltb 0 py then 1 else 0))%nat.
Proof.
  unfold quads_taken. destruct (Nat.ltb 0 px), (Nat.ltb 0 py); simpl; lia.
Qed.

Lemma render_rows_ok (cx cy zx zy : R) (px : nat) (pys : list nat) :
  forall st : render_state,
  (0 <= max_iter (r_self st))%Z ->
  (length pys <= length (existing_vertices (r_self st)))%nat ->
  (length (filter (Nat.ltb 0) pys) <= length (existing_quads (r_self st)))%nat ->
  (forall py, In py pys ->
     (py < length (current_col st))%nat /\ (py < length (previous_col st))%nat) ->
  exists st', for_each pys (render_pixel cx cy zx zy px) st = Ok st' /\
    same_settings (r_self st) (r_self st') /\
    loaded (r_self st') = loaded (r_self st) /\
    (length (existing_vertices (r_self st')) + length pys)%nat
      = length (existing_vertices (r_self st)) /\
    length (rendered_vertices (r_self st'))
      = (length (rendered_vertices (r_self st)) + length pys)%nat /\
    (length (existing_quads (r_self st')) + length (rendered_quads (r_self st')))%nat
      = (length (existing_quads (r_self st)) + length (rendered_quads (r_self st)))%nat /\
    (length (existing_quads (r_self st))
      <= length (existing_quads (r_self st')) + length (filter (Nat.ltb 0) pys))%nat /\
    length (current_col st') = length (current_col st) /\
    previous_col st' = previous_col st.
Proof.
  induction pys as [| py pys IH]; intros st Hm Hv Hq Hc.
  - simpl. exists st. split; [reflexivity |].
    split; [apply same_settings_refl |]. simpl. repeat split; lia.
  - simpl in Hv. cbn [filter] in Hq.
    pose proof (quads_taken_le px py) as Hle.
    assert (Hq1 : (quads_taken px py <= length (existing_quads (r_self st)))%nat).
    { destruct (Nat.ltb 0 py); simpl in Hq; lia. }
    destruct (Hc py (or_introl eq_refl)) as [Hc1 Hc2].
    destruct (render_pixel_ok cx cy zx zy px py st Hm ltac:(lia) Hq1 Hc1 Hc2)
      as [st1 [E1 [S1 [L1 [V1 [R1 [Q1 [RQ1 [C1 P1]]]]]]]]].
    assert (Hm1 : (0 <= max_iter (r_self st1))%Z).
    { destruct S1 as [-> _]. exact Hm. }
    destruct (IH st1 Hm1) as [st2 [E2 [S2 [L2 [V2 [R2 [Q2 [QL2 [C2 P2]]]]]]]]].
    + lia.
    + destruct (Nat.ltb 0 py); simpl in Hq, Hle; lia.
    + intros py' Hin. rewrite C1, P1. apply Hc. right. exact Hin.
    + exists st2. cbn [for_each]. rewrite E1. cbn [bind].
      split; [exact E2 |].
      split; [eapply same_settings_trans; eassumption |].
      cbn [length filter].
      repeat split; try congruence; try lia.
      destruct (Nat.ltb 0 py); simpl in *; lia.
Qed.

Lemma render_column_ok (cx cy zx zy : R) (px : nat) (st : render_state) (H : nat) :
  H = Z.to_nat (height (r_self st)) ->
  (0 <= max_iter (r_self st))%Z ->
  (H <= length (existing_vertices (r_self st)))%nat ->
  (H - 1 <= length (existing_quads (r_self st)))%nat ->
  length (current_col st) = H ->
  length (previous_col st) = H ->
  exists st', render_column cx cy zx zy px st = Ok st' /\
    same_settings (r_self st) (r_self st') /\
    loaded (r_self st') = loaded (r_self st) /\
    (length (existing_vertices (r_self st')) + H)%nat
      = length (existing_vertices (r_self st)) /\
    length (rendered_vertices (r_self st'))
      = (length (rendered_vertices (r_self st)) + H)%nat /\
    (length (existing_quads (r_self st')) + length (rendered_quads (r_self st')))%nat
      = (length (existing_quads (r_self st)) + length (rendered_quads (r_self st)))%nat /\
    (length (existing_quads (r_self st))
      <= length (existing_quads (r_self st')) + (H - 1))%nat /\
    length (current_col st') = H /\
    length (previous_col st') = H.
Proof.
  intros HH Hm Hv Hq Hc Hp. unfold render_column, py_range. rewrite <- HH.
  destruct (render_rows_ok cx cy zx zy px (seq 0 H) st Hm)
    as [st1 [E1 [S1 [L1 [V1 [R1 [Q1 [QL1 [C1 P1]]]]]]]]].
  - rewrite length_seq. exact Hv.
  - rewrite seq_positive_count. exact Hq.
  - intros py Hin. apply in_seq in Hin. lia.
  - rewrite E1. cbn [bind]. eexists. split; [reflexivity |]. cbn.
    rewrite length_seq in V1, R1. rewrite seq_positive_count in QL1.
    split; [exact S1 |]. repeat split; try assumption; try lia.
Qed.

Lemma render_columns_ok (cx cy zx zy : R) (H : nat) (pxs : list nat) :
  forall st : render_state,
  H = Z.to_nat (height (r_self st)) ->
  (0 <= max_iter (r_self st))%Z ->
  (length pxs * H <= length (existing_vertices (r_self st)))%nat ->
  (length pxs * (H - 1) <= length (existing_quads (r_self st)))%nat ->
  length (current_col st) = H ->
  length (previous_col st) = H ->
  exists st', for_each pxs (render_column cx cy zx zy) st = Ok st' /\
    same_settings (r_self st) (r_self st') /\
    loaded (r_self st') = loaded (r_self st) /\
    (length (existing_vertices (r_self st')) + length pxs * H)%nat
      = length (existing_vertices (r_self st)) /\
    length (rendered_vertices (r_self st'))
      = (length (rendered_vertices (r_self st)) + length pxs * H)%nat /\
    (length (existing_quads (r_self st')) + length (rendered_quads (r_self st')))%nat
      = (length (existing_quads (r_self st)) + length (rendered_quads (r_self st)))%nat.
Proof.
  induction pxs as [| px pxs IH]; intros st HH Hm Hv Hq Hc Hp.
  - simpl. exists st. split; [reflexivity |].
    split; [apply same_settings_refl |]. repeat split; lia.
  - cbn [length] in Hv, Hq. rewrite Nat.mul_succ_l in Hv, Hq.
    destruct (render_column_ok cx cy zx zy px st H HH Hm)
      as [st1 [E1 [S1 [L1 [V1 [R1 [Q1 [QL1 [C1 P1]]]]]]]]];
      try assumption; try nia.
    assert (Hh : H = Z.to_nat (height (r_self st1))).
    { destruct S1 as (_ & _ & _ & _ & _ & -> & _). exact HH. }
    assert (Hm1 : (0 <= max_iter (r_self st1))%Z).
    { destruct S1 as [-> _]. exact Hm. }
    destruct (IH st1 Hh Hm1) as [st2 [E2 [S2 [L2 [V2 [R2 Q2]]]]]];
      try assumption; try nia.
    exists st2. cbn [for_each]. rewrite E1. cbn [bind].
    split; [exact E2 |].
    split; [eapply same_settings_trans; eassumption |].
    cbn [length]. rewrite Nat.mul_succ_l. repeat split; try congruence; nia.
Qed.

Lemma load_new_mandelbrot_ok (self : Mandelbrot) :
  (0 <= max_iter self)%Z ->
  (0 < height self)%Z ->
  (0 < width self)%Z ->
  (height self * width self <= Z.of_nat (length (existing_vertices self)))%Z ->
  ((height self - 1) * width self <= Z.of_nat (length (existing_quads self)))%Z ->
  exists m', __load_new_mandelbrot self = Ok m' /\
    same_settings self m' /\
    loaded m' = true /\
    total_vertices m' = total_vertices self /\
    total_quads m' = total_quads self /\
    Z.of_nat (length (rendered_vertices m'))
      = (Z.of_nat (length (rendered_vertices self)) + height self * width self)%Z.
Proof.
  intros Hm Hh Hw Hv Hq. unfold __load_new_mandelbrot.
  cbn [width height x_min x_max y_min y_max set_loaded].
  rewrite !py_div_ok by (apply not_0_IZR; lia). cbn [bind].
  unfold py_range.
  match goal with
  | |- context [for_each _ (render_column ?cx ?cy ?zx ?zy) ?st] =>
      destruct (render_columns_ok cx cy zx zy (Z.to_nat (height self))
                  (seq 0 (Z.to_nat (width self))) st)
        as [st' [E [S [L [V [Rv Q]]]]]]
  end.
  - reflexivity.
  - exact Hm.
  - cbn. rewrite length_seq. nia.
  - cbn. rewrite length_seq. nia.
  - cbn. apply repeat_length.
  - cbn. apply repeat_length.
  - rewrite E. cbn [bind]. eexists. split; [reflexivity |].
    cbn in S, V, Rv, Q. rewrite length_seq in V, Rv.
    split; [cbn; exact S |]. cbn. unfold total_vertices, total_quads. cbn.
    repeat split; try lia; nia.
Qed.

Lemma load_fresh_object_spec (m : Mandelbrot) (i : nat) :
  let m' := load_fresh_object m i in
  same_settings m m' /\ loaded m' = loaded m /\
  rendered_vertices m' = rendered_vertices m /\
  rendered_quads m' = rendered_quads m /\
  length (existing_vertices m') = S (length (existing_vertices m)) /\
  length (existing_quads m')
    = if (Z.of_nat (length (existing_quads m)) <? (height m - 1) * width m)%Z
      then S (length (existing_quads m)) else length (existing_quads m).
Proof.
  unfold load_fresh_object. cbn.
  destruct (Z.of_nat (length (existing_quads m)) <? (height m - 1) * width m)%Z;
    unfold same_settings; cbn; rewrite ?length_app; cbn; repeat split; lia.
Qed.

Lemma load_fresh_fold (items : list nat) :
  forall m : Mandelbrot,
  let m' := fold_left load_fresh_object items m in
  let Q := Z.of_nat (length (existing_quads m)) in
  same_settings m m' /\ loaded m' = loaded m /\
  rendered_vertices m' = rendered_vertices m /\
  rendered_quads m' = rendered_quads m /\
  length (existing_vertices m')
    = (length (existing_vertices m) + length items)%nat /\
  Z.of_nat (length (existing_quads m'))
    = Z.max Q (Z.min (Q + Z.of_nat (length items)) ((height m - 1) * width m)).
Proof.
  induction items as [| i items IH]; intros m; cbn zeta.
  - simpl. split; [apply same_settings_refl |]. repeat split; lia.
  - cbn [fold_left length].
    pose proof (load_fresh_object_spec m i) as S1. cbn zeta in S1.
    destruct S1 as (S1 & L1 & RV1 & RQ1 & V1 & Q1).
    specialize (IH (load_fresh_object m i)). cbn zeta in IH.
    destruct IH as (S2 & L2 & RV2 & RQ2 & V2 & Q2).
    split; [eapply same_settings_trans; eassumption |].
    assert (Hh : height (load_fresh_object m i) = height m)
      by (destruct S1 as (_ & _ & _ & _ & _ & -> & _); reflexivity).
    assert (Hw : width (load_fresh_object m i) = width m)
      by (destruct S1 as (_ & _ & _ & _ & _ & _ & -> & _); reflexivity).
    rewrite Hh, Hw in Q2. rewrite Q2, Q1.
    repeat split; try congruence; try lia.
    destruct (Z.ltb_spec (Z.of_nat (length (existing_quads m)))
                ((height m - 1) * width m)); lia.
Qed.

Lemma load_fresh_objects_spec (n : Z) (m : Mandelbrot) :
  let m' := __load_fresh_objects n m in
  let Q := Z.of_nat (length (existing_quads m)) in
  same_settings m m' /\ loaded m' = loaded m /\
  rendered_vertices m' = rendered_vertices m /\
  rendered_quads m' = rendered_quads m /\
  Z.of_nat (length (existing_vertices m'))
    = (Z.of_nat (length (existing_vertices m)) + Z.max 0 n)%Z /\
  Z.of_nat (length (existing_quads m'))
    = Z.max Q (Z.min (Q + Z.max 0 n) ((height m - 1) * width m)).
Proof.
  cbn zeta. unfold __load_fresh_objects, py_range.
  pose proof (load_fresh_fold (seq 0 (Z.to_nat n)) m) as F. cbn zeta in F.
  rewrite length_seq in F.
  destruct F as (S1 & L1 & RV1 & RQ1 & V1 & Q1).
  repeat split; try assumption; try apply S1; lia.
Qed.

Lemma recycle_old_vertices_spec (m : Mandelbrot) :
  let m' := __recycle_old_vertices m in
  same_settings m m' /\ loaded m' = loaded m /\
  rendered_vertices m' = [] /\ rendered_quads m' = [] /\
  length (existing_vertices m') = total_vertices m /\
  length (existing_quads m') = total_quads m.
Proof.
  unfold __recycle_old_vertices, total_vertices, total_quads. cbn.
  rewrite !length_app, length_map. unfold same_settings. cbn. repeat split.
Qed.

Lemma change_parameters_ok (mi : Z) (a b c d : R) (h w : Z) (cm : string)
    (m : Mandelbrot) :
  (0 <= mi)%Z -> (0 < h)%Z -> (0 < w)%Z ->
  ((h - 1) * w
     <= quads_after (Z.of_nat (total_vertices m)) (Z.of_nat (total_quads m)) h w)%Z ->
  exists m', change_parameters mi [a; b; c; d] [h; w] cm m = Ok m' /\
             applied mi [a; b; c; d] h w cm m m'.
Proof.
  intros Hmi Hh Hw Hq. unfold change_parameters.
  cbn [py_index nth_error bind].
  match goal with
  | |- context [__load_fresh_objects _ ?m0] => set (m1 := m0)
  end.
  match goal with
  | |- context [__load_fresh_objects ?n m1] => set (N := n)
  end.
  pose proof (recycle_old_vertices_spec (set_loaded false m)) as Rc.
  cbn zeta in Rc. destruct Rc as (Rs & _ & Rrv & Rrq & Rv & Rq).
  assert (E1 : existing_vertices m1
               = existing_vertices (__recycle_old_vertices (set_loaded false m)))
    by reflexivity.
  assert (E2 : existing_quads m1
               = existing_quads (__recycle_old_vertices (set_loaded false m)))
    by reflexivity.
  assert (E3 : rendered_vertices m1 = []) by exact Rrv.
  assert (E4 : rendered_quads m1 = []) by exact Rrq.
  assert (E5 : height m1 = h) by reflexivity.
  assert (E6 : width m1 = w) by reflexivity.
  assert (E7 : max_iter m1 = mi) by reflexivity.
  assert (E8 : viewport m1 = [a; b; c; d]) by reflexivity.
  assert (E9 : colormap m1 = cm) by reflexivity.
  assert (E10 : dimensions_undo_list m1
                = dimensions_undo_list m ++ [[a; b; c; d]]) by reflexivity.
  assert (E11 : dimensions_redo_list m1 = dimensions_redo_list m) by reflexivity.
  assert (EN : N = (h * w - Z.of_nat (total_vertices m))%Z).
  { unfold N. rewrite E1, E5, E6, Rv. reflexivity. }
  change (total_vertices (set_loaded false m)) with (total_vertices m) in Rv.
  change (total_quads (set_loaded false m)) with (total_quads m) in Rq.
  clearbody m1 N.
  pose proof (load_fresh_objects_spec N m1) as F. cbn zeta in F.
  destruct F as (Fs & _ & Frv & Frq & Fv & Fq).
  set (m2 := __load_fresh_objects N m1) in *. clearbody m2.
  unfold same_settings in Fs.
  destruct Fs as (S1 & S2 & S3 & S4 & S5 & S6 & S7 & S8 & S9 & S10).
  rewrite E1, Rv in Fv. rewrite E2, Rq, E5, E6 in Fq.
  unfold quads_after in Hq.
  destruct (load_new_mandelbrot_ok m2) as [m' [E' [S' [L' [V' [Q' Rv']]]]]].
  - rewrite S1, E7. exact Hmi.
  - rewrite S6, E5. exact Hh.
  - rewrite S7, E6. exact Hw.
  - rewrite S6, S7, E5, E6, Fv, EN. lia.
  - rewrite S6, S7, E5, E6, Fq, EN. exact Hq.
  - exists m'. split; [exact E' |].
    unfold same_settings in S'.
    destruct S' as (T1 & T2 & T3 & T4 & T5 & T6 & T7 & T8 & T9 & T10).
    unfold viewport in *. unfold applied, viewport, quads_after.
    injection E8 as Ea Eb Ec Ed.
    rewrite Frv, E3 in Rv'. cbn [length] in Rv'.
    assert (TV : Z.of_nat (total_vertices m2)
                 = (Z.of_nat (total_vertices m) + Z.max 0 N)%Z).
    { unfold total_vertices at 1. rewrite Frv, E3. cbn [length]. lia. }
    assert (TQ : Z.of_nat (total_quads m2)
                 = Z.max (Z.of_nat (total_quads m))
                     (Z.min (Z.of_nat (total_quads m) + Z.max 0 N) ((h - 1) * w))).
    { unfold total_quads at 1. rewrite Frq, E4. cbn [length]. lia. }
    repeat split; try congruence.
    + rewrite Rv', S6, S7, E5, E6. lia.
    + rewrite V', TV, EN. lia.
Qed.

(* ================================================================== *)
(** * The session invariant *)

Lemma preset_cases (h w : Z) :
  is_preset h w ->
  (h = 30 /\ w = 45 \/ h = 60 /\ w = 90 \/ h = 120 /\ w = 180 \/
   h = 180 /\ w = 270 \/ h = 240 /\ w = 360 \/ h = 480 /\ w = 720)%Z.
Proof.
  unfold is_preset, resolution_choices. simpl. intros H.
  repeat (destruct H as [H | H]; [injection H as <- <-; tauto |]).
  contradiction.
Qed.

(** Settles an arithmetic goal about two presets by going through the
    thirty-six pairs. *)
Ltac by_presets HM Hp :=
  apply preset_cases in HM, Hp;
  destruct HM as [[-> ->] | [[-> ->] | [[-> ->] | [[-> ->] | [[-> ->] | [-> ->]]]]]];
  destruct Hp as [[-> ->] | [[-> ->] | [[-> ->] | [[-> ->] | [[-> ->] | [-> ->]]]]]];
  lia.

Lemma preset_positive (h w : Z) : is_preset h w -> (0 < h /\ 0 < w)%Z.
Proof. intros H. apply preset_cases in H. lia. Qed.

Lemma preset_pool (hM wM h w : Z) :
  is_preset hM wM -> is_preset h w ->
  ((h - 1) * w <= quads_after (hM * wM) ((hM - 1) * wM) h w)%Z /\
  exists hM' wM',
    is_preset hM' wM' /\ (h <= hM')%Z /\
    Z.max (hM * wM) (h * w) = (hM' * wM')%Z /\
    quads_after (hM * wM) ((hM - 1) * wM) h w = ((hM' - 1) * wM')%Z.
Proof.
  intros HM Hp. unfold quads_after.
  destruct (Z_le_gt_dec h hM) as [Hle | Hgt].
  - split.
    + by_presets HM Hp.
    + exists hM, wM. split; [exact HM |]. split; [exact Hle |].
      by_presets HM Hp.
  - split.
    + by_presets HM Hp.
    + exists h, w. split; [exact Hp |]. split; [lia |].
      by_presets HM Hp.
Qed.

Lemma length4 {A : Type} (l : list A) :
  length l = 4%nat -> exists a b c d, l = [a; b; c; d].
Proof.
  intros H. destruct l as [| a [| b [| c [| d [| e l]]]]]; try discriminate H.
  exists a, b, c, d. reflexivity.
Qed.

Lemma change_parameters_wf (m : Mandelbrot) (mi : Z) (dims : list R)
    (h w : Z) (cm : string) :
  pool_inv m -> is_preset h w -> (1 <= mi <= 1000)%Z ->
  length dims = 4%nat ->
  Forall (fun d : list R => length d = 4%nat)
    (dimensions_undo_list m ++ dimensions_redo_list m) ->
  exists m', change_parameters mi dims [h; w] cm m = Ok m' /\
             applied mi dims h w cm m m' /\ wf m'.
Proof.
  intros (hM & wM & HM & _ & HV & HQ) Hp Hmi Hd Hall.
  destruct (length4 dims Hd) as (a & b & c & d & ->).
  destruct (preset_positive h w Hp) as [Hh Hw].
  destruct (preset_pool hM wM h w HM Hp) as [Hq (hM' & wM' & HM' & Hle & EV & EQ)].
  destruct (change_parameters_ok mi a b c d h w cm m) as [m' [E A]];
    try lia.
  { rewrite HV, HQ. exact Hq. }
  exists m'. split; [exact E |]. split; [exact A |].
  destruct A as (A1 & A2 & A3 & A4 & A5 & A6 & A7 & A8 & A9 & A10 & A11).
  constructor.
  - rewrite A3, A4. exact Hp.
  - exists hM', wM'. rewrite A3, A10, A11, HV, HQ. auto.
  - exists (dimensions_undo_list m). rewrite A6, A2. reflexivity.
  - rewrite A6, A7. apply Forall_app in Hall. destruct Hall as [Hu Hr].
    apply Forall_app. split; [| exact Hr].
    apply Forall_app. split; [exact Hu |]. constructor; [exact Hd | constructor].
  - rewrite A1. exact Hmi.
Qed.

Lemma applied_totals (mi : Z) (dims : list R) (h w : Z) (cm : string)
    (m m' : Mandelbrot) :
  applied mi dims h w cm m m' ->
  (total_vertices m <= total_vertices m')%nat /\
  (total_quads m <= total_quads m')%nat.
Proof.
  intros (_ & _ & _ & _ & _ & _ & _ & _ & _ & A10 & A11).
  unfold quads_after in A11. lia.
Qed.

Lemma wf_set_loaded (b : bool) (m : Mandelbrot) : wf m -> wf (set_loaded b m).
Proof. intros [H1 H2 H3 H4 H5]. constructor; assumption. Qed.

Lemma wf_pop_undo (m : Mandelbrot) :
  wf m ->
  exists older,
    dimensions_undo_list m = older ++ [viewport m] /\
    list_pop (dimensions_undo_list m) = Ok (viewport m, older) /\
    Forall (fun d : list R => length d = 4%nat) (older ++ dimensions_redo_list m).
Proof.
  intros [_ _ [older E] Hall _]. exists older. split; [exact E |].
  rewrite E. split; [apply list_pop_app |].
  rewrite E in Hall. rewrite <- app_assoc in Hall.
  apply Forall_app in Hall. destruct Hall as [H1 H2].
  apply Forall_app in H2. destruct H2 as [_ H2].
  apply Forall_app. auto.
Qed.

(** A settings handler: pop the current view, apply it again. *)
Lemma reapply_view (m : Mandelbrot) (mi h w : Z) (cm : string) :
  wf m -> is_preset h w -> (1 <= mi <= 1000)%Z ->
  exists older m',
    list_pop (dimensions_undo_list m) = Ok (viewport m, older) /\
    change_parameters mi (viewport m) [h; w] cm
      (set_dimensions_undo_list older m) = Ok m' /\
    wf m' /\ loaded m' = true /\
    max_iter m' = mi /\ height m' = h /\ width m' = w /\ colormap m' = cm /\
    viewport m' = viewport m /\
    dimensions_undo_list m' = dimensions_undo_list m /\
    dimensions_redo_list m' = dimensions_redo_list m /\
    (total_vertices m <= total_vertices m')%nat /\
    (total_quads m <= total_quads m')%nat /\
    Z.of_nat (length (rendered_vertices m')) = (h * w)%Z.
Proof.
  intros Hwf Hp Hmi.
  destruct (wf_pop_undo m Hwf) as (older & E & Epop & Hall).
  destruct (change_parameters_wf (set_dimensions_undo_list older m) mi
              (viewport m) h w cm) as (m' & Ecp & A & Hwf');
    try assumption; try reflexivity.
  { exact (wf_pool m Hwf). }
  exists older, m'. split; [exact Epop |]. split; [exact Ecp |].
  split; [exact Hwf' |].
  destruct (applied_totals _ _ _ _ _ _ _ A) as [T1 T2].
  destruct A as (A1 & A2 & A3 & A4 & A5 & A6 & A7 & A8 & A9 & _).
  cbn in A6, A7. rewrite <- E in A6.
  repeat split; assumption.
Qed.

Lemma finite_values_ok (xs : list pyfloat) (z : list R) :
  finite_values xs = Ok z <-> xs = map Finite z.
Proof.
  revert z; induction xs as [| x xs IH]; intros z; split; intros H.
  - cbn [finite_values] in H. injection H as <-. reflexivity.
  - destruct z; [reflexivity | discriminate H].
  - destruct x as [x | |]; cbn [finite_values] in H; try discriminate H.
    apply bind_ok in H. destruct H as (r & Er & H). injection H as <-.
    apply IH in Er. subst xs. reflexivity.
  - destruct z as [| y z]; [discriminate H |].
    cbn [map] in H. injection H as -> ->. cbn [finite_values].
    rewrite (proj2 (IH z) eq_refl). reflexivity.
Qed.

Lemma float_ge_finite (a b : R) :
  float_ge (Finite a) (Finite b) = false <-> a < b.
Proof.
  cbn [float_ge]. destruct (Rge_dec a b); split; intros H;
    try reflexivity; try discriminate H; lra.
Qed.

(** What the [try] block lets through: four floats, neither pair with
    its first at or above its second. *)
Lemma parse_dimensions_inv (text : string) (dims : list pyfloat) :
  parse_dimensions text = Ok dims <->
  exists a b c d,
    dims = [a; b; c; d] /\
    floats_of (split (Some text) ",") = Ok dims /\
    float_ge a b = false /\ float_ge c d = false.
Proof.
  unfold parse_dimensions. split.
  - intros H. destruct (floats_of (split (Some text) ",")) as [l | e];
      [| discriminate H].
    cbn [bind] in H.
    destruct l as [| a [| b [| c [| d [| e l]]]]]; try discriminate H.
    cbn in H.
    destruct (float_ge a b) eqn:Eab; [discriminate H |].
    destruct (float_ge c d) eqn:Ecd; [discriminate H |].
    inv_ok H. exists a, b, c, d. auto.
  - intros (a & b & c & d & -> & E & Hab & Hcd). rewrite E. cbn.
    rewrite Hab, Hcd. reflexivity.
Qed.

Lemma parse_dimensions_ok (text : string) (dims : list R) :
  parse_dimensions text = Ok (map Finite dims) <->
  exists a b c d, dims = [a; b; c; d] /\ valid_dimensions text a b c d.
Proof.
  unfold valid_dimensions. rewrite parse_dimensions_inv. split.
  - intros (a & b & c & d & E & F & Hab & Hcd).
    destruct dims as [| a' [| b' [| c' [| d' [| e' l]]]]]; try discriminate E.
    cbn [map] in E. injection E as <- <- <- <-.
    exists a', b', c', d'. split; [reflexivity |].
    split; [exact F |]. split; apply float_ge_finite; assumption.
  - intros (a & b & c & d & -> & E & Hab & Hcd).
    exists (Finite a), (Finite b), (Finite c), (Finite d).
    split; [reflexivity |]. split; [exact E |].
    split; apply float_ge_finite; assumption.
Qed.

Lemma parse_dimensions_length (text : string) (dims : list R) :
  parse_dimensions text = Ok (map Finite dims) -> length dims = 4%nat.
Proof.
  intros H. apply parse_dimensions_ok in H.
  destruct H as (a & b & c & d & -> & _). reflexivity.
Qed.

Lemma resize_box_release_wf (p q : vec) (w : World) :
  wf (mandelbrot w) ->
  exists dims m',
    resize_box_release p q w = Ok (set_mandelbrot m' w) /\
    applied (max_iter (mandelbrot w)) dims (height (mandelbrot w))
      (width (mandelbrot w)) (colormap (mandelbrot w)) (mandelbrot w) m' /\
    wf m'.
Proof.
  intros Hwf. unfold resize_box_release.
  destruct (preset_positive _ _ (wf_preset _ Hwf)) as [Hh Hw].
  rewrite !py_div_ok by (apply not_0_IZR; lia). cbn [bind].
  match goal with
  | |- context [change_parameters _ ?d _ _ _] => set (dims := d)
  end.
  destruct (change_parameters_wf (mandelbrot w) (max_iter (mandelbrot w)) dims
              (height (mandelbrot w)) (width (mandelbrot w))
              (colormap (mandelbrot w))) as (m' & E & A & Hwf').
  - exact (wf_pool _ Hwf).
  - exact (wf_preset _ Hwf).
  - exact (wf_depth _ Hwf).
  - reflexivity.
  - exact (wf_dims _ Hwf).
  - exists dims, m'. rewrite E. cbn [bind]. auto.
Qed.

Lemma undo_step (m : Mandelbrot) (mi h w : Z) (cm : string)
    (ignored : list R) (rest : list (list R)) (previous : list R) :
  wf m -> is_preset h w -> (1 <= mi <= 1000)%Z ->
  dimensions_undo_list m = rest ++ [previous; viewport m] ->
  exists m',
    load_recent_dimensions false mi ignored [h; w] cm m = Ok m' /\
    wf m' /\ loaded m' = true /\
    max_iter m' = mi /\ height m' = h /\ width m' = w /\ colormap m' = cm /\
    viewport m' = previous /\
    dimensions_undo_list m' = rest ++ [previous] /\
    dimensions_redo_list m' = dimensions_redo_list m ++ [viewport m] /\
    (total_vertices m <= total_vertices m')%nat /\
    (total_quads m <= total_quads m')%nat.
Proof.
  intros Hwf Hp Hmi E. unfold load_recent_dimensions.
  cbn [dimensions_undo_list set_loaded dimensions_redo_list].
  assert (E' : dimensions_undo_list m = (rest ++ [previous]) ++ [viewport m])
    by (rewrite E, <- app_assoc; reflexivity).
  assert (Hlen : Nat.leb (length (dimensions_undo_list m)) 1 = false).
  { apply Nat.leb_gt. rewrite E, length_app. simpl. lia. }
  rewrite Hlen. rewrite E'. rewrite list_pop_app. cbn [bind].
  cbn [dimensions_undo_list set_dimensions_undo_list set_dimensions_redo_list].
  rewrite list_pop_app. cbn [bind].
  pose proof (wf_dims m Hwf) as Hall. rewrite E in Hall.
  apply Forall_app in Hall. destruct Hall as [Hu Hr].
  apply Forall_app in Hu. destruct Hu as [Hrest Hlast].
  inversion Hlast as [| x l Hprev Hl2]; subst.
  inversion Hl2 as [| x l Hvp _]; subst.
  match goal with
  | |- context [change_parameters _ _ _ _ ?m0] => set (m1 := m0)
  end.
  destruct (change_parameters_wf m1 mi previous h w cm)
    as (m' & Ecp & A & Hwf'); try assumption.
  { exact (wf_pool m Hwf). }
  { unfold m1. cbn. apply Forall_app. split; [exact Hrest |].
    apply Forall_app. split; [exact Hr |]. constructor; [exact Hvp | constructor]. }
  exists m'. split; [exact Ecp |]. split; [exact Hwf' |].
  destruct (applied_totals _ _ _ _ _ _ _ A) as [T1 T2].
  destruct A as (A1 & A2 & A3 & A4 & A5 & A6 & A7 & A8 & _).
  unfold m1 in A6, A7. cbn in A6, A7.
  repeat split; assumption.
Qed.

Lemma redo_step (m : Mandelbrot) (mi h w : Z) (cm : string)
    (ignored : list R) (rest : list (list R)) (next : list R) :
  wf m -> is_preset h w -> (1 <= mi <= 1000)%Z ->
  dimensions_redo_list m = rest ++ [next] ->
  exists m',
    load_recent_dimensions true mi ignored [h; w] cm m = Ok m' /\
    wf m' /\ loaded m' = true /\
    max_iter m' = mi /\ height m' = h /\ width m' = w /\ colormap m' = cm /\
    viewport m' = next /\
    dimensions_undo_list m' = dimensions_undo_list m ++ [next] /\
    dimensions_redo_list m' = rest /\
    (total_vertices m <= total_vertices m')%nat /\
    (total_quads m <= total_quads m')%nat.
Proof.
  intros Hwf Hp Hmi E. unfold load_recent_dimensions.
  cbn [dimensions_redo_list set_loaded].
  assert (Hlen : Nat.ltb 0 (length (dimensions_redo_list m)) = true).
  { apply Nat.ltb_lt. rewrite E, length_app. simpl. lia. }
  rewrite Hlen. rewrite E. rewrite list_pop_app. cbn [bind].
  pose proof (wf_dims m Hwf) as Hall. rewrite E in Hall.
  apply Forall_app in Hall. destruct Hall as [Hu Hr].
  apply Forall_app in Hr. destruct Hr as [Hrest Hlast].
  inversion Hlast as [| x l Hnext _]; subst.
  match goal with
  | |- context [change_parameters _ _ _ _ ?m0] => set (m1 := m0)
  end.
  destruct (change_parameters_wf m1 mi next h w cm)
    as (m' & Ecp & A & Hwf'); try assumption.
  { exact (wf_pool m Hwf). }
  { unfold m1. cbn. apply Forall_app. split; assumption. }
  exists m'. split; [exact Ecp |]. split; [exact Hwf' |].
  destruct (applied_totals _ _ _ _ _ _ _ A) as [T1 T2].
  destruct A as (A1 & A2 & A3 & A4 & A5 & A6 & A7 & A8 & _).
  unfold m1 in A6, A7. cbn in A6, A7.
  repeat split; assumption.
Qed.

Lemma undo_exhausted (m : Mandelbrot) (mi : Z) (ignored : list R)
    (res : list Z) (cm : string) :
  (length (dimensions_undo_list m) <= 1)%nat ->
  load_recent_dimensions false mi ignored res cm m = Ok (set_loaded false m).
Proof.
  intros H. unfold load_recent_dimensions.
  cbn [dimensions_undo_list set_loaded].
  apply Nat.leb_le in H. rewrite H. reflexivity.
Qed.

Lemma redo_exhausted (m : Mandelbrot) (mi : Z) (ignored : list R)
    (res : list Z) (cm : string) :
  dimensions_redo_list m = [] ->
  load_recent_dimensions true mi ignored res cm m = Ok (set_loaded false m).
Proof.
  intros H. unfold load_recent_dimensions.
  cbn [dimensions_redo_list set_loaded]. rewrite H. reflexivity.
Qed.

Lemma resolution_choice (index : nat) (res : list Z) :
  nth_error resolution_choices index = Some res ->
  exists h w, res = [h; w] /\ is_preset h w.
Proof.
  intros H. apply nth_error_In in H. unfold is_preset.
  unfold resolution_choices in *. simpl in H.
  repeat (destruct H as [H | H]; [subst res; eexists; eexists; split;
                                   [reflexivity | simpl; tauto] |]).
  contradiction.
Qed.

Lemma change_resolution_ok (index : nat) (h wd : Z) (w : World) :
  wf (mandelbrot w) -> loaded (mandelbrot w) = true ->
  nth_error resolution_choices index = Some [h; wd] ->
  exists m',
    change_resolution index w = Ok (set_mandelbrot m' w) /\
    wf m' /\ loaded m' = true /\
    max_iter m' = max_iter (mandelbrot w) /\
    height m' = h /\ width m' = wd /\
    colormap m' = colormap (mandelbrot w) /\
    viewport m' = viewport (mandelbrot w) /\
    dimensions_undo_list m' = dimensions_undo_list (mandelbrot w) /\
    dimensions_redo_list m' = dimensions_redo_list (mandelbrot w) /\
    (total_vertices (mandelbrot w) <= total_vertices m')%nat /\
    (total_quads (mandelbrot w) <= total_quads m')%nat /\
    Z.of_nat (length (rendered_vertices m')) = (h * wd)%Z.
Proof.
  intros Hwf Hl Hidx. unfold change_resolution. rewrite Hl. cbn [negb].
  destruct (resolution_choice _ _ Hidx) as (h0 & w0 & E0 & Hp).
  injection E0 as <- <-.
  destruct (reapply_view (mandelbrot w) (max_iter (mandelbrot w)) h wd
              (colormap (mandelbrot w)) Hwf Hp (wf_depth _ Hwf))
    as (older & m' & Epop & Ecp & Rest).
  run Epop. unfold py_index. rewrite Hidx. cbn [bind].
  run Ecp. exists m'. split; [reflexivity | exact Rest].
Qed.

Lemma change_colormap_ok (selected : string) (w : World) :
  wf (mandelbrot w) -> loaded (mandelbrot w) = true ->
  exists m',
    change_colormap selected w = Ok (set_mandelbrot m' w) /\
    wf m' /\ loaded m' = true /\
    max_iter m' = max_iter (mandelbrot w) /\
    height m' = height (mandelbrot w) /\ width m' = width (mandelbrot w) /\
    colormap m' = selected /\
    viewport m' = viewport (mandelbrot w) /\
    dimensions_undo_list m' = dimensions_undo_list (mandelbrot w) /\
    dimensions_redo_list m' = dimensions_redo_list (mandelbrot w) /\
    (total_vertices (mandelbrot w) <= total_vertices m')%nat /\
    (total_quads (mandelbrot w) <= total_quads m')%nat /\
    Z.of_nat (length (rendered_vertices m')) = (height (mandelbrot w) * width (mandelbrot w))%Z.
Proof.
  intros Hwf Hl. unfold change_colormap. rewrite Hl. cbn [negb].
  destruct (reapply_view (mandelbrot w) (max_iter (mandelbrot w))
              (height (mandelbrot w)) (width (mandelbrot w)) selected
              Hwf (wf_preset _ Hwf) (wf_depth _ Hwf))
    as (older & m' & Epop & Ecp & Rest).
  run Epop. run Ecp. exists m'. split; [reflexivity | exact Rest].
Qed.

Lemma change_search_depth_ok (number : R) (w : World) :
  wf (mandelbrot w) -> loaded (mandelbrot w) = true ->
  1 <= number <= 1000 ->
  exists m',
    change_search_depth number w = Ok (set_mandelbrot m' w) /\
    wf m' /\ loaded m' = true /\
    max_iter m' = py_int number /\
    height m' = height (mandelbrot w) /\ width m' = width (mandelbrot w) /\
    colormap m' = colormap (mandelbrot w) /\
    viewport m' = viewport (mandelbrot w) /\
    dimensions_undo_list m' = dimensions_undo_list (mandelbrot w) /\
    dimensions_redo_list m' = dimensions_redo_list (mandelbrot w) /\
    (total_vertices (mandelbrot w) <= total_vertices m')%nat /\
    (total_quads (mandelbrot w) <= total_quads m')%nat /\
    Z.of_nat (length (rendered_vertices m')) = (height (mandelbrot w) * width (mandelbrot w))%Z.
Proof.
  intros Hwf Hl Hn. unfold change_search_depth. rewrite Hl. cbn [negb].
  destruct (Rlt_dec number 1); [lra |].
  destruct (Rgt_dec number 1000); [lra |].
  assert (Hmi : (1 <= py_int number <= 1000)%Z)
    by (apply py_int_range; [lia | lra | lra]).
  destruct (reapply_view (mandelbrot w) (py_int number)
              (height (mandelbrot w)) (width (mandelbrot w))
              (colormap (mandelbrot w)) Hwf (wf_preset _ Hwf) Hmi)
    as (older & m' & Epop & Ecp & Rest).
  run Epop. run Ecp. exists m'. split; [reflexivity | exact Rest].
Qed.

Lemma change_search_depth_rejected (number : R) (w : World) :
  loaded (mandelbrot w) = true -> number < 1 \/ number > 1000 ->
  change_search_depth number w
    = Ok (print "Please enter a number between 1 - 1000" w).
Proof.
  intros Hl Hn. unfold change_search_depth. rewrite Hl. cbn [negb].
  destruct (Rlt_dec number 1); [reflexivity |].
  destruct (Rgt_dec number 1000); [reflexivity | lra].
Qed.

Lemma change_image_dimensions_ok (text : string) (dims : list R) (w : World) :
  wf (mandelbrot w) -> loaded (mandelbrot w) = true ->
  parse_dimensions text = Ok (map Finite dims) ->
  exists m',
    change_image_dimensions text w = Ok (set_mandelbrot m' w) /\
    change_parameters (max_iter (mandelbrot w)) dims
      [height (mandelbrot w); width (mandelbrot w)] (colormap (mandelbrot w))
      (mandelbrot w) = Ok m' /\
    applied (max_iter (mandelbrot w)) dims (height (mandelbrot w))
      (width (mandelbrot w)) (colormap (mandelbrot w)) (mandelbrot w) m' /\
    wf m'.
Proof.
  intros Hwf Hl Hparse. unfold change_image_dimensions.
  rewrite Hl, Hparse. cbn [negb].
  rewrite (proj2 (finite_values_ok (map Finite dims) dims) eq_refl).
  cbn [bind].
  destruct (change_parameters_wf (mandelbrot w) (max_iter (mandelbrot w)) dims
              (height (mandelbrot w)) (width (mandelbrot w))
              (colormap (mandelbrot w))) as (m' & E & A & Hwf').
  - exact (wf_pool _ Hwf).
  - exact (wf_preset _ Hwf).
  - exact (wf_depth _ Hwf).
  - exact (parse_dimensions_length _ _ Hparse).
  - exact (wf_dims _ Hwf).
  - exists m'. rewrite E. cbn [bind]. auto.
Qed.

Lemma change_image_dimensions_rejected (text : string) (e : exn) (w : World) :
  loaded (mandelbrot w) = true ->
  parse_dimensions text = Raise e ->
  change_image_dimensions text w = Ok (print "Invalid dimensions." w).
Proof.
  intros Hl Hparse. unfold change_image_dimensions.
  rewrite Hl, Hparse. reflexivity.
Qed.

(** A text let through with a nan or an infinity among its bounds is
    beyond the object model. *)
Lemma change_image_dimensions_beyond (text : string) (fl : list pyfloat)
    (e : exn) (w : World) :
  loaded (mandelbrot w) = true ->
  parse_dimensions text = Ok fl -> finite_values fl = Raise e ->
  change_image_dimensions text w = Raise e.
Proof.
  intros Hl Hparse Hf. unfold change_image_dimensions.
  rewrite Hl, Hparse. cbn [negb]. rewrite Hf. reflexivity.
Qed.

(** How a ready handler that returned dealt with the text. *)
Lemma change_image_dimensions_cases (text : string) (w w' : World) :
  loaded (mandelbrot w) = true ->
  change_image_dimensions text w = Ok w' ->
  (exists dims, parse_dimensions text = Ok (map Finite dims)) \/
  (exists e, parse_dimensions text = Raise e).
Proof.
  intros Hl H. destruct (parse_dimensions text) as [fl | ex] eqn:Ep.
  - left. destruct (finite_values fl) as [dims | e] eqn:Ef.
    + apply finite_values_ok in Ef. subst fl. exists dims. reflexivity.
    + rewrite (change_image_dimensions_beyond text fl e w Hl Ep Ef) in H.
      discriminate H.
  - right. exists ex. reflexivity.
Qed.

Lemma recall_undo_ok (w : World) (rest : list (list R)) (previous : list R) :
  wf (mandelbrot w) -> loaded (mandelbrot w) = true ->
  dimensions_undo_list (mandelbrot w) = rest ++ [previous; viewport (mandelbrot w)] ->
  exists m',
    recall_mandelbrot_dimensions false w = Ok (set_mandelbrot m' w) /\
    wf m' /\ loaded m' = true /\
    max_iter m' = max_iter (mandelbrot w) /\
    height m' = height (mandelbrot w) /\ width m' = width (mandelbrot w) /\
    colormap m' = colormap (mandelbrot w) /\
    viewport m' = previous /\
    dimensions_undo_list m' = rest ++ [previous] /\
    dimensions_redo_list m'
      = dimensions_redo_list (mandelbrot w) ++ [viewport (mandelbrot w)] /\
    (total_vertices (mandelbrot w) <= total_vertices m')%nat /\
    (total_quads (mandelbrot w) <= total_quads m')%nat.
Proof.
  intros Hwf Hl E. unfold recall_mandelbrot_dimensions. rewrite Hl. cbn [negb].
  assert (G : Nat.eqb (length (dimensions_undo_list (mandelbrot w))) 1 = false).
  { apply Nat.eqb_neq. rewrite E, length_app. simpl. lia. }
  rewrite G. cbn [andb].
  destruct (undo_step (mandelbrot w) (max_iter (mandelbrot w))
              (height (mandelbrot w)) (width (mandelbrot w))
              (colormap (mandelbrot w)) default_dimensions rest previous
              Hwf (wf_preset _ Hwf) (wf_depth _ Hwf) E) as (m' & Em & Rest).
  rewrite Em. cbn [bind]. exists m'. split; [reflexivity | exact Rest].
Qed.

Lemma recall_redo_ok (w : World) (rest : list (list R)) (next : list R) :
  wf (mandelbrot w) -> loaded (mandelbrot w) = true ->
  dimensions_redo_list (mandelbrot w) = rest ++ [next] ->
  exists m',
    recall_mandelbrot_dimensions true w = Ok (set_mandelbrot m' w) /\
    wf m' /\ loaded m' = true /\
    max_iter m' = max_iter (mandelbrot w) /\
    height m' = height (mandelbrot w) /\ width m' = width (mandelbrot w) /\
    colormap m' = colormap (mandelbrot w) /\
    viewport m' = next /\
    dimensions_undo_list m' = dimensions_undo_list (mandelbrot w) ++ [next] /\
    dimensions_redo_list m' = rest /\
    (total_vertices (mandelbrot w) <= total_vertices m')%nat /\
    (total_quads (mandelbrot w) <= total_quads m')%nat.
Proof.
  intros Hwf Hl E. unfold recall_mandelbrot_dimensions. rewrite Hl. cbn [negb].
  assert (G : Nat.eqb (length (dimensions_redo_list (mandelbrot w))) 0 = false).
  { apply Nat.eqb_neq. rewrite E, length_app. simpl. lia. }
  rewrite G, andb_false_r.
  destruct (redo_step (mandelbrot w) (max_iter (mandelbrot w))
              (height (mandelbrot w)) (width (mandelbrot w))
              (colormap (mandelbrot w)) default_dimensions rest next
              Hwf (wf_preset _ Hwf) (wf_depth _ Hwf) E) as (m' & Em & Rest).
  rewrite Em. cbn [bind]. exists m'. split; [reflexivity | exact Rest].
Qed.

Lemma recall_nothing (redo : bool) (w : World) :
  loaded (mandelbrot w) = true ->
  length (dimensions_undo_list (mandelbrot w)) = 1%nat ->
  dimensions_redo_list (mandelbrot w) = [] ->
  recall_mandelbrot_dimensions redo w = Ok w.
Proof.
  intros Hl Hu Hr. unfold recall_mandelbrot_dimensions.
  rewrite Hl, Hu, Hr. reflexivity.
Qed.

Lemma recall_redo_exhausted (w : World) :
  loaded (mandelbrot w) = true ->
  length (dimensions_undo_list (mandelbrot w)) <> 1%nat ->
  dimensions_redo_list (mandelbrot w) = [] ->
  recall_mandelbrot_dimensions true w
    = Ok (set_mandelbrot (set_loaded false (mandelbrot w)) w).
Proof.
  intros Hl Hu Hr. unfold recall_mandelbrot_dimensions. rewrite Hl. cbn [negb].
  apply Nat.eqb_neq in Hu. rewrite Hu. cbn [andb].
  rewrite redo_exhausted by exact Hr. reflexivity.
Qed.

Lemma recall_undo_exhausted (w : World) :
  loaded (mandelbrot w) = true ->
  length (dimensions_undo_list (mandelbrot w)) = 1%nat ->
  dimensions_redo_list (mandelbrot w) <> [] ->
  recall_mandelbrot_dimensions false w
    = Ok (set_mandelbrot (set_loaded false (mandelbrot w)) w).
Proof.
  intros Hl Hu Hr. unfold recall_mandelbrot_dimensions. rewrite Hl. cbn [negb].
  assert (G : Nat.eqb (length (dimensions_redo_list (mandelbrot w))) 0 = false).
  { apply Nat.eqb_neq. destruct (dimensions_redo_list (mandelbrot w));
      [congruence | simpl; lia]. }
  rewrite G, andb_false_r.
  rewrite undo_exhausted by lia. reflexivity.
Qed.

Lemma not_loaded_ignored (e : event) (w : World) :
  loaded (mandelbrot w) = false -> handle e w = Ok w.
Proof.
  intros Hl. destruct e; simpl;
    [ unfold resize_box | unfold recall_mandelbrot_dimensions
    | unfold change_resolution | unfold change_colormap
    | unfold change_search_depth | unfold change_image_dimensions ];
    rewrite Hl; reflexivity.
Qed.

Lemma last_cases {A : Type} (l : list A) :
  l = [] \/ exists rest a, l = rest ++ [a].
Proof.
  induction l as [| a l _] using rev_ind; [left; reflexivity |].
  right. exists l, a. reflexivity.
Qed.

Lemma wf_undo_shape (m : Mandelbrot) :
  wf m ->
  dimensions_undo_list m = [viewport m] \/
  exists rest previous, dimensions_undo_list m = rest ++ [previous; viewport m].
Proof.
  intros [_ _ [older E] _ _].
  destruct (last_cases older) as [-> | (rest & previous & ->)].
  - left. exact E.
  - right. exists rest, previous. rewrite E, <- app_assoc. reflexivity.
Qed.

(** Every handler keeps the invariant and never destroys an object. *)
Lemma handle_wf (e : event) (w w' : World) :
  wf (mandelbrot w) -> handle e w = Ok w' ->
  wf (mandelbrot w') /\
  (total_vertices (mandelbrot w) <= total_vertices (mandelbrot w'))%nat /\
  (total_quads (mandelbrot w) <= total_quads (mandelbrot w'))%nat.
Proof.
  intros Hwf H.
  destruct (loaded (mandelbrot w)) eqn:Hl.
  2:{ rewrite not_loaded_ignored in H by exact Hl. inv_ok H. auto. }
  destruct e as [p samples | redo | index | selected | number | text];
    cbn [handle] in H.
  - unfold resize_box in H. rewrite Hl in H. cbn [negb] in H.
    destruct (for_each samples _ p) as [q | ex]; [| discriminate H].
    cbn [bind] in H.
    destruct (resize_box_release_wf p q w Hwf) as (dims & m' & E & A & Hwf').
    rewrite E in H. inv_ok H. cbn [mandelbrot set_mandelbrot].
    split; [exact Hwf' | exact (applied_totals _ _ _ _ _ _ _ A)].
  - destruct redo.
    + destruct (last_cases (dimensions_redo_list (mandelbrot w)))
        as [Er | (rest & next & Er)].
      * destruct (Nat.eq_dec (length (dimensions_undo_list (mandelbrot w))) 1)
          as [Eu | Nu].
        -- rewrite recall_nothing in H by assumption. inv_ok H. auto.
        -- rewrite recall_redo_exhausted in H by assumption. inv_ok H.
           cbn [mandelbrot set_mandelbrot].
           split; [apply wf_set_loaded, Hwf | split; apply Nat.le_refl].
      * destruct (recall_redo_ok w rest next Hwf Hl Er) as (m' & E & Hwf' & Rest).
        rewrite E in H. inv_ok H. cbn [mandelbrot set_mandelbrot].
        split; [exact Hwf' | decompose [and] Rest; split; assumption].
    + destruct (wf_undo_shape _ Hwf) as [Eu | (rest & previous & Eu)].
      * assert (Lu : length (dimensions_undo_list (mandelbrot w)) = 1%nat)
          by (rewrite Eu; reflexivity).
        destruct (dimensions_redo_list (mandelbrot w)) as [| d r] eqn:Er.
        -- rewrite recall_nothing in H by assumption. inv_ok H. auto.
        -- rewrite recall_undo_exhausted in H
             by (try assumption; rewrite Er; discriminate).
           inv_ok H. cbn [mandelbrot set_mandelbrot].
           split; [apply wf_set_loaded, Hwf | split; apply Nat.le_refl].
      * destruct (recall_undo_ok w rest previous Hwf Hl Eu)
          as (m' & E & Hwf' & Rest).
        rewrite E in H. inv_ok H. cbn [mandelbrot set_mandelbrot].
        split; [exact Hwf' | decompose [and] Rest; split; assumption].
  - destruct (nth_error resolution_choices index) as [res |] eqn:Ei.
    + destruct (resolution_choice _ _ Ei) as (h & wd & -> & _).
      destruct (change_resolution_ok index h wd w Hwf Hl Ei)
        as (m' & E & Hwf' & Rest).
      rewrite E in H. inv_ok H. cbn [mandelbrot set_mandelbrot].
      split; [exact Hwf' | decompose [and] Rest; split; assumption].
    + exfalso. unfold change_resolution in H. rewrite Hl in H.
      cbn [negb] in H.
      destruct (wf_pop_undo _ Hwf) as (older & _ & Epop & _).
      rewrite Epop in H. cbn [bind] in H.
      unfold py_index in H. rewrite Ei in H. discriminate H.
  - destruct (change_colormap_ok selected w Hwf Hl) as (m' & E & Hwf' & Rest).
    rewrite E in H. inv_ok H. cbn [mandelbrot set_mandelbrot].
    split; [exact Hwf' | decompose [and] Rest; split; assumption].
  - destruct (Rlt_dec number 1) as [Lo |];
      [| destruct (Rgt_dec number 1000) as [Hi |]].
    + rewrite change_search_depth_rejected in H by auto. inv_ok H. auto.
    + rewrite change_search_depth_rejected in H by auto. inv_ok H. auto.
    + destruct (change_search_depth_ok number w Hwf Hl)
        as (m' & E & Hwf' & Rest); [lra |].
      rewrite E in H. inv_ok H. cbn [mandelbrot set_mandelbrot].
      split; [exact Hwf' | decompose [and] Rest; split; assumption].
  - destruct (change_image_dimensions_cases text w w' Hl H)
      as [[dims Ep] | [ex Ep]].
    + destruct (change_image_dimensions_ok text dims w Hwf Hl Ep)
        as (m' & E & _ & A & Hwf').
      rewrite E in H. inv_ok H. cbn [mandelbrot set_mandelbrot].
      split; [exact Hwf' | exact (applied_totals _ _ _ _ _ _ _ A)].
    + rewrite (change_image_dimensions_rejected text ex) in H by assumption.
      inv_ok H. auto.
Qed.

Lemma Mandelbrot_init_ok (mi : Z) (a b c d : R) (h w : Z) (cm : string) :
  is_preset h w -> (1 <= mi <= 1000)%Z ->
  exists m,
    Mandelbrot_init mi [a; b; c; d] [h; w] cm = Ok m /\
    wf m /\ loaded m = true /\
    max_iter m = mi /\ height m = h /\ width m = w /\ colormap m = cm /\
    viewport m = [a; b; c; d] /\
    dimensions_undo_list m = [[a; b; c; d]] /\
    dimensions_redo_list m = [].
Proof.
  intros Hp Hmi. unfold Mandelbrot_init. cbn [py_index nth_error bind].
  destruct (preset_positive h w Hp) as [Hh Hw].
  match goal with
  | |- context [__load_fresh_objects ?n ?m0] =>
      pose proof (load_fresh_objects_spec n m0) as F;
      set (m2 := __load_fresh_objects n m0) in *
  end.
  cbn zeta in F. clearbody m2.
  destruct F as (Fs & _ & Frv & Frq & Fv & Fq).
  cbn in Frv, Frq, Fv, Fq. unfold same_settings in Fs. cbn in Fs.
  destruct Fs as (S1 & S2 & S3 & S4 & S5 & S6 & S7 & S8 & S9 & S10).
  destruct (load_new_mandelbrot_ok m2) as [m [E [S' [L' [V' [Q' _]]]]]].
  - rewrite S1. lia.
  - rewrite S6. exact Hh.
  - rewrite S7. exact Hw.
  - rewrite S6, S7, Fv. lia.
  - rewrite S6, S7, Fq. nia.
  - exists m. split; [exact E |].
    unfold same_settings in S'.
    destruct S' as (T1 & T2 & T3 & T4 & T5 & T6 & T7 & T8 & T9 & T10).
    assert (Hview : viewport m = [a; b; c; d])
      by (unfold viewport; congruence).
    assert (TV : Z.of_nat (total_vertices m) = (h * w)%Z).
    { rewrite V'. unfold total_vertices. rewrite Frv. cbn [length]. lia. }
    assert (TQ : Z.of_nat (total_quads m) = ((h - 1) * w)%Z).
    { rewrite Q'. unfold total_quads. rewrite Frq. cbn [length]. nia. }
    split.
    + constructor.
      * rewrite T6, T7, S6, S7. exact Hp.
      * exists h, w. rewrite T6, S6. repeat split; auto; lia.
      * exists []. rewrite T9, S9, Hview. reflexivity.
      * rewrite T9, T10, S9, S10. repeat constructor.
      * rewrite T1, S1. exact Hmi.
    + repeat split; congruence.
Qed.

Lemma program_start_ok :
  exists w,
    program_start = Ok w /\ wf (mandelbrot w) /\
    loaded (mandelbrot w) = true /\
    max_iter (mandelbrot w) = 100%Z /\
    height (mandelbrot w) = 180%Z /\ width (mandelbrot w) = 270%Z /\
    colormap (mandelbrot w) = "default"%string /\
    viewport (mandelbrot w) = default_dimensions /\
    dimensions_undo_list (mandelbrot w) = [default_dimensions] /\
    dimensions_redo_list (mandelbrot w) = [] /\
    console w = [].
Proof.
  unfold program_start. cbn [py_index nth_error resolution_choices bind].
  destruct (Mandelbrot_init_ok 100 (-2) 0.5 (-1) 1 180 270 "default")
    as (m & E & Rest).
  - unfold is_preset, resolution_choices. simpl. tauto.
  - lia.
  - exists (mkWorld m []). unfold default_dimensions. rewrite E. cbn [bind].
    split; [reflexivity |]. cbn [mandelbrot console].
    destruct Rest as (Hwf & Rest). split; [exact Hwf |].
    decompose [and] Rest. repeat split; assumption.
Qed.

Lemma reachable_wf (w : World) : reachable w -> wf (mandelbrot w).
Proof.
  induction 1 as [w Hs | e w w' _ IH Hstep].
  - destruct program_start_ok as (w0 & E & Hwf & _).
    rewrite E in Hs. inv_ok Hs. exact Hwf.
  - exact (proj1 (handle_wf e w w' IH Hstep)).
Qed.

(* ================================================================== *)
(** * Escape-time boundedness and colormaps *)

(** C3.  In every state of a session and for every pixel, the rendering
    loop's sample is defined, its escape count [n] satisfies
    [0 <= n <= max_iter], and when [n = max_iter] the color is black,
    whatever the colormap. *)
Theorem escape_count_bounded (w : World) (cx cy zx zy : R) (px py : nat) :
  reachable w ->
  exists n color,
    pixel_sample (mandelbrot w) cx cy zx zy px py = Ok (n, color) /\
    (0 <= n <= max_iter (mandelbrot w))%Z /\
    (n = max_iter (mandelbrot w) -> color = mkvec 0 0 0).
Proof.
  intros Hr. apply pixel_sample_ok.
  pose proof (wf_depth _ (reachable_wf w Hr)). lia.
Qed.

Lemma escape_count_bounded_witness :
  exists w n color,
    reachable w /\
    pixel_sample (mandelbrot w) (-0.75) 0 (2.5 / 270) (2 / 180) 135 90
      = Ok (n, color) /\
    (0 <= n <= max_iter (mandelbrot w))%Z /\
    (n = max_iter (mandelbrot w) -> color = mkvec 0 0 0).
Proof.
  destruct program_start_ok as (w & E & _).
  destruct (escape_count_bounded w (-0.75) 0 (2.5 / 270) (2 / 180) 135 90
              (reachable_start w E)) as (n & color & H).
  exists w, n, color. split; [exact (reachable_start w E) | exact H].
Defined.

(** C4.  On components in [0,1], [colormaps] returns for each of the five
    scheme names the formula the specification gives, and for any other
    name what it returns for [default]; it never raises. *)
Theorem colormaps_formulas (x y z : R) :
  0 <= x <= 1 -> 0 <= y <= 1 -> 0 <= z <= 1 ->
  colormaps (mkvec x y z) "default"
    = Ok (mkvec (sin (x + 0.9) ^ 30) (0.9 * sin (y + 0.97) ^ 80)
            (1 - (((z + 0.5) ^ 6) - 0.8) ^ 2)) /\
  colormaps (mkvec x y z) "inferno"
    = Ok (mkvec (sqrt x) (y ^ 2) (0.2 - 5 * (z - 0.2) ^ 2)) /\
  colormaps (mkvec x y z) "viridis"
    = Ok (mkvec (sin (x + 0.5) ^ 16) y (0.6 - 3 * (z - 0.38) ^ 2)) /\
  colormaps (mkvec x y z) "plasma"
    = Ok (mkvec (sin x) (y ^ 10 + real_power y (1 / 6) - 0.8) (1 - z)) /\
  colormaps (mkvec x y z) "spectral"
    = Ok (mkvec (Rabs (sin (100 * x + 1))) (sin (100 * y + 2))
            (sin (100 * z + 3))) /\
  (forall name : string,
     ~ In name colormap_choices ->
     colormaps (mkvec x y z) name = colormaps (mkvec x y z) "default").
Proof.
  intros Hx Hy Hz.
  repeat split; try (rewrite colormaps_eval by lra; reflexivity).
  intros name Hn. rewrite !colormaps_eval by lra. f_equal.
  unfold colormap_choices in Hn. simpl in Hn.
  unfold spec_colormap.
  destruct (String.eqb_spec name "inferno"); [subst name; tauto |].
  destruct (String.eqb_spec name "viridis"); [subst name; tauto |].
  destruct (String.eqb_spec name "plasma"); [subst name; tauto |].
  destruct (String.eqb_spec name "spectral"); [subst name; tauto |].
  reflexivity.
Qed.

Lemma colormaps_formulas_witness :
  colormaps (mkvec 0.5 0.5 0.5) "viridis"
    = Ok (mkvec (sin (0.5 + 0.5) ^ 16) 0.5 (0.6 - 3 * (0.5 - 0.38) ^ 2)) /\
  colormaps (mkvec 0.5 0.5 0.5) "jet" = colormaps (mkvec 0.5 0.5 0.5) "default".
Proof.
  destruct (colormaps_formulas 0.5 0.5 0.5) as (_ & _ & Hv & _ & _ & Hother);
    try lra.
  split; [exact Hv |]. apply Hother.
  unfold colormap_choices. simpl.
  intros [H | [H | [H | [H | [H | []]]]]]; discriminate H.
Defined.

(* ================================================================== *)
(** * Aspect-locked selection *)

Lemma Rabs_signed (p k s : R) :
  0 <= k -> s = 1 \/ s = -1 -> Rabs (p + s * k - p) = k.
Proof.
  intros Hk [-> | ->].
  - replace (p + 1 * k - p) with k by lra. apply Rabs_pos_eq, Hk.
  - replace (p + -1 * k - p) with (- k) by lra.
    rewrite Rabs_Ropp. apply Rabs_pos_eq, Hk.
Qed.

(** The two outcomes of a sample whose raw width is not zero. *)
Lemma resize_box_sample_cases (p c : vec) :
  vec_x c <> vec_x p ->
  let bw := Rabs (vec_x c - vec_x p) in
  let bh := Rabs (vec_y c - vec_y p) in
  let sx := if Rgt_dec (vec_x c) (vec_x p) then 1 else -1 in
  let sy := if Rgt_dec (vec_y c) (vec_y p) then 1 else -1 in
  0 < bw /\ 0 <= bh /\
  (bh / bw > 3 / 2 /\
   resize_box_sample p c = Ok (mkvec (vec_x p + sx * bh * 3 / 2) (vec_y c) 0)
   \/
   ~ bh / bw > 3 / 2 /\
   resize_box_sample p c = Ok (mkvec (vec_x c) (vec_y p + sy * bw * 2 / 3) 0)).
Proof.
  intros Hx bw bh sx sy.
  assert (Hw : 0 < bw) by (apply Rabs_pos_lt; lra).
  assert (Hh : 0 <= bh) by apply Rabs_pos.
  split; [exact Hw |]. split; [exact Hh |].
  unfold resize_box_sample. fold bw bh sx sy.
  rewrite py_div_ok by lra. cbn [bind].
  destruct (Rgt_dec (bh / bw) (3 / 2)); [left | right]; split; auto.
Qed.

(** C10.  A pointer sample with the same x-coordinate as the press point
    (raw width zero) makes the aspect-ratio test divide by zero: the sample
    raises [ZeroDivisionError], at the first sample of a drag as well as
    during a vertical drag, and the whole drag handler with it, from the
    first state of a session on. *)
Theorem zero_width_sample_divides_by_zero :
  (forall x y y' z z' : R,
     resize_box_sample (mkvec x y z) (mkvec x y' z') = Raise ZeroDivisionError) /\
  resize_box_sample (mkvec 0 0 0) (mkvec 0 0 0) = Raise ZeroDivisionError /\
  resize_box_sample (mkvec 0 0 0) (mkvec 0 5 0) = Raise ZeroDivisionError /\
  (exists w : World,
     reachable w /\
     resize_box (mkvec 0 0 0) [mkvec 0 0 0] w = Raise ZeroDivisionError).
Proof.
  assert (G : forall x y y' z z' : R,
            resize_box_sample (mkvec x y z) (mkvec x y' z')
            = Raise ZeroDivisionError).
  { intros x y y' z z'. unfold resize_box_sample. cbn [vec_x vec_y].
    replace (x - x) with 0 by lra. rewrite Rabs_R0, py_div_zero. reflexivity. }
  repeat split; try apply G.
  destruct program_start_ok as (w & E & _ & Hl & _).
  exists w. split; [exact (reachable_start w E) |].
  unfold resize_box. rewrite Hl. cbn [negb for_each].
  rewrite G. reflexivity.
Qed.

(** C7, as stated, fails: dragging from (0,0) to (3,1) gives the locked
    corner (3,2), a box of height 2 and width 3, so height : width is not
    3 : 2. *)
Lemma aspect_lock_counterexample :
  resize_box_sample (mkvec 0 0 0) (mkvec 3 1 0) = Ok (mkvec 3 2 0) /\
  box_height (mkvec 0 0 0) (mkvec 3 2 0) = 2 /\
  box_width (mkvec 0 0 0) (mkvec 3 2 0) = 3 /\
  2 * box_height (mkvec 0 0 0) (mkvec 3 2 0)
    <> 3 * box_width (mkvec 0 0 0) (mkvec 3 2 0).
Proof.
  assert (Hh : box_height (mkvec 0 0 0) (mkvec 3 2 0) = 2).
  { unfold box_height. cbn [vec_y]. rewrite Rabs_pos_eq; lra. }
  assert (Hw : box_width (mkvec 0 0 0) (mkvec 3 2 0) = 3).
  { unfold box_width. cbn [vec_x]. rewrite Rabs_pos_eq; lra. }
  split; [| rewrite Hh, Hw; repeat split; lra].
  unfold resize_box_sample. cbn [vec_x vec_y].
  replace (Rabs (3 - 0)) with 3 by (rewrite Rabs_pos_eq; lra).
  replace (Rabs (1 - 0)) with 1 by (rewrite Rabs_pos_eq; lra).
  rewrite py_div_ok by lra. cbn [bind].
  destruct (Rgt_dec (1 / 3) (3 / 2)); [lra |].
  destruct (Rgt_dec 1 0); [| lra].
  f_equal. f_equal; lra.
Qed.

(** C7, amended.  For every pointer sample whose raw width is not zero, the
    aspect-locked box has width : height = 3 : 2 (three times its height
    is twice its width); one of its dimensions follows the pointer and the
    other is recomputed, and the locked corner lies on the side of the
    press point the pointer was dragged to. *)
Theorem aspect_lock_ratio (p c : vec) :
  vec_x c <> vec_x p ->
  exists q,
    resize_box_sample p c = Ok q /\
    3 * box_height p q = 2 * box_width p q /\
    (vec_y q = vec_y c \/ vec_x q = vec_x c) /\
    (vec_x c > vec_x p -> vec_x q > vec_x p) /\
    (vec_x c < vec_x p -> vec_x q < vec_x p) /\
    (vec_y c > vec_y p -> vec_y q > vec_y p) /\
    (vec_y c < vec_y p -> vec_y q < vec_y p).
Proof.
  intros Hx.
  pose proof (resize_box_sample_cases p c Hx) as H. cbn zeta in H.
  set (bw := Rabs (vec_x c - vec_x p)) in *.
  set (bh := Rabs (vec_y c - vec_y p)) in *.
  destruct H as (Hw & Hh & [[Hr E] | [Hr E]]); rewrite E; eexists;
    (split; [reflexivity |]); unfold box_height, box_width; cbn [vec_x vec_y].
  - assert (Hbh : bh > 3 / 2 * bw).
    { assert (E0 : bh / bw * bw = bh) by (field; lra).
      pose proof (Rmult_lt_compat_r bw _ _ Hw Hr) as Hm.
      rewrite E0 in Hm. lra. }
    fold bh.
    replace (vec_x p + (if Rgt_dec (vec_x c) (vec_x p) then 1 else -1) * bh * 3 / 2)
      with (vec_x p + (if Rgt_dec (vec_x c) (vec_x p) then 1 else -1) * (bh * 3 / 2))
      by lra.
    rewrite Rabs_signed; [| lra | destruct (Rgt_dec _ _); auto].
    split; [lra |]. split; [left; reflexivity |].
    destruct (Rgt_dec (vec_x c) (vec_x p)); repeat split; intros; lra.
  - fold bw.
    replace (vec_y p + (if Rgt_dec (vec_y c) (vec_y p) then 1 else -1) * bw * 2 / 3)
      with (vec_y p + (if Rgt_dec (vec_y c) (vec_y p) then 1 else -1) * (bw * 2 / 3))
      by lra.
    rewrite Rabs_signed; [| lra | destruct (Rgt_dec _ _); auto].
    split; [lra |]. split; [right; reflexivity |].
    destruct (Rgt_dec (vec_y c) (vec_y p)); repeat split; intros; lra.
Qed.

Lemma aspect_lock_ratio_witness :
  exists q,
    resize_box_sample (mkvec 0 0 0) (mkvec 3 1 0) = Ok q /\
    3 * box_height (mkvec 0 0 0) q = 2 * box_width (mkvec 0 0 0) q.
Proof.
  destruct (aspect_lock_ratio (mkvec 0 0 0) (mkvec 3 1 0)) as (q & E & H & _).
  - cbn [vec_x]. lra.
  - exists q. split; [exact E | exact H].
Defined.

(* ================================================================== *)
(** * Dimension texts *)

Lemma ok_list4 (a b c d a' b' c' d' : R) :
  a = a' -> b = b' -> c = c' -> d = d' ->
  @Ok (list pyfloat) [Finite a; Finite b; Finite c; Finite d]
  = Ok [Finite a'; Finite b'; Finite c'; Finite d'].
Proof. congruence. Qed.

Lemma ok_list2 (a b a' b' : R) :
  a = a' -> b = b' ->
  @Ok (list pyfloat) [Finite a; Finite b] = Ok [Finite a'; Finite b'].
Proof. congruence. Qed.

Lemma floats_unit_square :
  floats_of (split (Some "0,1,0,1"%string) ",")
    = Ok [Finite 0; Finite 1; Finite 0; Finite 1].
Proof. eval_floats. apply ok_list4; lra. Qed.

Lemma floats_upper_square :
  floats_of (split (Some "0,0.5,0,0.5"%string) ",")
    = Ok [Finite 0; Finite 0.5; Finite 0; Finite 0.5].
Proof. eval_floats. apply ok_list4; lra. Qed.

Lemma floats_scenario_B :
  floats_of (split (Some "-2.5, 1.0, -1.25, 1.25"%string) ",")
    = Ok [Finite (-2.5); Finite 1.0; Finite (-1.25); Finite 1.25].
Proof. eval_floats. apply ok_list4; lra. Qed.

Lemma floats_two_numbers :
  floats_of (split (Some "-2.5, 1.0"%string) ",")
    = Ok [Finite (-2.5); Finite 1.0].
Proof. eval_floats. apply ok_list2; lra. Qed.

Lemma floats_nan_bound :
  floats_of (split (Some "nan, 1, 0, 1"%string) ",")
    = Ok [NaN; Finite 1; Finite 0; Finite 1].
Proof.
  eval_floats.
  assert (T : forall b c d b' c' d' : R,
            b = b' -> c = c' -> d = d' ->
            @Ok (list pyfloat) [NaN; Finite b; Finite c; Finite d]
            = Ok [NaN; Finite b'; Finite c'; Finite d']) by congruence.
  apply T; lra.
Qed.

Lemma floats_equal_bounds :
  floats_of (split (Some "1, 1, 0, 1"%string) ",")
    = Ok [Finite 1; Finite 1; Finite 0; Finite 1].
Proof. eval_floats. apply ok_list4; lra. Qed.

(** [float()] rounds to the nearest double, reads grouped digits and
    overflows to an infinity. *)
Example read_float_rounds :
  read_float "0.1" = Ok (SpecFloat.S754_finite false 7205759403792794 (-56)) /\
  read_float "0.10000000000000000001" = read_float "0.1" /\
  read_float "1_0" = read_float "10" /\
  read_float "1e999" = Ok (SpecFloat.S754_infinity false) /\
  read_float "1__0" = Raise ValueError.
Proof. vm_compute. repeat split; reflexivity. Qed.

Lemma valid_parse (text : string) (a b c d : R) :
  valid_dimensions text a b c d ->
  parse_dimensions text = Ok (map Finite [a; b; c; d]).
Proof.
  intros H. apply parse_dimensions_ok. exists a, b, c, d. auto.
Qed.

Lemma parse_unit_square :
  parse_dimensions "0,1,0,1" = Ok (map Finite [0; 1; 0; 1]).
Proof.
  apply valid_parse. split; [exact floats_unit_square | lra].
Qed.

Lemma parse_upper_square :
  parse_dimensions "0,0.5,0,0.5" = Ok (map Finite [0; 0.5; 0; 0.5]).
Proof.
  apply valid_parse. split; [exact floats_upper_square | lra].
Qed.

(** C6.  The validation lets a nan bound through.  For the text
    "nan, 1, 0, 1" [float()] returns nan for the first item, [nan >= 1] is
    false, so the [try] block ends without an exception and with nan as
    [x_min]: in a ready state the handler does not take the branch that
    prints "Invalid dimensions." but goes on to [change_parameters] with
    that bound, which is where the object model stops.  The check itself
    is there: "1, 1, 0, 1", with equal bounds, is rejected with the
    message and the object left as it was. *)
Theorem nan_bound_passes_validation :
  parse_dimensions "nan, 1, 0, 1" = Ok [NaN; Finite 1; Finite 0; Finite 1] /\
  exists w,
    reachable w /\ loaded (mandelbrot w) = true /\
    change_image_dimensions "nan, 1, 0, 1" w = Raise NonFinite /\
    change_image_dimensions "nan, 1, 0, 1" w
      <> Ok (print "Invalid dimensions." w) /\
    change_image_dimensions "1, 1, 0, 1" w = Ok (print "Invalid dimensions." w).
Proof.
  assert (P : parse_dimensions "nan, 1, 0, 1"
              = Ok [NaN; Finite 1; Finite 0; Finite 1]).
  { apply parse_dimensions_inv. exists NaN, (Finite 1), (Finite 0), (Finite 1).
    split; [reflexivity |]. split; [exact floats_nan_bound |].
    split; [reflexivity | apply float_ge_finite; lra]. }
  split; [exact P |].
  destruct program_start_ok as (w & E & _ & Hl & _).
  exists w. split; [exact (reachable_start w E) |]. split; [exact Hl |].
  assert (B : change_image_dimensions "nan, 1, 0, 1" w = Raise NonFinite).
  { apply (change_image_dimensions_beyond _ _ _ _ Hl P). reflexivity. }
  split; [exact B |]. split; [rewrite B; discriminate |].
  assert (Q : exists e, parse_dimensions "1, 1, 0, 1" = Raise e).
  { destruct (parse_dimensions "1, 1, 0, 1") as [dims | e] eqn:Ep;
      [| exists e; reflexivity].
    apply parse_dimensions_inv in Ep.
    destruct Ep as (a & b & c & d & -> & F & Hab & _).
    rewrite floats_equal_bounds in F. injection F as <- <- <- <-.
    apply float_ge_finite in Hab. lra. }
  destruct Q as (e & Q).
  exact (change_image_dimensions_rejected _ e w Hl Q).
Qed.

(* ================================================================== *)
(** * View history *)

(** A session that starts and zooms once, by text entry. *)
Lemma session_one_zoom :
  exists w0 w1,
    program_start = Ok w0 /\
    change_image_dimensions "0,1,0,1" w0 = Ok w1 /\
    reachable w1 /\ loaded (mandelbrot w1) = true /\
    viewport (mandelbrot w1) = [0; 1; 0; 1] /\
    dimensions_undo_list (mandelbrot w1) = [default_dimensions; [0; 1; 0; 1]] /\
    dimensions_redo_list (mandelbrot w1) = [].
Proof.
  destruct program_start_ok
    as (w0 & E0 & Hwf0 & Hl0 & _ & _ & _ & _ & Hv0 & Hu0 & Hr0 & _).
  destruct (change_image_dimensions_ok "0,1,0,1" _ w0 Hwf0 Hl0 parse_unit_square)
    as (m1 & E1 & _ & A & _).
  destruct A as (_ & A2 & _ & _ & _ & A6 & A7 & A8 & _).
  exists w0, (set_mandelbrot m1 w0). cbn [mandelbrot set_mandelbrot].
  rewrite Hu0 in A6. rewrite Hr0 in A7.
  repeat split; try assumption.
  apply (reachable_step (EnterDimensions "0,1,0,1") w0);
    [apply reachable_start, E0 | exact E1].
Qed.

(** The same session, followed by one undo. *)
Lemma session_zoom_undo :
  exists w1 w2,
    reachable w1 /\
    recall_mandelbrot_dimensions false w1 = Ok w2 /\
    reachable w2 /\ loaded (mandelbrot w2) = true /\
    viewport (mandelbrot w2) = default_dimensions /\
    dimensions_undo_list (mandelbrot w2) = [default_dimensions] /\
    dimensions_redo_list (mandelbrot w2) = [[0; 1; 0; 1]].
Proof.
  destruct session_one_zoom as (w0 & w1 & _ & _ & Hr1 & Hl1 & Hv1 & Hu1 & Hd1).
  destruct (recall_undo_ok w1 [] default_dimensions (reachable_wf _ Hr1) Hl1)
    as (m2 & E2 & _ & Hl2 & _ & _ & _ & _ & Hv2 & Hu2 & Hd2 & _).
  { rewrite Hu1, Hv1. reflexivity. }
  exists w1, (set_mandelbrot m2 w1). cbn [mandelbrot set_mandelbrot].
  rewrite Hd1, Hv1 in Hd2.
  repeat split; try assumption.
  apply (reachable_step (UndoRedo false) w1); assumption.
Qed.

(** C1, as stated, fails: zoom, undo, then zoom again by text entry; after
    the second zoom the redo list still holds the view that was undone. *)
Lemma fresh_zoom_clears_redo_counterexample :
  exists w1 w2 w3,
    reachable w1 /\
    recall_mandelbrot_dimensions false w1 = Ok w2 /\
    change_image_dimensions "0,0.5,0,0.5" w2 = Ok w3 /\
    viewport (mandelbrot w3) = [0; 0.5; 0; 0.5] /\
    dimensions_redo_list (mandelbrot w3) = [[0; 1; 0; 1]] /\
    dimensions_redo_list (mandelbrot w3) <> [].
Proof.
  destruct session_zoom_undo as (w1 & w2 & Hr1 & E2 & Hr2 & Hl2 & _ & _ & Hd2).
  destruct (change_image_dimensions_ok "0,0.5,0,0.5" _ w2
              (reachable_wf _ Hr2) Hl2 parse_upper_square)
    as (m3 & E3 & _ & A & _).
  destruct A as (_ & A2 & _ & _ & _ & _ & A7 & _).
  exists w1, w2, (set_mandelbrot m3 w2). cbn [mandelbrot set_mandelbrot].
  rewrite Hd2 in A7. rewrite A7.
  repeat split; try assumption. discriminate.
Qed.

(** C1, amended.  A fresh zoom, by text entry or by drag selection, leaves
    the redo list exactly as it was before the operation and pushes the new
    view on the undo list; the redo list is never cleared. *)
Theorem fresh_zoom_keeps_redo (w : World) :
  reachable w -> loaded (mandelbrot w) = true ->
  (forall text a b c d,
     valid_dimensions text a b c d ->
     exists w',
       change_image_dimensions text w = Ok w' /\
       viewport (mandelbrot w') = [a; b; c; d] /\
       dimensions_undo_list (mandelbrot w')
         = dimensions_undo_list (mandelbrot w) ++ [[a; b; c; d]] /\
       dimensions_redo_list (mandelbrot w') = dimensions_redo_list (mandelbrot w)) /\
  (forall p samples q,
     for_each samples (fun c _ => resize_box_sample p c) p = Ok q ->
     exists w',
       resize_box p samples w = Ok w' /\
       dimensions_undo_list (mandelbrot w')
         = dimensions_undo_list (mandelbrot w) ++ [viewport (mandelbrot w')] /\
       dimensions_redo_list (mandelbrot w') = dimensions_redo_list (mandelbrot w)).
Proof.
  intros Hr Hl. pose proof (reachable_wf w Hr) as Hwf. split.
  - intros text a b c d V.
    destruct (change_image_dimensions_ok text [a; b; c; d] w Hwf Hl
                (valid_parse _ _ _ _ _ V)) as (m' & E & _ & A & _).
    destruct A as (_ & A2 & _ & _ & _ & A6 & A7 & _).
    exists (set_mandelbrot m' w). cbn [mandelbrot set_mandelbrot]. auto.
  - intros p samples q Hq. unfold resize_box. rewrite Hl. cbn [negb].
    rewrite Hq. cbn [bind].
    destruct (resize_box_release_wf p q w Hwf) as (dims & m' & E & A & _).
    destruct A as (_ & A2 & _ & _ & _ & A6 & A7 & _).
    exists (set_mandelbrot m' w). cbn [mandelbrot set_mandelbrot].
    rewrite A2. auto.
Qed.

Lemma fresh_zoom_keeps_redo_witness :
  exists w w',
    reachable w /\ loaded (mandelbrot w) = true /\
    dimensions_redo_list (mandelbrot w) = [[0; 1; 0; 1]] /\
    change_image_dimensions "0,0.5,0,0.5" w = Ok w' /\
    dimensions_redo_list (mandelbrot w') = dimensions_redo_list (mandelbrot w).
Proof.
  destruct session_zoom_undo as (w1 & w2 & _ & _ & Hr2 & Hl2 & _ & _ & Hd2).
  destruct (fresh_zoom_keeps_redo w2 Hr2 Hl2) as (Htext & _).
  destruct (Htext "0,0.5,0,0.5"%string 0 0.5 0 0.5) as (w' & E & _ & _ & Hd).
  - split; [exact floats_upper_square | lra].
  - exists w2, w'. repeat split; assumption.
Defined.

(** C5.  An exhausted redo or undo is not a no-op: the handler returns
    with the [loaded] flag cleared, and from then on every event is
    ignored.  After one zoom, Redo (nothing to redo) freezes the session;
    after one zoom and one undo, Undo (nothing left to undo) does too. *)
Theorem exhausted_history_freezes :
  (exists w1 w2,
     reachable w1 /\ loaded (mandelbrot w1) = true /\
     dimensions_redo_list (mandelbrot w1) = [] /\
     recall_mandelbrot_dimensions true w1 = Ok w2 /\
     mandelbrot w2 = set_loaded false (mandelbrot w1) /\
     loaded (mandelbrot w2) = false /\
     (forall e, handle e w2 = Ok w2)) /\
  (exists w1 w2,
     reachable w1 /\ loaded (mandelbrot w1) = true /\
     length (dimensions_undo_list (mandelbrot w1)) = 1%nat /\
     recall_mandelbrot_dimensions false w1 = Ok w2 /\
     mandelbrot w2 = set_loaded false (mandelbrot w1) /\
     loaded (mandelbrot w2) = false /\
     (forall e, handle e w2 = Ok w2)).
Proof.
  split.
  - destruct session_one_zoom as (w0 & w1 & _ & _ & Hr1 & Hl1 & _ & Hu1 & Hd1).
    exists w1, (set_mandelbrot (set_loaded false (mandelbrot w1)) w1).
    cbn [mandelbrot set_mandelbrot loaded set_loaded].
    repeat split; try assumption.
    + apply recall_redo_exhausted; try assumption. rewrite Hu1. discriminate.
    + intros e. apply not_loaded_ignored. reflexivity.
  - destruct session_zoom_undo as (w1 & w2 & _ & _ & Hr2 & Hl2 & _ & Hu2 & Hd2).
    exists w2, (set_mandelbrot (set_loaded false (mandelbrot w2)) w2).
    cbn [mandelbrot set_mandelbrot loaded set_loaded].
    repeat split; try assumption.
    + rewrite Hu2. reflexivity.
    + apply recall_undo_exhausted; try assumption.
      * rewrite Hu2. reflexivity.
      * rewrite Hd2. discriminate.
    + intros e. apply not_loaded_ignored. reflexivity.
Qed.



(* ================================================================== *)
(** * Object pool and settings changes *)

Lemma events_monotone (events : list event) :
  forall w w',
    reachable w -> for_each events handle w = Ok w' ->
    reachable w' /\
    (total_vertices (mandelbrot w) <= total_vertices (mandelbrot w'))%nat /\
    (total_quads (mandelbrot w) <= total_quads (mandelbrot w'))%nat.
Proof.
  induction events as [| e events IH]; intros w w' Hr H.
  - simpl in H. inv_ok H. auto.
  - cbn [for_each] in H. apply bind_ok in H. destruct H as (w1 & E1 & H).
    destruct (handle_wf e w w1 (reachable_wf w Hr) E1) as (_ & T1 & T2).
    destruct (IH w1 w' (reachable_step e w w1 Hr E1) H) as (Hr' & T3 & T4).
    split; [exact Hr' |]. split; lia.
Qed.

Lemma resolution_change_ok (index : nat) (w : World) :
  reachable w -> (index < length resolution_choices)%nat ->
  exists w' h wd,
    nth_error resolution_choices index = Some [h; wd] /\
    change_resolution index w = Ok w' /\ reachable w' /\
    (loaded (mandelbrot w) = true ->
     height (mandelbrot w') = h /\ width (mandelbrot w') = wd /\
     Z.of_nat (length (rendered_vertices (mandelbrot w'))) = (h * wd)%Z).
Proof.
  intros Hr Hi.
  destruct (nth_error resolution_choices index) as [res |] eqn:Ei;
    [| apply nth_error_None in Ei; lia].
  destruct (resolution_choice _ _ Ei) as (h & wd & -> & _).
  destruct (loaded (mandelbrot w)) eqn:Hl.
  - destruct (change_resolution_ok index h wd w (reachable_wf w Hr) Hl Ei)
      as (m' & E & _ & _ & _ & Hh & Hw & _ & _ & _ & _ & _ & _ & Hn).
    exists (set_mandelbrot m' w), h, wd. split; [reflexivity |].
    split; [exact E |].
    split; [exact (reachable_step (SelectResolution index) w _ Hr E) |].
    intros _. cbn [mandelbrot set_mandelbrot]. auto.
  - pose proof (not_loaded_ignored (SelectResolution index) w Hl) as E.
    cbn [handle] in E.
    exists w, h, wd. split; [reflexivity |]. split; [exact E |].
    split; [exact Hr | discriminate].
Qed.

Lemma resolution_changes_ok (indices : list nat) :
  forall w,
    reachable w ->
    Forall (fun i => (i < length resolution_choices)%nat) indices ->
    exists w', for_each indices change_resolution w = Ok w' /\ reachable w'.
Proof.
  induction indices as [| i indices IH]; intros w Hr Hall.
  - exists w. split; [reflexivity | exact Hr].
  - inversion Hall as [| x l Hi Hrest]; subst.
    destruct (resolution_change_ok i w Hr Hi) as (w1 & _ & _ & _ & E1 & Hr1 & _).
    destruct (IH w1 Hr1 Hrest) as (w' & E' & Hr').
    exists w'. cbn [for_each]. rewrite E1. cbn [bind]. auto.
Qed.

(** C8.  Along every sequence of events of a session the number of vertex
    objects and the number of quad objects (pool plus active) never
    decrease; and every change of resolution among the presets, in any
    order, renders without a failing [pop]: the handler returns, with one
    vertex taken from the pool for each pixel of the new grid. *)
Theorem pool_monotone_and_sufficient (w : World) :
  reachable w ->
  (forall events w',
     for_each events handle w = Ok w' ->
     (total_vertices (mandelbrot w) <= total_vertices (mandelbrot w'))%nat /\
     (total_quads (mandelbrot w) <= total_quads (mandelbrot w'))%nat) /\
  (forall index,
     (index < length resolution_choices)%nat ->
     exists w' h wd,
       nth_error resolution_choices index = Some [h; wd] /\
       change_resolution index w = Ok w' /\
       (loaded (mandelbrot w) = true ->
        height (mandelbrot w') = h /\ width (mandelbrot w') = wd /\
        Z.of_nat (length (rendered_vertices (mandelbrot w'))) = (h * wd)%Z)) /\
  (forall indices,
     Forall (fun i => (i < length resolution_choices)%nat) indices ->
     exists w', for_each indices change_resolution w = Ok w').
Proof.
  intros Hr. split; [| split].
  - intros events w' H. exact (proj2 (events_monotone events w w' Hr H)).
  - intros index Hi.
    destruct (resolution_change_ok index w Hr Hi) as (w' & h & wd & E & H & _ & R).
    exists w', h, wd. auto.
  - intros indices Hall.
    destruct (resolution_changes_ok indices w Hr Hall) as (w' & E & _).
    exists w'. exact E.
Qed.

Lemma pool_monotone_and_sufficient_witness :
  exists w w',
    reachable w /\
    for_each [5; 0; 3]%nat change_resolution w = Ok w'.
Proof.
  destruct program_start_ok as (w & E & _).
  destruct (pool_monotone_and_sufficient w (reachable_start w E)) as (_ & _ & Hseq).
  destruct (Hseq [5; 0; 3]%nat) as (w' & H).
  - unfold resolution_choices. simpl. repeat constructor; lia.
  - exists w, w'. split; [exact (reachable_start w E) | exact H].
Defined.

(** C9.  When the system is ready, an accepted depth, colormap or
    resolution change re-renders with the view bounds unchanged and with
    both history lists equal to what they were: the handler pops the
    current view from the undo list and the re-render pushes it back.
    Depth 50 is accepted; depths 1500 and 0 are rejected with a message
    and the object left alone. *)
Theorem settings_change_keeps_view (w : World) :
  reachable w -> loaded (mandelbrot w) = true ->
  let m := mandelbrot w in
  let kept (m' : Mandelbrot) :=
    loaded m' = true /\ viewport m' = viewport m /\
    dimensions_undo_list m' = dimensions_undo_list m /\
    dimensions_redo_list m' = dimensions_redo_list m in
  (exists older,
     list_pop (dimensions_undo_list m) = Ok (viewport m, older) /\
     dimensions_undo_list m = older ++ [viewport m]) /\
  (forall number,
     1 <= number <= 1000 ->
     exists m',
       change_search_depth number w = Ok (set_mandelbrot m' w) /\ kept m' /\
       max_iter m' = py_int number /\ colormap m' = colormap m /\
       height m' = height m /\ width m' = width m) /\
  (forall selected,
     exists m',
       change_colormap selected w = Ok (set_mandelbrot m' w) /\ kept m' /\
       max_iter m' = max_iter m /\ colormap m' = selected /\
       height m' = height m /\ width m' = width m) /\
  (forall index h wd,
     nth_error resolution_choices index = Some [h; wd] ->
     exists m',
       change_resolution index w = Ok (set_mandelbrot m' w) /\ kept m' /\
       max_iter m' = max_iter m /\ colormap m' = colormap m /\
       height m' = h /\ width m' = wd) /\
  (exists m',
     change_search_depth 50 w = Ok (set_mandelbrot m' w) /\ kept m' /\
     max_iter m' = 50%Z /\ colormap m' = colormap m) /\
  change_search_depth 1500 w
    = Ok (print "Please enter a number between 1 - 1000" w) /\
  change_search_depth 0 w
    = Ok (print "Please enter a number between 1 - 1000" w).
Proof.
  intros Hr Hl m kept. pose proof (reachable_wf w Hr) as Hwf.
  assert (Hdepth : forall number,
            1 <= number <= 1000 ->
            exists m',
              change_search_depth number w = Ok (set_mandelbrot m' w) /\
              kept m' /\
              max_iter m' = py_int number /\ colormap m' = colormap m /\
              height m' = height m /\ width m' = width m).
  { intros number Hn.
    destruct (change_search_depth_ok number w Hwf Hl Hn) as (m' & E & _ & Rest).
    decompose [and] Rest. exists m'. unfold kept. repeat split; assumption. }
  split; [| split; [| split; [| split; [| split; [| split]]]]].
  - destruct (wf_pop_undo _ Hwf) as (older & E & Epop & _).
    exists older. auto.
  - exact Hdepth.
  - intros selected.
    destruct (change_colormap_ok selected w Hwf Hl) as (m' & E & _ & Rest).
    decompose [and] Rest. exists m'. unfold kept. repeat split; assumption.
  - intros index h wd Hi.
    destruct (change_resolution_ok index h wd w Hwf Hl Hi) as (m' & E & _ & Rest).
    decompose [and] Rest. exists m'. unfold kept. repeat split; assumption.
  - destruct (Hdepth 50) as (m' & E & K & Hmi & Hcm & _); [lra |].
    exists m'. rewrite (py_int_IZR 50) in Hmi by lia. auto.
  - apply change_search_depth_rejected; [exact Hl | lra].
  - apply change_search_depth_rejected; [exact Hl | lra].
Qed.

Lemma settings_change_keeps_view_witness :
  exists w m',
    reachable w /\ loaded (mandelbrot w) = true /\
    change_search_depth 50 w = Ok (set_mandelbrot m' w) /\
    max_iter m' = 50%Z /\
    viewport m' = viewport (mandelbrot w) /\
    dimensions_undo_list m' = dimensions_undo_list (mandelbrot w) /\
    dimensions_redo_list m' = dimensions_redo_list (mandelbrot w).
Proof.
  destruct session_zoom_undo as (_ & w & _ & _ & Hr & Hl & _).
  pose proof (settings_change_keeps_view w Hr Hl) as H. cbn zeta in H.
  destruct H as (_ & _ & _ & _ & (m' & E & (_ & Hv & Hu & Hd) & Hmi & _) & _).
  exists w, m'. repeat split; assumption.
Defined.

(* ================================================================== *)
(** * Splitting *)

Lemma string_app_assoc (a b c : string) :
  ((a ++ b) ++ c)%string = (a ++ (b ++ c))%string.
Proof. induction a as [| x a IH]; simpl; [reflexivity | rewrite IH; reflexivity]. Qed.

Lemma string_app_nil_r (a : string) : (a ++ "")%string = a.
Proof. induction a as [| x a IH]; simpl; [reflexivity | rewrite IH; reflexivity]. Qed.

Lemma count_char_app (c : ascii) (a b : string) :
  count_char c (a ++ b) = (count_char c a + count_char c b)%nat.
Proof. induction a as [| x a IH]; simpl; [reflexivity | rewrite IH; lia]. Qed.

Lemma split_loop_acc (cs sep : string) (acc : list string) (cur : string) :
  split_loop cs sep acc cur = acc ++ split_loop cs sep [] cur.
Proof.
  revert acc cur; induction cs as [| a cs IH]; intros acc cur; cbn [split_loop].
  - reflexivity.
  - destruct (String.eqb (String a "") sep).
    + rewrite (IH (acc ++ [cur])), (IH ([] ++ [cur])), <- app_assoc. reflexivity.
    + apply IH.
Qed.

Lemma split_loop_step (a c : ascii) (cs cur : string) :
  split_loop (String a cs) (char c) [] cur
  = if Ascii.eqb a c then cur :: split_loop cs (char c) [] ""
    else split_loop cs (char c) [] (cur ++ char a).
Proof.
  unfold char. cbn [split_loop].
  replace (String.eqb (String a "") (String c "")) with (Ascii.eqb a c).
  - destruct (Ascii.eqb a c); [| reflexivity].
    rewrite split_loop_acc. reflexivity.
  - simpl. destruct (Ascii.eqb a c); reflexivity.
Qed.

Lemma split_loop_nonempty (cs sep : string) (cur : string) :
  split_loop cs sep [] cur <> [].
Proof.
  revert cur; induction cs as [| a cs IH]; intros cur; cbn [split_loop].
  - discriminate.
  - destruct (String.eqb (String a "") sep); [| apply IH].
    rewrite split_loop_acc. discriminate.
Qed.

Lemma split_loop_join (c : ascii) (cs cur : string) :
  String.concat (char c) (split_loop cs (char c) [] cur) = (cur ++ cs)%string.
Proof.
  revert cur; induction cs as [| a cs IH]; intros cur.
  - simpl. rewrite string_app_nil_r. reflexivity.
  - rewrite split_loop_step. destruct (Ascii.eqb_spec a c) as [-> | N].
    + pose proof (split_loop_nonempty cs (char c) "") as Hne.
      specialize (IH ""%string).
      destruct (split_loop cs (char c) [] "") as [| x xs]; [contradiction |].
      cbn [String.concat]. cbn [String.concat] in IH. rewrite IH. reflexivity.
    + rewrite IH, string_app_assoc. reflexivity.
Qed.

Lemma split_loop_count (c : ascii) (cs cur : string) :
  length (split_loop cs (char c) [] cur) = S (count_char c cs).
Proof.
  revert cur; induction cs as [| a cs IH]; intros cur.
  - reflexivity.
  - rewrite split_loop_step. cbn [count_char].
    destruct (Ascii.eqb a c); cbn [length]; rewrite IH; reflexivity.
Qed.

Lemma split_loop_pieces (c : ascii) (cs cur : string) :
  count_char c cur = O ->
  Forall (fun piece => count_char c piece = O) (split_loop cs (char c) [] cur).
Proof.
  revert cur; induction cs as [| a cs IH]; intros cur Hc.
  - simpl. constructor; [exact Hc | constructor].
  - rewrite split_loop_step. destruct (Ascii.eqb a c) eqn:E.
    + constructor; [exact Hc |]. apply IH. reflexivity.
    + apply IH. rewrite count_char_app. simpl. rewrite E, Hc. reflexivity.
Qed.

(** X1.  Joining the pieces [split] returns with the one-character
    separator gives back the string: nothing is lost or reordered, also
    with consecutive, leading or trailing separators. *)
Theorem split_join (s : string) (c : ascii) :
  String.concat (char c) (split (Some s) (char c)) = s.
Proof. unfold split. apply split_loop_join. Qed.

(** X2.  For a one-character separator [split] returns one piece more than
    the separator occurs in the string (so never an empty list, and empty
    pieces for consecutive separators), and no piece holds the separator. *)
Theorem split_pieces (s : string) (c : ascii) :
  length (split (Some s) (char c)) = S (count_char c s) /\
  Forall (fun piece => count_char c piece = O) (split (Some s) (char c)).
Proof.
  unfold split. split; [apply split_loop_count | apply split_loop_pieces].
  reflexivity.
Qed.

Lemma split_loop_whole (sep cs cur : string) :
  String.length sep <> 1%nat ->
  split_loop cs sep [] cur = [(cur ++ cs)%string].
Proof.
  intros Hs. revert cur; induction cs as [| a cs IH]; intros cur;
    cbn [split_loop app].
  - rewrite string_app_nil_r. reflexivity.
  - destruct (String.eqb_spec (String a "") sep) as [<- | _].
    + simpl in Hs. contradiction.
    + rewrite IH, string_app_assoc. reflexivity.
Qed.

(** X3.  A separator that is not exactly one character never matches:
    [split] returns the whole string as its only piece; and [split] of
    [None] is the empty list. *)
Theorem split_separator_length (s sep : string) :
  String.length sep <> 1%nat ->
  split (Some s) sep = [s] /\ split None sep = [].
Proof.
  intros Hs. split; [| reflexivity].
  unfold split. apply (split_loop_whole sep s "" Hs).
Qed.

Lemma split_separator_length_witness :
  split (Some "a, b"%string) ", " = ["a, b"%string] /\ split None ", " = [].
Proof.
  apply (split_separator_length "a, b" ", "). simpl. discriminate.
Defined.

(* ================================================================== *)
(** * Escape counts *)

Lemma sqrt_le_2 (a : R) : 0 <= a -> a <= 4 -> sqrt a <= 2.
Proof.
  intros H0 H4. replace 2 with (sqrt (2 * 2)) by (apply sqrt_square; lra).
  apply sqrt_le_1_alt. lra.
Qed.

Lemma sqrt_gt_2 (a : R) : 4 < a -> ~ sqrt a <= 2.
Proof.
  intros H4 Hs. pose proof (sqrt_pos a) as Hp.
  pose proof (sqrt_sqrt a ltac:(lra)) as E. nra.
Qed.

Lemma escape_loop_outside (k : nat) (c_re c_im z_re z_im : R) (n : Z) :
  4 < z_re ^ 2 + z_im ^ 2 ->
  escape_loop k c_re c_im z_re z_im n = Ok n.
Proof.
  intros H. destruct k; cbn [escape_loop];
    rewrite py_sqrt_ok by nra; cbn [bind];
    (destruct (Rle_dec _ 2) as [Hs | _];
     [exfalso; exact (sqrt_gt_2 _ H Hs) | reflexivity]).
Qed.

Lemma norm_sum_bound (u v a b : R) :
  u ^ 2 + v ^ 2 <= 1 / 16 -> a ^ 2 + b ^ 2 <= 1 / 16 ->
  (u + a) ^ 2 + (v + b) ^ 2 <= 1 / 4.
Proof.
  intros Hu Ha.
  pose proof (pow2_ge_0 (u - a)) as H1. pose proof (pow2_ge_0 (v - b)) as H2.
  nra.
Qed.

Lemma escape_loop_inside (k : nat) (c_re c_im : R) :
  c_re ^ 2 + c_im ^ 2 <= 1 / 16 ->
  forall (z_re z_im : R) (n : Z),
    z_re ^ 2 + z_im ^ 2 <= 1 / 4 ->
    escape_loop k c_re c_im z_re z_im n = Ok (n + Z.of_nat k)%Z.
Proof.
  intros Hc. induction k as [| k IH]; intros z_re z_im n Hz;
    cbn [escape_loop]; rewrite py_sqrt_ok by nra; cbn [bind];
    (destruct (Rle_dec _ 2) as [_ | Hs];
     [| exfalso; apply Hs; apply sqrt_le_2; nra]).
  - f_equal. lia.
  - rewrite IH.
    + f_equal. lia.
    + apply norm_sum_bound; [| exact Hc].
      replace ((z_re * z_re - z_im * z_im) ^ 2 + (2 * z_re * z_im) ^ 2)
        with ((z_re ^ 2 + z_im ^ 2) ^ 2) by ring.
      assert (H0 : 0 <= z_re ^ 2 + z_im ^ 2) by nra.
      nra.
Qed.

Lemma escape_loop_cap (k : nat) (c_re c_im : R) :
  forall (k' : nat) (z_re z_im : R) (n n' : Z),
    escape_loop k c_re c_im z_re z_im n = Ok n' ->
    (n' < n + Z.of_nat k)%Z ->
    (k <= k')%nat ->
    escape_loop k' c_re c_im z_re z_im n = Ok n'.
Proof.
  induction k as [| k IH]; intros k' z_re z_im n n' H Hlt Hle.
  - exfalso. cbn [escape_loop] in H. rewrite py_sqrt_ok in H by nra.
    cbn [bind] in H. destruct (Rle_dec _ 2); inv_ok H; lia.
  - destruct k' as [| k']; [lia |].
    cbn [escape_loop] in *. rewrite py_sqrt_ok in * by nra. cbn [bind] in *.
    destruct (Rle_dec _ 2); [| exact H].
    apply (IH k' _ _ _ _ H); lia.
Qed.

Lemma escape_time_far (c_re c_im : R) (max_iter : Z) :
  (1 <= max_iter)%Z ->
  4 < c_re ^ 2 + c_im ^ 2 ->
  escape_time c_re c_im max_iter = Ok 1%Z.
Proof.
  intros Hm Hc. unfold escape_time.
  destruct (Z.to_nat max_iter) as [| k] eqn:E; [lia |].
  cbn [escape_loop]. rewrite py_sqrt_ok by nra. cbn [bind].
  destruct (Rle_dec _ 2) as [_ | Hs];
    [| exfalso; apply Hs; apply sqrt_le_2; nra].
  apply escape_loop_outside. nra.
Qed.

(** X4.  A point of the disc of radius 1/4 around the origin never
    escapes: for every iteration cap its count is the cap itself, and it is
    colored black under every colormap. *)
Theorem inner_disc_is_black (c_re c_im : R) (max_iter : Z) (cmap : string) :
  (0 <= max_iter)%Z ->
  c_re ^ 2 + c_im ^ 2 <= 1 / 16 ->
  escape_time c_re c_im max_iter = Ok max_iter /\
  color_of_count max_iter max_iter cmap = Ok (mkvec 0 0 0).
Proof.
  intros Hm Hc. split.
  - unfold escape_time. rewrite (escape_loop_inside _ _ _ Hc) by nra.
    f_equal. lia.
  - unfold color_of_count. rewrite Z.eqb_refl. reflexivity.
Qed.

Lemma inner_disc_is_black_witness :
  escape_time 0.1 (-0.2) 100 = Ok 100%Z /\
  color_of_count 100 100 "plasma" = Ok (mkvec 0 0 0).
Proof.
  apply (inner_disc_is_black 0.1 (-0.2) 100 "plasma"); [lia | lra].
Defined.

Lemma moderate_small (d : list R) :
  Forall (fun x => Rabs x <= 10) d -> moderate d.
Proof.
  apply Forall_impl. intros x H.
  apply (Rle_trans _ (10 ^ 1)); [simpl; lra |].
  apply Rle_pow; [lra | lia].
Qed.

(** X5.  A point clear of the circle of radius 2, with [|c|^2] at least
    4.01, and with coordinates of moderate size escapes at the first
    iteration: its count is 1 for every iteration cap of at least 1.  The
    margin keeps the test [sqrt(...) <= 2] clear of the rounding of the
    floats, the size keeps the squares from overflowing. *)
Theorem far_point_escapes_at_once (c_re c_im : R) (max_iter : Z) :
  (1 <= max_iter)%Z ->
  moderate [c_re; c_im] ->
  4.01 <= c_re ^ 2 + c_im ^ 2 ->
  escape_time c_re c_im max_iter = Ok 1%Z.
Proof.
  intros Hm _ Hc. apply (escape_time_far c_re c_im max_iter Hm). lra.
Qed.

Lemma far_point_escapes_at_once_witness :
  escape_time 2 1 50 = Ok 1%Z.
Proof.
  apply (far_point_escapes_at_once 2 1 50); [lia | | lra].
  apply moderate_small; repeat constructor;
    unfold Rabs; destruct Rcase_abs; lra.
Defined.

(** X6.  The count of a point that escaped does not depend on the cap: if
    the count is below the iteration cap, it is the same under every
    larger cap. *)
Theorem escape_count_stable (c_re c_im : R) (max_iter max_iter' n : Z) :
  escape_time c_re c_im max_iter = Ok n ->
  (n < max_iter)%Z ->
  (max_iter <= max_iter')%Z ->
  escape_time c_re c_im max_iter' = Ok n.
Proof.
  unfold escape_time. intros H Hn Hle.
  apply (escape_loop_cap _ _ _ _ _ _ _ _ H); lia.
Qed.

Lemma escape_count_stable_witness :
  escape_time 2 1 1000 = Ok 1%Z.
Proof.
  apply (escape_count_stable 2 1 50 1000 1).
  - apply escape_time_far; [lia | lra].
  - lia.
  - lia.
Defined.

(* ================================================================== *)
(** * Sessions: guards, history and settings *)

Lemma session_frozen :
  exists w, reachable w /\ loaded (mandelbrot w) = false.
Proof.
  destruct session_one_zoom as (w0 & w1 & _ & _ & Hr1 & Hl1 & _ & Hu1 & Hd1).
  exists (set_mandelbrot (set_loaded false (mandelbrot w1)) w1).
  split; [| reflexivity].
  apply (reachable_step (UndoRedo true) w1); [exact Hr1 |].
  cbn [handle]. apply recall_redo_exhausted; try assumption.
  rewrite Hu1. discriminate.
Qed.

(** X7.  While the object is not loaded (a render is under way, or the
    flag was left cleared) every handler returns at once and changes
    nothing: no attribute of the object, nothing printed. *)
Theorem busy_ignores_events (e : event) (w : World) :
  loaded (mandelbrot w) = false -> handle e w = Ok w.
Proof. exact (not_loaded_ignored e w). Qed.

Lemma busy_ignores_events_witness :
  exists w,
    reachable w /\
    handle (EnterDimensions "0,1,0,1") w = Ok w /\
    handle (SelectResolution 5) w = Ok w.
Proof.
  destruct session_frozen as (w & Hr & Hl).
  exists w. split; [exact Hr |].
  split; apply (busy_ignores_events _ w Hl).
Defined.

(** X8.  In every state of a session the undo list is not empty, its last
    entry is the current view, and every entry of both history lists has
    exactly four numbers. *)
Theorem history_invariant (w : World) :
  reachable w ->
  dimensions_undo_list (mandelbrot w) <> [] /\
  (exists older,
     dimensions_undo_list (mandelbrot w) = older ++ [viewport (mandelbrot w)]) /\
  Forall (fun d : list R => length d = 4%nat)
    (dimensions_undo_list (mandelbrot w) ++ dimensions_redo_list (mandelbrot w)).
Proof.
  intros Hr. destruct (reachable_wf w Hr) as [_ _ [older E] Hall _].
  split; [| split; [exists older; exact E | exact Hall]].
  rewrite E. destruct older; discriminate.
Qed.

Lemma history_invariant_witness :
  exists w,
    reachable w /\
    dimensions_undo_list (mandelbrot w) <> [] /\
    dimensions_redo_list (mandelbrot w) = [[0; 1; 0; 1]].
Proof.
  destruct session_zoom_undo as (_ & w & _ & _ & Hr & _ & _ & _ & Hd).
  destruct (history_invariant w Hr) as (Hne & _).
  exists w. auto.
Defined.

(** X9.  In every state of a session the resolution is one of the six
    presets and the iteration depth lies in [1, 1000]. *)
Theorem settings_invariant (w : World) :
  reachable w ->
  In [height (mandelbrot w); width (mandelbrot w)] resolution_choices /\
  (1 <= max_iter (mandelbrot w) <= 1000)%Z.
Proof.
  intros Hr. destruct (reachable_wf w Hr) as [Hp _ _ _ Hd]. auto.
Qed.

Lemma settings_invariant_witness :
  exists w,
    reachable w /\ loaded (mandelbrot w) = false /\
    (1 <= max_iter (mandelbrot w) <= 1000)%Z.
Proof.
  destruct session_frozen as (w & Hr & Hl).
  destruct (settings_invariant w Hr) as (_ & Hd).
  exists w. auto.
Defined.

(** X10.  In every state of a session the number of vertex objects is
    height x width of one of the presets, at least as large as the current
    one, and the number of quad objects is (height - 1) x width of the
    same preset; so there are never more than 345600 vertices and 344880
    quads. *)
Theorem pool_size_bound (w : World) :
  reachable w ->
  (exists hM wM,
     In [hM; wM] resolution_choices /\ (height (mandelbrot w) <= hM)%Z /\
     Z.of_nat (total_vertices (mandelbrot w)) = (hM * wM)%Z /\
     Z.of_nat (total_quads (mandelbrot w)) = ((hM - 1) * wM)%Z) /\
  (Z.of_nat (total_vertices (mandelbrot w)) <= 345600)%Z /\
  (Z.of_nat (total_quads (mandelbrot w)) <= 344880)%Z.
Proof.
  intros Hr. destruct (reachable_wf w Hr) as [_ Hpool _ _ _].
  split; [exact Hpool |].
  destruct Hpool as (hM & wM & HM & _ & -> & ->).
  apply preset_cases in HM. lia.
Qed.

Lemma pool_size_bound_witness :
  exists w,
    reachable w /\
    (Z.of_nat (total_vertices (mandelbrot w)) <= 345600)%Z.
Proof.
  destruct program_start_ok as (w & E & _).
  destruct (pool_size_bound w (reachable_start w E)) as (_ & H & _).
  exists w. split; [exact (reachable_start w E) | exact H].
Defined.



Lemma recall_cases (redo : bool) (w w' : World) :
  wf (mandelbrot w) ->
  recall_mandelbrot_dimensions redo w = Ok w' ->
  console w' = console w /\
  max_iter (mandelbrot w') = max_iter (mandelbrot w) /\
  height (mandelbrot w') = height (mandelbrot w) /\
  width (mandelbrot w') = width (mandelbrot w) /\
  colormap (mandelbrot w') = colormap (mandelbrot w) /\
  dimensions_undo_list (mandelbrot w') ++ rev (dimensions_redo_list (mandelbrot w'))
    = dimensions_undo_list (mandelbrot w) ++ rev (dimensions_redo_list (mandelbrot w)).
Proof.
  intros Hwf H.
  destruct (loaded (mandelbrot w)) eqn:Hl.
  2:{ pose proof (not_loaded_ignored (UndoRedo redo) w Hl) as E.
      cbn [handle] in E. rewrite E in H. inv_ok H. repeat split. }
  destruct redo.
  - destruct (last_cases (dimensions_redo_list (mandelbrot w)))
      as [Er | (rest & next & Er)].
    + destruct (Nat.eq_dec (length (dimensions_undo_list (mandelbrot w))) 1)
        as [Eu | Nu].
      * rewrite recall_nothing in H by assumption. inv_ok H. repeat split.
      * rewrite recall_redo_exhausted in H by assumption. inv_ok H.
        repeat split.
    + destruct (recall_redo_ok w rest next Hwf Hl Er)
        as (m' & E & _ & _ & H1 & H2 & H3 & H4 & _ & Hu & Hd & _).
      rewrite E in H. injection H as <-. cbn [mandelbrot set_mandelbrot console].
      repeat split; try assumption.
      rewrite Hu, Hd, Er, rev_app_distr, <- app_assoc. reflexivity.
  - destruct (wf_undo_shape _ Hwf) as [Eu | (rest & previous & Eu)].
    + assert (Lu : length (dimensions_undo_list (mandelbrot w)) = 1%nat)
        by (rewrite Eu; reflexivity).
      destruct (dimensions_redo_list (mandelbrot w)) as [| d r] eqn:Er.
      * rewrite recall_nothing in H by assumption. inv_ok H.
        rewrite Er. repeat split.
      * rewrite recall_undo_exhausted in H
          by (try assumption; rewrite Er; discriminate).
        inv_ok H. cbn [mandelbrot set_mandelbrot console].
        cbn. rewrite Er. repeat split.
    + destruct (recall_undo_ok w rest previous Hwf Hl Eu)
        as (m' & E & _ & _ & H1 & H2 & H3 & H4 & _ & Hu & Hd & _).
      rewrite E in H. injection H as <-. cbn [mandelbrot set_mandelbrot console].
      repeat split; try assumption.
      rewrite Hu, Hd, Eu, rev_app_distr, <- !app_assoc. reflexivity.
Qed.

(** X12.  Undo and Redo never lose or reorder a view and never touch the
    other settings: whatever the handler does (navigate, do nothing, or
    give up on an exhausted list), the undo list followed by the reversed
    redo list is the same sequence as before, and depth, resolution and
    colormap are unchanged. *)
Theorem navigation_keeps_history (redo : bool) (w w' : World) :
  reachable w ->
  recall_mandelbrot_dimensions redo w = Ok w' ->
  dimensions_undo_list (mandelbrot w') ++ rev (dimensions_redo_list (mandelbrot w'))
    = dimensions_undo_list (mandelbrot w) ++ rev (dimensions_redo_list (mandelbrot w)) /\
  max_iter (mandelbrot w') = max_iter (mandelbrot w) /\
  height (mandelbrot w') = height (mandelbrot w) /\
  width (mandelbrot w') = width (mandelbrot w) /\
  colormap (mandelbrot w') = colormap (mandelbrot w) /\
  console w' = console w.
Proof.
  intros Hr H.
  destruct (recall_cases redo w w' (reachable_wf w Hr) H)
    as (H1 & H2 & H3 & H4 & H5 & H6).
  repeat split; assumption.
Qed.

Lemma navigation_keeps_history_witness :
  exists w w',
    reachable w /\
    recall_mandelbrot_dimensions false w = Ok w' /\
    dimensions_undo_list (mandelbrot w') ++ rev (dimensions_redo_list (mandelbrot w'))
      = dimensions_undo_list (mandelbrot w) ++ rev (dimensions_redo_list (mandelbrot w)).
Proof.
  destruct session_zoom_undo as (w & w' & Hr & E & _).
  destruct (navigation_keeps_history false w w' Hr E) as (H & _).
  exists w, w'. auto.
Defined.

(* ================================================================== *)
(** * Drag selection *)

Lemma resize_box_sample_zero (p c : vec) :
  vec_x c = vec_x p -> resize_box_sample p c = Raise ZeroDivisionError.
Proof.
  intros E. unfold resize_box_sample. rewrite E.
  replace (vec_x p - vec_x p) with 0 by lra.
  rewrite Rabs_R0, py_div_zero. reflexivity.
Qed.

Lemma resize_box_sample_inv (p c q : vec) :
  resize_box_sample p c = Ok q ->
  vec_x c <> vec_x p /\ vec_x q <> vec_x p /\ vec_y q <> vec_y p /\ vec_z q = 0.
Proof.
  intros H.
  destruct (Req_dec_T (vec_x c) (vec_x p)) as [E | N].
  { rewrite (resize_box_sample_zero p c E) in H. discriminate H. }
  split; [exact N |].
  pose proof (resize_box_sample_cases p c N) as C. cbn zeta in C.
  set (bw := Rabs (vec_x c - vec_x p)) in *.
  set (bh := Rabs (vec_y c - vec_y p)) in *.
  destruct C as (Hw & Hh & [[Hr E] | [Hr E]]); rewrite E in H; inv_ok H;
    cbn [vec_x vec_y vec_z].
  - assert (Hbh : 0 < bh).
    { assert (E0 : bh / bw * bw = bh) by (field; lra).
      pose proof (Rmult_lt_compat_r bw _ _ Hw Hr) as Hm.
      rewrite E0 in Hm. lra. }
    assert (Hy : vec_y c <> vec_y p).
    { intros Ey. unfold bh in Hbh. rewrite Ey in Hbh.
      replace (vec_y p - vec_y p) with 0 in Hbh by lra.
      rewrite Rabs_R0 in Hbh. lra. }
    repeat split; auto.
    destruct (Rgt_dec (vec_x c) (vec_x p)); lra.
  - repeat split; auto.
    destruct (Rgt_dec (vec_y c) (vec_y p)); lra.
Qed.

Lemma drag_samples_last (p : vec) (rest : list vec) (c q0 q : vec) :
  for_each (rest ++ [c]) (fun c _ => resize_box_sample p c) q0 = Ok q ->
  resize_box_sample p c = Ok q.
Proof.
  revert q0; induction rest as [| a rest IH]; intros q0 H.
  - cbn [app for_each] in H. destruct (resize_box_sample p c); [| discriminate H].
    exact H.
  - cbn [app for_each] in H. apply bind_ok in H. destruct H as (q1 & _ & H).
    exact (IH q1 H).
Qed.

Lemma drag_samples_ok (p : vec) (samples : list vec) :
  forall q0,
    Forall (fun c => vec_x c <> vec_x p) samples ->
    exists q, for_each samples (fun c _ => resize_box_sample p c) q0 = Ok q.
Proof.
  induction samples as [| c samples IH]; intros q0 Hall.
  - exists q0. reflexivity.
  - inversion Hall as [| x l Hc Hrest]; subst.
    destruct (resize_box_sample_cases p c Hc) as (_ & _ & [[_ E] | [_ E]]);
      cbn [for_each]; rewrite E; cbn [bind]; apply IH, Hrest.
Qed.


Lemma resize_box_release_eq (p q : vec) (w : World) :
  wf (mandelbrot w) ->
  resize_box_release p q w
  = (m' <- change_parameters (max_iter (mandelbrot w))
             (release_view (mandelbrot w) p q)
             [height (mandelbrot w); width (mandelbrot w)]
             (colormap (mandelbrot w)) (mandelbrot w) ;;
     Ok (set_mandelbrot m' w)).
Proof.
  intros Hwf. unfold resize_box_release, release_view.
  destruct (preset_positive _ _ (wf_preset _ Hwf)) as [Hh Hw].
  rewrite !py_div_ok by (apply not_0_IZR; lia). reflexivity.
Qed.

Lemma resize_box_release_applied (p q : vec) (w : World) :
  wf (mandelbrot w) ->
  exists m',
    resize_box_release p q w = Ok (set_mandelbrot m' w) /\
    applied (max_iter (mandelbrot w)) (release_view (mandelbrot w) p q)
      (height (mandelbrot w)) (width (mandelbrot w)) (colormap (mandelbrot w))
      (mandelbrot w) m' /\
    wf m'.
Proof.
  intros Hwf. rewrite resize_box_release_eq by exact Hwf.
  destruct (change_parameters_wf (mandelbrot w) (max_iter (mandelbrot w))
              (release_view (mandelbrot w) p q)
              (height (mandelbrot w)) (width (mandelbrot w))
              (colormap (mandelbrot w))) as (m' & E & A & Hwf').
  - exact (wf_pool _ Hwf).
  - exact (wf_preset _ Hwf).
  - exact (wf_depth _ Hwf).
  - reflexivity.
  - exact (wf_dims _ Hwf).
  - exists m'. rewrite E. cbn [bind]. auto.
Qed.

(** X13.  In every state of a session whose history holds views of
    moderate size, every widget event other than a drag returns normally:
    no history [pop], pool [pop] or index raises, whether the event is
    accepted, rejected with a message or ignored.  A dimensions text is
    taken to be ASCII and to bring finite bounds of moderate size when it
    passes the validation. *)
Theorem widget_events_return (e : event) (w : World) :
  reachable w ->
  Forall moderate
    (dimensions_undo_list (mandelbrot w) ++ dimensions_redo_list (mandelbrot w)) ->
  widget_event e -> moderate_event e ->
  exists w', handle e w = Ok w'.
Proof.
  intros Hr _ He Hm. pose proof (reachable_wf w Hr) as Hwf.
  destruct (loaded (mandelbrot w)) eqn:Hl.
  2:{ exists w. apply not_loaded_ignored, Hl. }
  destruct e as [p samples | redo | index | selected | number | text];
    cbn [handle widget_event moderate_event] in *.
  - contradiction.
  - destruct redo.
    + destruct (last_cases (dimensions_redo_list (mandelbrot w)))
        as [Er | (rest & next & Er)].
      * destruct (Nat.eq_dec (length (dimensions_undo_list (mandelbrot w))) 1).
        -- eexists. apply recall_nothing; assumption.
        -- eexists. apply recall_redo_exhausted; assumption.
      * destruct (recall_redo_ok w rest next Hwf Hl Er) as (m' & E & _).
        eexists. exact E.
    + destruct (wf_undo_shape _ Hwf) as [Eu | (rest & previous & Eu)].
      * assert (Lu : length (dimensions_undo_list (mandelbrot w)) = 1%nat)
          by (rewrite Eu; reflexivity).
        destruct (dimensions_redo_list (mandelbrot w)) as [| d r] eqn:Er.
        -- eexists. apply recall_nothing; assumption.
        -- eexists. apply recall_undo_exhausted; try assumption.
           rewrite Er. discriminate.
      * destruct (recall_undo_ok w rest previous Hwf Hl Eu) as (m' & E & _).
        eexists. exact E.
  - destruct (nth_error resolution_choices index) as [res |] eqn:Ei;
      [| apply nth_error_None in Ei; lia].
    destruct (resolution_choice _ _ Ei) as (h & wd & -> & _).
    destruct (change_resolution_ok index h wd w Hwf Hl Ei) as (m' & E & _).
    eexists. exact E.
  - destruct (change_colormap_ok selected w Hwf Hl) as (m' & E & _).
    eexists. exact E.
  - destruct (Rlt_dec number 1) as [Lo |];
      [| destruct (Rgt_dec number 1000) as [Hi |]].
    + eexists. apply change_search_depth_rejected; auto.
    + eexists. apply change_search_depth_rejected; auto.
    + destruct (change_search_depth_ok number w Hwf Hl) as (m' & E & _); [lra |].
      eexists. exact E.
  - destruct (parse_dimensions text) as [fl | ex] eqn:Ep.
    + destruct Hm as [_ Hm]. destruct (Hm fl eq_refl) as (z & -> & _).
      destruct (change_image_dimensions_ok text z w Hwf Hl Ep) as (m' & E & _).
      eexists. exact E.
    + eexists. exact (change_image_dimensions_rejected text ex w Hl Ep).
Qed.

Lemma widget_events_return_witness :
  exists w w',
    reachable w /\ handle (EnterDimensions "0,0.5,0,0.5") w = Ok w'.
Proof.
  destruct session_zoom_undo as (_ & w & _ & _ & Hr & _ & _ & Hu & Hd).
  destruct (widget_events_return (EnterDimensions "0,0.5,0,0.5") w Hr)
    as (w' & E).
  - rewrite Hu, Hd. unfold default_dimensions. cbn [app].
    constructor; [| constructor; [| constructor]];
      apply moderate_small; repeat constructor;
      unfold Rabs; destruct Rcase_abs; lra.
  - exact I.
  - split; [repeat constructor |].
    intros dims Hp. rewrite parse_upper_square in Hp. injection Hp as <-.
    exists [0; 0.5; 0; 0.5]. split; [reflexivity |].
    apply moderate_small; repeat constructor;
      unfold Rabs; destruct Rcase_abs; lra.
  - exists w, w'. auto.
Defined.



(** X15.  The zoom box depends only on the press point and the last
    pointer sample: a drag that returns gives the same state as the drag
    with that last sample alone. *)
Theorem drag_uses_last_sample (p c : vec) (rest : list vec) (w w' : World) :
  resize_box p (rest ++ [c]) w = Ok w' ->
  resize_box p [c] w = Ok w'.
Proof.
  unfold resize_box. destruct (negb (loaded (mandelbrot w))); [trivial |].
  intros H. apply bind_ok in H. destruct H as (q & E & H).
  apply drag_samples_last in E. cbn [for_each]. rewrite E. cbn [bind].
  exact H.
Qed.

Lemma drag_uses_last_sample_witness :
  exists w w',
    reachable w /\
    resize_box (mkvec 0 0 0) [mkvec 3 1 0; mkvec 6 2 0] w = Ok w' /\
    resize_box (mkvec 0 0 0) [mkvec 6 2 0] w = Ok w'.
Proof.
  destruct program_start_ok as (w & E & Hwf & Hl & _).
  destruct (drag_samples_ok (mkvec 0 0 0) [mkvec 3 1 0; mkvec 6 2 0]
              (mkvec 0 0 0)) as (q & Eq).
  { repeat constructor; cbn [vec_x]; lra. }
  destruct (resize_box_release_applied (mkvec 0 0 0) q w Hwf) as (m' & E' & _).
  assert (H : resize_box (mkvec 0 0 0) ([mkvec 3 1 0] ++ [mkvec 6 2 0]) w
              = Ok (set_mandelbrot m' w)).
  { unfold resize_box. rewrite Hl. cbn [negb app]. rewrite Eq. exact E'. }
  exists w, (set_mandelbrot m' w). split; [exact (reachable_start w E) |].
  split; [exact H |].
  exact (drag_uses_last_sample _ _ _ _ _ H).
Defined.

Lemma release_view_plane (m : Mandelbrot) (p q : vec) :
  IZR (width m) <> 0 -> IZR (height m) <> 0 ->
  release_view m p q
  = [ plane_x m (Rmin (vec_x p) (vec_x q));
      plane_x m (Rmax (vec_x p) (vec_x q));
      plane_y m (Rmin (vec_y p) (vec_y q));
      plane_y m (Rmax (vec_y p) (vec_y q)) ].
Proof.
  intros Hw Hh. unfold release_view, plane_x, plane_y.
  f_equal; [| f_equal; [| f_equal; [| f_equal]]]; field; assumption.
Qed.

Lemma valid_dims_view (m : Mandelbrot) :
  valid_dims (viewport m) <-> valid_view m.
Proof.
  unfold valid_dims, valid_view, viewport. split.
  - intros (a & b & c & e & E & H). injection E as -> -> -> ->. exact H.
  - intros H. eexists _, _, _, _. split; [reflexivity | exact H].
Qed.

(** X16.  When the system is ready, releasing a drag with the locked
    corner [q] asks for the view whose bounds are the plane coordinates of
    the box: the render's own pixel-to-plane map, which [pixel_sample]
    applies at each pixel's screen position, taken at the smaller and the
    larger screen coordinate of the two corners. *)
Theorem drag_selects_plane_box (p q : vec) (samples : list vec) (w : World) :
  reachable w -> loaded (mandelbrot w) = true ->
  for_each samples (fun c _ => resize_box_sample p c) p = Ok q ->
  let m := mandelbrot w in
  (exists w',
     resize_box p samples w = Ok w' /\
     viewport (mandelbrot w')
     = [ plane_x m (Rmin (vec_x p) (vec_x q));
         plane_x m (Rmax (vec_x p) (vec_x q));
         plane_y m (Rmin (vec_y p) (vec_y q));
         plane_y m (Rmax (vec_y p) (vec_y q)) ]) /\
  (forall px py,
     pixel_sample m ((x_min m + x_max m) / 2) ((y_min m + y_max m) / 2)
       ((x_max m - x_min m) / IZR (width m))
       ((y_max m - y_min m) / IZR (height m)) px py
     = (n <- escape_time (plane_x m (INR px - IZR (width m) / 2))
                         (plane_y m (INR py - IZR (height m) / 2))
                         (max_iter m) ;;
        pixel_color <- color_of_count n (max_iter m) (colormap m) ;;
        Ok (n, pixel_color))).
Proof.
  intros Hr Hl Hq m. pose proof (reachable_wf w Hr) as Hwf. split.
  - unfold resize_box. rewrite Hl. cbn [negb]. rewrite Hq. cbn [bind].
    destruct (resize_box_release_applied p q w Hwf) as (m' & E & A & _).
    destruct A as (_ & A2 & _).
    destruct (preset_positive _ _ (wf_preset _ Hwf)) as [Hh Hw].
    exists (set_mandelbrot m' w). split; [exact E |].
    cbn [mandelbrot set_mandelbrot]. rewrite A2.
    apply release_view_plane; apply not_0_IZR; unfold m; lia.
  - intros px py. reflexivity.
Qed.

Lemma drag_selects_plane_box_witness :
  exists w w' q,
    reachable w /\
    resize_box (mkvec 0 0 0) [mkvec 3 1 0] w = Ok w' /\
    x_min (mandelbrot w') = plane_x (mandelbrot w) (Rmin 0 (vec_x q)).
Proof.
  destruct program_start_ok as (w & E & _ & Hl & _).
  destruct (drag_samples_ok (mkvec 0 0 0) [mkvec 3 1 0] (mkvec 0 0 0))
    as (q & Eq).
  { repeat constructor; cbn [vec_x]; lra. }
  pose proof (drag_selects_plane_box (mkvec 0 0 0) q [mkvec 3 1 0] w
                (reachable_start w E) Hl Eq) as H.
  cbn zeta in H. destruct H as ((w' & E' & Hv) & _).
  exists w, w', q. split; [exact (reachable_start w E) |].
  split; [exact E' |]. unfold viewport in Hv. cbn [vec_x] in Hv.
  injection Hv as Hx _ _ _. exact Hx.
Defined.

(** X17.  A press released before any pointer sample zooms onto a single
    point: the drag is accepted and the new view has [x_min = x_max] and
    [y_min = y_max]. *)
Theorem click_collapses_view (p : vec) (w : World) :
  reachable w -> loaded (mandelbrot w) = true ->
  exists w',
    resize_box p [] w = Ok w' /\
    loaded (mandelbrot w') = true /\
    x_min (mandelbrot w') = x_max (mandelbrot w') /\
    y_min (mandelbrot w') = y_max (mandelbrot w') /\
    dimensions_undo_list (mandelbrot w')
      = dimensions_undo_list (mandelbrot w) ++ [viewport (mandelbrot w')].
Proof.
  intros Hr Hl. pose proof (reachable_wf w Hr) as Hwf.
  unfold resize_box. rewrite Hl. cbn [negb for_each bind].
  destruct (resize_box_release_applied p p w Hwf) as (m' & E & A & _).
  destruct A as (_ & A2 & _ & _ & _ & A6 & _ & A8 & _).
  exists (set_mandelbrot m' w). cbn [mandelbrot set_mandelbrot].
  split; [exact E |]. split; [exact A8 |].
  unfold viewport, release_view in A2.
  injection A2 as Ha Hb Hc Hd.
  unfold Rmin, Rmax in *.
  destruct (Rle_dec (vec_x p) (vec_x p)); destruct (Rle_dec (vec_y p) (vec_y p));
    repeat split; try congruence;
    rewrite A6; unfold viewport, release_view, Rmin, Rmax;
    repeat match goal with
           | |- context [Rle_dec ?a ?b] => destruct (Rle_dec a b)
           end; congruence.
Qed.

Lemma click_collapses_view_witness :
  exists w w',
    reachable w /\
    resize_box (mkvec 10 20 0) [] w = Ok w' /\
    x_min (mandelbrot w') = x_max (mandelbrot w').
Proof.
  destruct program_start_ok as (w & E & _ & Hl & _).
  destruct (click_collapses_view (mkvec 10 20 0) w (reachable_start w E) Hl)
    as (w' & E' & _ & Hx & _).
  exists w, w'. split; [exact (reachable_start w E) | auto].
Defined.

Lemma handle_valid (e : event) (w w' : World) :
  wf (mandelbrot w) ->
  Forall valid_dims
    (dimensions_undo_list (mandelbrot w) ++ dimensions_redo_list (mandelbrot w)) ->
  no_drag e -> handle e w = Ok w' ->
  Forall valid_dims
    (dimensions_undo_list (mandelbrot w') ++ dimensions_redo_list (mandelbrot w')).
Proof.
  intros Hwf Hall Hnd H.
  destruct (loaded (mandelbrot w)) eqn:Hl.
  2:{ rewrite not_loaded_ignored in H by exact Hl. inv_ok H. exact Hall. }
  assert (Hpush : forall dims m',
            valid_dims dims ->
            dimensions_undo_list m'
              = dimensions_undo_list (mandelbrot w) ++ [dims] ->
            dimensions_redo_list m' = dimensions_redo_list (mandelbrot w) ->
            Forall valid_dims (dimensions_undo_list m' ++ dimensions_redo_list m')).
  { intros dims m' Hd Eu Er. rewrite Eu, Er.
    apply Forall_app in Hall. destruct Hall as [Hu Hr'].
    apply Forall_app. split; [| exact Hr'].
    apply Forall_app. split; [exact Hu | constructor; [exact Hd | constructor]]. }
  destruct e as [p samples | redo | index | selected | number | text];
    cbn [handle no_drag] in *.
  - contradiction.
  - destruct (recall_cases redo w w' Hwf H) as (_ & _ & _ & _ & _ & E).
    apply Forall_app. apply Forall_app in Hall. destruct Hall as [Hu Hr'].
    assert (F : Forall valid_dims
                  (dimensions_undo_list (mandelbrot w')
                   ++ rev (dimensions_redo_list (mandelbrot w')))).
    { rewrite E. apply Forall_app. split; [exact Hu | apply Forall_rev, Hr']. }
    apply Forall_app in F. destruct F as [F1 F2]. split; [exact F1 |].
    rewrite <- (rev_involutive (dimensions_redo_list (mandelbrot w'))).
    apply Forall_rev, F2.
  - destruct (nth_error resolution_choices index) as [res |] eqn:Ei.
    + destruct (resolution_choice _ _ Ei) as (h & wd & -> & _).
      destruct (change_resolution_ok index h wd w Hwf Hl Ei)
        as (m' & E & _ & _ & _ & _ & _ & _ & _ & Eu & Er & _).
      rewrite E in H. inv_ok H. cbn [mandelbrot set_mandelbrot].
      rewrite Eu, Er. exact Hall.
    + exfalso. unfold change_resolution in H. rewrite Hl in H.
      cbn [negb] in H.
      destruct (wf_pop_undo _ Hwf) as (older & _ & Epop & _).
      rewrite Epop in H. cbn [bind] in H.
      unfold py_index in H. rewrite Ei in H. discriminate H.
  - destruct (change_colormap_ok selected w Hwf Hl)
      as (m' & E & _ & _ & _ & _ & _ & _ & _ & Eu & Er & _).
    rewrite E in H. inv_ok H. cbn [mandelbrot set_mandelbrot].
    rewrite Eu, Er. exact Hall.
  - destruct (Rlt_dec number 1) as [Lo |];
      [| destruct (Rgt_dec number 1000) as [Hi |]].
    + rewrite change_search_depth_rejected in H by auto. inv_ok H. exact Hall.
    + rewrite change_search_depth_rejected in H by auto. inv_ok H. exact Hall.
    + destruct (change_search_depth_ok number w Hwf Hl)
        as (m' & E & _ & _ & _ & _ & _ & _ & _ & Eu & Er & _); [lra |].
      rewrite E in H. inv_ok H. cbn [mandelbrot set_mandelbrot].
      rewrite Eu, Er. exact Hall.
  - destruct (change_image_dimensions_cases text w w' Hl H)
      as [[dims Ep] | [ex Ep]].
    + destruct (change_image_dimensions_ok text dims w Hwf Hl Ep)
        as (m' & E & _ & A & _).
      rewrite E in H. inv_ok H. cbn [mandelbrot set_mandelbrot].
      destruct A as (_ & _ & _ & _ & _ & A6 & A7 & _).
      apply (Hpush dims); try assumption.
      apply parse_dimensions_ok in Ep.
      destruct Ep as (a & b & c & d & -> & _ & Hab & Hcd).
      exists a, b, c, d. auto.
    + rewrite (change_image_dimensions_rejected text ex) in H by assumption.
      inv_ok H. exact Hall.
Qed.

Lemma widget_session_valid (events : list event) :
  forall w w',
    reachable w ->
    Forall valid_dims
      (dimensions_undo_list (mandelbrot w) ++ dimensions_redo_list (mandelbrot w)) ->
    Forall no_drag events ->
    for_each events handle w = Ok w' ->
    Forall valid_dims
      (dimensions_undo_list (mandelbrot w') ++ dimensions_redo_list (mandelbrot w')) /\
    reachable w'.
Proof.
  induction events as [| e events IH]; intros w w' Hr Hall Hnd H.
  - simpl in H. inv_ok H. auto.
  - cbn [for_each] in H. apply bind_ok in H. destruct H as (w1 & E1 & H).
    inversion Hnd as [| x l He Hrest]; subst.
    apply (IH w1 w'); try assumption.
    + exact (reachable_step e w w1 Hr E1).
    + exact (handle_valid e w w1 (reachable_wf w Hr) Hall He E1).
Qed.

(** X18.  Along a session without drags in which every handler returns,
    the view stays well formed: after every event [x_min < x_max] and
    [y_min < y_max] hold for the current view and for every entry of the
    undo and redo lists.  The views of such a session come from the
    initial view and from dimension texts, whose bounds are the floats
    [float()] returned, compared as floats; a text let through with a nan
    or an infinity among its bounds is beyond the object model and no
    part of such a session. *)
Theorem view_stays_valid (events : list event) (w0 w' : World) :
  program_start = Ok w0 ->
  Forall no_drag events ->
  for_each events handle w0 = Ok w' ->
  valid_view (mandelbrot w') /\
  Forall valid_dims
    (dimensions_undo_list (mandelbrot w') ++ dimensions_redo_list (mandelbrot w')).
Proof.
  intros Hs Hnd H.
  destruct program_start_ok as (w & E & _ & _ & _ & _ & _ & _ & _ & Hu & Hd & _).
  rewrite E in Hs. inv_ok Hs.
  destruct (widget_session_valid events w0 w' (reachable_start w0 E))
    as (Hall & Hr'); try assumption.
  { rewrite Hu, Hd. repeat constructor.
    unfold default_dimensions. eexists _, _, _, _.
    split; [reflexivity | lra]. }
  split; [| exact Hall].
  apply valid_dims_view. destruct (wf_undo _ (reachable_wf w' Hr')) as [older Eu].
  rewrite Eu in Hall. apply Forall_app in Hall. destruct Hall as [Hall _].
  apply Forall_app in Hall. destruct Hall as [_ Hall].
  inversion Hall; assumption.
Qed.

Lemma view_stays_valid_witness :
  exists w0 w',
    program_start = Ok w0 /\
    for_each [EnterDimensions "0,1,0,1"; UndoRedo false] handle w0 = Ok w' /\
    valid_view (mandelbrot w').
Proof.
  destruct session_one_zoom as (w0 & w1 & E0 & E1 & Hr1 & Hl1 & Hv1 & Hu1 & Hd1).
  destruct (recall_undo_ok w1 [] default_dimensions (reachable_wf _ Hr1) Hl1)
    as (m2 & E2 & _).
  { rewrite Hu1, Hv1. reflexivity. }
  assert (H : for_each [EnterDimensions "0,1,0,1"; UndoRedo false] handle w0
              = Ok (set_mandelbrot m2 w1)).
  { cbn [for_each handle]. rewrite E1. cbn [bind]. rewrite E2. reflexivity. }
  exists w0, (set_mandelbrot m2 w1). split; [exact E0 |]. split; [exact H |].
  apply (view_stays_valid [EnterDimensions "0,1,0,1"; UndoRedo false] w0
           (set_mandelbrot m2 w1) E0); [| exact H].
  repeat constructor.
Defined.

(* ================================================================== *)
(** * What a render leaves on screen *)

Lemma list_pop_nonempty_inv {A : Type} (l r : list A) (a : A) :
  list_pop l = Ok (a, r) -> l = r ++ [a].
Proof.
  intros H. destruct l as [| x l]; [discriminate H |].
  destruct (list_pop_nonempty (x :: l)) as (a' & r' & E & L);
    [simpl; lia |].
  rewrite E in H. injection H as <- <-. exact L.
Qed.

Lemma pixel_sample_settings (s s' : Mandelbrot) (cx cy zx zy : R) (px py : nat) :
  same_settings s s' ->
  pixel_sample s' cx cy zx zy px py = pixel_sample s cx cy zx zy px py.
Proof.
  intros (H1 & _ & _ & _ & _ & H6 & H7 & H8 & _).
  unfold pixel_sample. rewrite H1, H6, H7, H8. reflexivity.
Qed.

Lemma drawn_settings (s s' : Mandelbrot) (cx cy zx zy : R) (v : vertex)
    (pixel : nat * nat) :
  same_settings s s' -> drawn s' cx cy zx zy v pixel -> drawn s cx cy zx zy v pixel.
Proof.
  intros S [Hp [n Hn]]. pose proof S as (_ & _ & _ & _ & _ & H6 & H7 & _).
  split.
  - rewrite Hp, H6, H7. reflexivity.
  - exists n. rewrite <- (pixel_sample_settings s s') by exact S. exact Hn.
Qed.

Lemma render_effect_nil (cx cy zx zy : R) (s : Mandelbrot) :
  render_effect cx cy zx zy [] s s.
Proof.
  split; [apply same_settings_refl |].
  exists [], [], [], []. rewrite !app_nil_r. repeat split; constructor.
Qed.

Lemma render_effect_app (cx cy zx zy : R) (p1 p2 : list (nat * nat))
    (s s1 s2 : Mandelbrot) :
  render_effect cx cy zx zy p1 s s1 ->
  render_effect cx cy zx zy p2 s1 s2 ->
  render_effect cx cy zx zy (p1 ++ p2) s s2.
Proof.
  intros (S1 & nv1 & nq1 & tv1 & tq1 & A1 & B1 & C1 & D1 & F1 & L1 & V1 & N1 & M1)
         (S2 & nv2 & nq2 & tv2 & tq2 & A2 & B2 & C2 & D2 & F2 & L2 & V2 & N2 & M2).
  split; [eapply same_settings_trans; eassumption |].
  exists (nv1 ++ nv2), (nq1 ++ nq2), (tv2 ++ tv1), (tq2 ++ tq1).
  rewrite A2, A1, B1, B2, C2, C1, D1, D2, <- !app_assoc.
  repeat split; try reflexivity.
  - apply Forall2_app; [exact F1 |].
    eapply Forall2_impl; [| exact F2].
    intros v px. apply drawn_settings, S1.
  - rewrite !length_app. lia.
  - apply Forall_app. auto.
  - rewrite filter_app, !length_app. lia.
  - rewrite !length_app. lia.
Qed.

Lemma render_pixel_effect (cx cy zx zy : R) (px py : nat) (st st' : render_state) :
  render_pixel cx cy zx zy px py st = Ok st' ->
  render_effect cx cy zx zy [(px, py)] (r_self st) (r_self st').
Proof.
  unfold render_pixel. intros H.
  apply bind_ok in H. destruct H as ([n c] & Es & H).
  apply bind_ok in H. destruct H as ([v pool] & Ev & H).
  apply list_pop_nonempty_inv in Ev.
  cbn [vertex_id] in H.
  apply bind_ok in H. destruct H as (col & Ec & H).
  destruct (Nat.ltb 0 px && Nat.ltb 0 py) eqn:Eq.
  - cbn [existing_quads set_rendered_vertices set_existing_vertices] in H.
    apply bind_ok in H. destruct H as ([q qpool] & Eqp & H).
    apply list_pop_nonempty_inv in Eqp.
    apply bind_ok in H. destruct H as (v0 & _ & H).
    apply bind_ok in H. destruct H as (v1 & _ & H).
    apply bind_ok in H. destruct H as (v2 & _ & H).
    apply bind_ok in H. destruct H as (v3 & _ & H).
    inv_ok H. cbn.
    split; [unfold same_settings; cbn; repeat split |].
    eexists [_], [_], [v], [q]. cbn.
    repeat split; try assumption; try reflexivity.
    + constructor; [| constructor]. split; [reflexivity |].
      exists n. exact Es.
    + constructor; [reflexivity | constructor].
    + unfold has_quad. cbn [fst snd]. rewrite Eq. reflexivity.
  - inv_ok H. cbn.
    split; [unfold same_settings; cbn; repeat split |].
    eexists [_], [], [v], []. cbn. rewrite !app_nil_r.
    repeat split; try assumption; try reflexivity.
    + constructor; [| constructor]. split; [reflexivity |].
      exists n. exact Es.
    + constructor.
    + unfold has_quad. cbn [fst snd]. rewrite Eq. reflexivity.
Qed.

Lemma render_rows_effect (cx cy zx zy : R) (px : nat) (pys : list nat) :
  forall st st',
    for_each pys (render_pixel cx cy zx zy px) st = Ok st' ->
    render_effect cx cy zx zy (map (pair px) pys) (r_self st) (r_self st').
Proof.
  induction pys as [| py pys IH]; intros st st' H.
  - simpl in H. inv_ok H. apply render_effect_nil.
  - cbn [for_each] in H. apply bind_ok in H. destruct H as (st1 & E1 & H).
    change (map (pair px) (py :: pys)) with ([(px, py)] ++ map (pair px) pys).
    eapply render_effect_app; [apply render_pixel_effect, E1 | apply IH, H].
Qed.

Lemma render_column_effect (cx cy zx zy : R) (px : nat) (st st' : render_state) :
  render_column cx cy zx zy px st = Ok st' ->
  render_effect cx cy zx zy (map (pair px) (py_range (height (r_self st))))
    (r_self st) (r_self st').
Proof.
  unfold render_column. intros H.
  apply bind_ok in H. destruct H as (st1 & E1 & H). inv_ok H.
  cbn [r_self]. apply render_rows_effect, E1.
Qed.

Lemma render_columns_effect (cx cy zx zy : R) (pxs : list nat) :
  forall st st',
    for_each pxs (render_column cx cy zx zy) st = Ok st' ->
    render_effect cx cy zx zy (list_prod pxs (py_range (height (r_self st))))
      (r_self st) (r_self st').
Proof.
  induction pxs as [| px pxs IH]; intros st st' H.
  - simpl in H. inv_ok H. apply render_effect_nil.
  - cbn [for_each] in H. apply bind_ok in H. destruct H as (st1 & E1 & H).
    cbn [list_prod].
    pose proof (render_column_effect _ _ _ _ _ _ _ E1) as C1.
    eapply render_effect_app; [exact C1 |].
    assert (Hh : height (r_self st1) = height (r_self st)).
    { destruct C1 as ((_ & _ & _ & _ & _ & Hh & _) & _). exact Hh. }
    rewrite <- Hh. apply IH, H.
Qed.

Lemma load_new_mandelbrot_effect (s s' : Mandelbrot) :
  __load_new_mandelbrot s = Ok s' ->
  exists s1,
    s' = set_loaded true s1 /\
    render_effect ((x_min s + x_max s) / 2) ((y_min s + y_max s) / 2)
      ((x_max s - x_min s) / IZR (width s))
      ((y_max s - y_min s) / IZR (height s)) (grid_pixels s)
      (set_loaded false s) s1.
Proof.
  unfold __load_new_mandelbrot. intros H.
  cbn [width height x_min x_max y_min y_max set_loaded] in H.
  unfold py_div in H.
  destruct (Req_dec_T (IZR (width s)) 0); [discriminate H |].
  destruct (Req_dec_T (IZR (height s)) 0); [discriminate H |].
  cbn [bind] in H.
  apply bind_ok in H. destruct H as (st & E & H). inv_ok H.
  exists (r_self st). split; [reflexivity |].
  apply render_columns_effect in E. exact E.
Qed.

Lemma has_quad_count (pxs pys : list nat) :
  length (filter has_quad (list_prod pxs pys))
  = (length (filter (Nat.ltb 0) pxs) * length (filter (Nat.ltb 0) pys))%nat.
Proof.
  induction pxs as [| px pxs IH]; [reflexivity |].
  cbn [list_prod]. rewrite filter_app, length_app, IH. cbn [filter].
  assert (E : length (filter has_quad (map (fun y : nat => (px, y)) pys))
              = if Nat.ltb 0 px then length (filter (Nat.ltb 0) pys) else O).
  { clear IH. induction pys as [| py pys IHp]; [destruct (Nat.ltb 0 px); reflexivity |].
    cbn [map filter]. unfold has_quad at 1. cbn [fst snd].
    destruct (Nat.ltb 0 px); cbn [andb]; [| exact IHp].
    destruct (Nat.ltb 0 py); cbn [length]; rewrite IHp; reflexivity. }
  rewrite E. destruct (Nat.ltb 0 px); cbn [length]; lia.
Qed.

Lemma grid_quad_count (m : Mandelbrot) :
  (0 < width m)%Z -> (0 < height m)%Z ->
  Z.of_nat (length (filter has_quad (grid_pixels m)))
  = ((width m - 1) * (height m - 1))%Z.
Proof.
  intros Hw Hh. unfold grid_pixels, py_range.
  rewrite has_quad_count, !seq_positive_count. nia.
Qed.

Lemma load_fresh_hidden (items : list nat) :
  forall m,
    Forall (fun q => quad_visible q = false) (existing_quads m) ->
    Forall (fun q => quad_visible q = false)
      (existing_quads (fold_left load_fresh_object items m)).
Proof.
  induction items as [| i items IH]; intros m H; [exact H |].
  cbn [fold_left]. apply IH. unfold load_fresh_object. cbn.
  destruct (Z.of_nat (length (existing_quads m)) <? (height m - 1) * width m)%Z;
    cbn; [| exact H].
  apply Forall_app. split; [exact H | constructor; [reflexivity | constructor]].
Qed.

Lemma py_index_inv {A : Type} (l : list A) (i : nat) (a : A) :
  py_index l i = Ok a -> nth_error l i = Some a.
Proof.
  unfold py_index. destruct (nth_error l i); intros H; inv_ok H. reflexivity.
Qed.

(** All that a returning [change_parameters] has done. *)
Lemma change_parameters_result (mi : Z) (dims : list R) (res : list Z)
    (cm : string) (m0 m' : Mandelbrot) :
  change_parameters mi dims res cm m0 = Ok m' ->
  exists d0 d1 d2 d3 h w,
    (nth_error dims 0 = Some d0 /\ nth_error dims 1 = Some d1 /\
     nth_error dims 2 = Some d2 /\ nth_error dims 3 = Some d3 /\
     nth_error res 0 = Some h /\ nth_error res 1 = Some w) /\
    (max_iter m' = mi /\ x_min m' = d0 /\ x_max m' = d1 /\ y_min m' = d2 /\
     y_max m' = d3 /\ height m' = h /\ width m' = w /\ colormap m' = cm) /\
    dimensions_undo_list m' = dimensions_undo_list m0 ++ [dims] /\
    dimensions_redo_list m' = dimensions_redo_list m0 /\
    loaded m' = true /\
    Forall2 (drawn_on m') (rendered_vertices m') (grid_pixels m') /\
    length (rendered_quads m') = length (filter has_quad (grid_pixels m')) /\
    Forall (fun q => quad_visible q = true) (rendered_quads m') /\
    (Forall (fun q => quad_visible q = false) (existing_quads m0) ->
     Forall (fun q => quad_visible q = false) (existing_quads m')) /\
    Z.of_nat (total_vertices m')
      = Z.max (Z.of_nat (total_vertices m0)) (h * w) /\
    Z.of_nat (total_quads m')
      = quads_after (Z.of_nat (total_vertices m0)) (Z.of_nat (total_quads m0)) h w.
Proof.
  unfold change_parameters. intros H.
  apply bind_ok in H. destruct H as (d0 & I0 & H).
  apply bind_ok in H. destruct H as (d1 & I1 & H).
  apply bind_ok in H. destruct H as (d2 & I2 & H).
  apply bind_ok in H. destruct H as (d3 & I3 & H).
  apply bind_ok in H. destruct H as (h & I4 & H).
  apply bind_ok in H. destruct H as (w & I5 & H).
  apply py_index_inv in I0, I1, I2, I3, I4, I5.
  exists d0, d1, d2, d3, h, w. split; [auto 10 |].
  match type of H with
  | context [__load_fresh_objects _ ?m] => set (m1 := m) in H
  end.
  match type of H with
  | context [__load_fresh_objects ?n m1] => set (N := n) in H
  end.
  pose proof (recycle_old_vertices_spec (set_loaded false m0)) as Rc.
  cbn zeta in Rc. destruct Rc as (_ & _ & Rrv & Rrq & Rv & Rq).
  change (total_vertices (set_loaded false m0)) with (total_vertices m0) in Rv.
  change (total_quads (set_loaded false m0)) with (total_quads m0) in Rq.
  assert (E1 : existing_vertices m1
               = existing_vertices (__recycle_old_vertices (set_loaded false m0)))
    by reflexivity.
  assert (E2 : existing_quads m1
               = existing_quads m0 ++ map hide (rendered_quads m0)) by reflexivity.
  assert (E2' : length (existing_quads m1) = total_quads m0).
  { rewrite E2, length_app, length_map. reflexivity. }
  assert (E3 : rendered_vertices m1 = []) by exact Rrv.
  assert (E4 : rendered_quads m1 = []) by exact Rrq.
  assert (E5 : height m1 = h) by reflexivity.
  assert (E6 : width m1 = w) by reflexivity.
  assert (E7 : max_iter m1 = mi) by reflexivity.
  assert (E8 : viewport m1 = [d0; d1; d2; d3]) by reflexivity.
  assert (E9 : colormap m1 = cm) by reflexivity.
  assert (E10 : dimensions_undo_list m1 = dimensions_undo_list m0 ++ [dims])
    by reflexivity.
  assert (E11 : dimensions_redo_list m1 = dimensions_redo_list m0) by reflexivity.
  assert (EN : N = (h * w - Z.of_nat (total_vertices m0))%Z).
  { unfold N. rewrite E1, E5, E6, Rv. reflexivity. }
  clearbody m1 N.
  pose proof (load_fresh_objects_spec N m1) as F. cbn zeta in F.
  destruct F as (Fs & _ & Frv & Frq & Fv & Fq).
  assert (Fh : Forall (fun q => quad_visible q = false) (existing_quads m0) ->
               Forall (fun q => quad_visible q = false)
                 (existing_quads (__load_fresh_objects N m1))).
  { intros Hh. apply load_fresh_hidden. rewrite E2.
    apply Forall_app. split; [exact Hh |].
    apply Forall_forall. intros q Hq. apply in_map_iff in Hq.
    destruct Hq as (q0 & <- & _). reflexivity. }
  set (m2 := __load_fresh_objects N m1) in *. clearbody m2.
  unfold same_settings in Fs.
  destruct Fs as (S1 & S2 & S3 & S4 & S5 & S6 & S7 & S8 & S9 & S10).
  rewrite E1, Rv in Fv. rewrite E2', E5, E6 in Fq.
  apply load_new_mandelbrot_effect in H.
  destruct H as (s1 & -> & (T & nv & nq & tv & tq & A & B & C & D & F2 & L & V & Nq & M)).
  unfold same_settings in T. cbn in T.
  destruct T as (T1 & T2 & T3 & T4 & T5 & T6 & T7 & T8 & T9 & T10).
  cbn in A, B, C, D. rewrite Frv, E3 in A. rewrite Frq, E4 in C.
  cbn [app] in A, C.
  unfold viewport in E8. injection E8 as Ea Eb Ec Ed.
  cbn [max_iter x_min x_max y_min y_max height width colormap
       dimensions_undo_list dimensions_redo_list loaded set_loaded
       rendered_vertices rendered_quads existing_quads].
  split; [repeat split; congruence |].
  split; [congruence |]. split; [congruence |]. split; [reflexivity |].
  assert (G : grid_pixels (set_loaded true s1) = grid_pixels m2).
  { unfold grid_pixels. cbn. rewrite T6, T7. reflexivity. }
  split; [| split; [| split; [| split; [| split]]]].
  - rewrite G, A.
    eapply Forall2_impl; [| exact F2].
    intros v p [Hp [n Hn]]. unfold drawn_on, drawn. cbn.
    rewrite T2, T3, T4, T5, T6, T7.
    split; [exact Hp |]. exists n.
    rewrite <- Hn. unfold pixel_sample. cbn. rewrite T1, T6, T7, T8. reflexivity.
  - rewrite G, C. exact Nq.
  - rewrite C. exact V.
  - intros Hh. specialize (Fh Hh). rewrite D in Fh.
    apply Forall_app in Fh. apply Fh.
  - assert (TV : total_vertices (set_loaded true s1)
                 = (length (existing_vertices s1) + length nv)%nat)
      by (unfold total_vertices; cbn; rewrite A; reflexivity).
    assert (Lb : length (existing_vertices m2)
                 = (length (existing_vertices s1) + length tv)%nat)
      by (rewrite B, length_app; reflexivity).
    rewrite TV. lia.
  - assert (TQ : total_quads (set_loaded true s1)
                 = (length (existing_quads s1) + length nq)%nat)
      by (unfold total_quads; cbn; rewrite C; reflexivity).
    assert (Lb : length (existing_quads m2)
                 = (length (existing_quads s1) + length tq)%nat)
      by (rewrite D, length_app; reflexivity).
    rewrite TQ. unfold quads_after. lia.
Qed.

Lemma screen_ok_same (m m' : Mandelbrot) :
  same_settings m m' -> same_objects m m' -> screen_ok m -> screen_ok m'.
Proof.
  intros (S1 & S2 & S3 & S4 & S5 & S6 & S7 & S8 & _) (O1 & O2 & O3 & O4)
         (H1 & H2 & H3 & H4).
  assert (G : grid_pixels m' = grid_pixels m)
    by (unfold grid_pixels; rewrite S6, S7; reflexivity).
  unfold screen_ok. rewrite G, O1, O3, O4.
  split; [| auto].
  eapply Forall2_impl; [| exact H1].
  intros v p [Hp [n Hn]]. unfold drawn_on, drawn.
  rewrite S2, S3, S4, S5, S6, S7. split; [exact Hp |]. exists n.
  rewrite <- Hn. unfold pixel_sample. rewrite S1, S6, S7, S8. reflexivity.
Qed.

Lemma change_parameters_screen (mi : Z) (dims : list R) (res : list Z)
    (cm : string) (m0 m' : Mandelbrot) :
  change_parameters mi dims res cm m0 = Ok m' ->
  Forall (fun q => quad_visible q = false) (existing_quads m0) ->
  screen_ok m'.
Proof.
  intros H Hh. apply change_parameters_result in H.
  destruct H as (d0 & d1 & d2 & d3 & h & w & _ & _ & _ & _ & _ & F & N & V & Hk & _).
  unfold screen_ok. auto.
Qed.

(** What a returning handler did: nothing to the settings and the objects,
    or one [change_parameters] on the objects as they were. *)
Lemma handle_cases (e : event) (w w' : World) :
  handle e w = Ok w' ->
  (same_settings (mandelbrot w) (mandelbrot w') /\
   same_objects (mandelbrot w) (mandelbrot w')) \/
  (exists mi dims res cm m0,
     same_objects (mandelbrot w) m0 /\
     change_parameters mi dims res cm m0 = Ok (mandelbrot w')).
Proof.
  assert (Same : forall m, same_settings m m /\ same_objects m m)
    by (intros m; split; [apply same_settings_refl | repeat split]).
  assert (Frozen : forall m,
            same_settings m (set_loaded false m) /\
            same_objects m (set_loaded false m))
    by (intros m; split; [unfold same_settings; cbn | unfold same_objects; cbn];
        repeat split).
  intros H.
  destruct (loaded (mandelbrot w)) eqn:Hl.
  2:{ rewrite not_loaded_ignored in H by exact Hl. inv_ok H. left. apply Same. }
  destruct e as [p samples | redo | index | selected | number | text];
    cbn [handle] in H.
  - unfold resize_box in H. rewrite Hl in H. cbn [negb] in H.
    apply bind_ok in H. destruct H as (q & _ & H).
    unfold resize_box_release in H.
    apply bind_ok in H. destruct H as (s1 & _ & H).
    apply bind_ok in H. destruct H as (s2 & _ & H).
    apply bind_ok in H. destruct H as (s3 & _ & H).
    apply bind_ok in H. destruct H as (s4 & _ & H).
    apply bind_ok in H. destruct H as (m' & E & H). inv_ok H.
    right. do 5 eexists. split; [| exact E]. repeat split.
  - unfold recall_mandelbrot_dimensions in H. rewrite Hl in H. cbn [negb] in H.
    destruct (Nat.eqb (length (dimensions_undo_list (mandelbrot w))) 1
              && Nat.eqb (length (dimensions_redo_list (mandelbrot w))) 0).
    { inv_ok H. left. apply Same. }
    apply bind_ok in H. destruct H as (m' & E & H). inv_ok H.
    cbn [mandelbrot set_mandelbrot].
    unfold load_recent_dimensions in E.
    cbn [dimensions_undo_list dimensions_redo_list set_loaded] in E.
    destruct redo.
    + destruct (Nat.ltb 0 (length (dimensions_redo_list (mandelbrot w)))).
      * apply bind_ok in E. destruct E as ([d rest] & _ & E).
        right. do 5 eexists. split; [| exact E]. repeat split.
      * inv_ok E. left. apply Frozen.
    + destruct (Nat.leb (length (dimensions_undo_list (mandelbrot w))) 1).
      * inv_ok E. left. apply Frozen.
      * apply bind_ok in E. destruct E as ([top rest] & _ & E).
        apply bind_ok in E. destruct E as ([d rest'] & _ & E).
        right. do 5 eexists. split; [| exact E]. repeat split.
  - unfold change_resolution in H. rewrite Hl in H. cbn [negb] in H.
    apply bind_ok in H. destruct H as ([d rest] & _ & H).
    apply bind_ok in H. destruct H as (res & _ & H).
    apply bind_ok in H. destruct H as (m' & E & H). inv_ok H.
    right. do 5 eexists. split; [| exact E]. repeat split.
  - unfold change_colormap in H. rewrite Hl in H. cbn [negb] in H.
    apply bind_ok in H. destruct H as ([d rest] & _ & H).
    apply bind_ok in H. destruct H as (m' & E & H). inv_ok H.
    right. do 5 eexists. split; [| exact E]. repeat split.
  - unfold change_search_depth in H. rewrite Hl in H. cbn [negb] in H.
    destruct (Rlt_dec number 1); [inv_ok H; left; apply Same |].
    destruct (Rgt_dec number 1000); [inv_ok H; left; apply Same |].
    apply bind_ok in H. destruct H as ([d rest] & _ & H).
    apply bind_ok in H. destruct H as (m' & E & H). inv_ok H.
    right. do 5 eexists. split; [| exact E]. repeat split.
  - unfold change_image_dimensions in H. rewrite Hl in H. cbn [negb] in H.
    destruct (parse_dimensions text) as [fl | ex];
      [| inv_ok H; left; apply Same].
    apply bind_ok in H. destruct H as (dims & _ & H).
    apply bind_ok in H. destruct H as (m' & E & H). inv_ok H.
    right. do 5 eexists. split; [| exact E]. repeat split.
Qed.

Lemma Mandelbrot_init_screen (mi : Z) (dims : list R) (res : list Z)
    (cm : string) (m : Mandelbrot) :
  Mandelbrot_init mi dims res cm = Ok m -> screen_ok m.
Proof.
  unfold Mandelbrot_init. intros H.
  apply bind_ok in H. destruct H as (d0 & _ & H).
  apply bind_ok in H. destruct H as (d1 & _ & H).
  apply bind_ok in H. destruct H as (d2 & _ & H).
  apply bind_ok in H. destruct H as (d3 & _ & H).
  apply bind_ok in H. destruct H as (h & _ & H).
  apply bind_ok in H. destruct H as (w & _ & H).
  match type of H with
  | context [__load_fresh_objects ?n ?m0] =>
      pose proof (load_fresh_objects_spec n m0) as F;
      pose proof (load_fresh_hidden (py_range n) m0) as Fh;
      fold (__load_fresh_objects n m0) in Fh;
      set (m2 := __load_fresh_objects n m0) in *
  end.
  cbn zeta in F. clearbody m2.
  destruct F as (_ & _ & Frv & Frq & _).
  cbn in Frv, Frq. specialize (Fh (Forall_nil _)).
  apply load_new_mandelbrot_effect in H.
  destruct H as (s1 & -> & (T & nv & nq & tv & tq & A & B & C & D & F2 & L & V & Nq & M)).
  unfold same_settings in T. cbn in T.
  destruct T as (T1 & T2 & T3 & T4 & T5 & T6 & T7 & T8 & T9 & T10).
  cbn in A, B, C, D. rewrite Frv in A. rewrite Frq in C. cbn [app] in A, C.
  assert (G : grid_pixels (set_loaded true s1) = grid_pixels m2).
  { unfold grid_pixels. cbn. rewrite T6, T7. reflexivity. }
  unfold screen_ok. rewrite G. cbn [rendered_vertices rendered_quads
                                     existing_quads set_loaded].
  rewrite A, C. split; [| split; [exact Nq | split; [exact V |]]].
  - eapply Forall2_impl; [| exact F2].
    intros v p [Hp [n Hn]]. unfold drawn_on, drawn. cbn.
    rewrite T2, T3, T4, T5, T6, T7.
    split; [exact Hp |]. exists n.
    rewrite <- Hn. unfold pixel_sample. cbn. rewrite T1, T6, T7, T8. reflexivity.
  - rewrite D in Fh. apply Forall_app in Fh. apply Fh.
Qed.

Lemma reachable_screen (w : World) : reachable w -> screen_ok (mandelbrot w).
Proof.
  induction 1 as [w Hs | e w w' _ IH Hstep].
  - unfold program_start in Hs.
    apply bind_ok in Hs. destruct Hs as (res & _ & Hs).
    apply bind_ok in Hs. destruct Hs as (m & E & Hs). inv_ok Hs.
    cbn [mandelbrot]. exact (Mandelbrot_init_screen _ _ _ _ _ E).
  - destruct (handle_cases e w w' Hstep)
      as [[S O] | (mi & dims & res & cm & m0 & O & E)].
    + exact (screen_ok_same _ _ S O IH).
    + apply (change_parameters_screen _ _ _ _ _ _ E).
      destruct O as (_ & _ & _ & ->). apply IH.
Qed.

(** X19.  In every state of a session the active objects are the picture
    of the current settings: there is exactly one active vertex for each
    pixel of the current grid, in column-major order, placed at
    [(px - width/2, py - height/2)] and colored with the sample of that
    pixel for the current view, depth and colormap; there are
    [(width - 1) (height - 1)] active quads, all visible; and every pooled
    quad is hidden. *)
Theorem screen_matches_settings (w : World) :
  reachable w ->
  let m := mandelbrot w in
  Forall2 (drawn_on m) (rendered_vertices m) (grid_pixels m) /\
  Z.of_nat (length (rendered_vertices m)) = (width m * height m)%Z /\
  Z.of_nat (length (rendered_quads m)) = ((width m - 1) * (height m - 1))%Z /\
  Forall (fun q => quad_visible q = true) (rendered_quads m) /\
  Forall (fun q => quad_visible q = false) (existing_quads m).
Proof.
  intros Hr m. destruct (reachable_screen w Hr) as (F & N & V & Hh).
  destruct (preset_positive _ _ (wf_preset _ (reachable_wf w Hr))) as [Hph Hpw].
  fold m in F, N, V, Hh, Hph, Hpw.
  split; [exact F |]. split; [| split; [| split; [exact V | exact Hh]]].
  - rewrite (Forall2_length F). unfold grid_pixels, py_range.
    rewrite length_prod, !length_seq. nia.
  - rewrite N. apply grid_quad_count; assumption.
Qed.

Lemma screen_matches_settings_witness :
  exists w,
    reachable w /\
    viewport (mandelbrot w) = [0; 1; 0; 1] /\
    Forall2 (drawn_on (mandelbrot w)) (rendered_vertices (mandelbrot w))
      (grid_pixels (mandelbrot w)) /\
    Z.of_nat (length (rendered_quads (mandelbrot w)))
      = ((width (mandelbrot w) - 1) * (height (mandelbrot w) - 1))%Z.
Proof.
  destruct session_one_zoom as (_ & w & _ & _ & Hr & _ & Hv & _).
  pose proof (screen_matches_settings w Hr) as H. cbn zeta in H.
  destruct H as (F & _ & N & _).
  exists w. auto.
Defined.

(* ================================================================== *)
(** * Allocation *)

Lemma preset_area_le (h w hM wM : Z) :
  is_preset h w -> is_preset hM wM -> (h <= hM)%Z -> (h * w <= hM * wM)%Z.
Proof. intros Hp HM Hle. by_presets HM Hp. Qed.

(** X20.  In a session only a change to a larger resolution allocates:
    whenever an event leaves the grid height no larger than it was, the
    numbers of vertex objects and of quad objects are exactly what they
    were, so every zoom, undo, redo, depth or colormap change is rendered
    with recycled objects alone. *)
Theorem rerender_allocates_nothing (e : event) (w w' : World) :
  reachable w -> handle e w = Ok w' ->
  (height (mandelbrot w') <= height (mandelbrot w))%Z ->
  total_vertices (mandelbrot w') = total_vertices (mandelbrot w) /\
  total_quads (mandelbrot w') = total_quads (mandelbrot w).
Proof.
  intros Hr H Hle.
  pose proof (reachable_wf w Hr) as Hwf.
  pose proof (reachable_wf w' (reachable_step e w w' Hr H)) as Hwf'.
  destruct (handle_cases e w w' H)
    as [[_ (O1 & O2 & O3 & O4)] | (mi & dims & res & cm & m0 & O & E)].
  - unfold total_vertices, total_quads. rewrite O1, O2, O3, O4. auto.
  - apply change_parameters_result in E.
    destruct E as (d0 & d1 & d2 & d3 & h & wd & _ & S & _ & _ & _ & _ & _ & _ & _ & TV & TQ).
    destruct S as (_ & _ & _ & _ & _ & Sh & Sw & _).
    assert (EV : total_vertices m0 = total_vertices (mandelbrot w)).
    { destruct O as (O1 & O2 & _). unfold total_vertices. rewrite O1, O2. reflexivity. }
    assert (EQ : total_quads m0 = total_quads (mandelbrot w)).
    { destruct O as (_ & _ & O3 & O4). unfold total_quads. rewrite O3, O4. reflexivity. }
    rewrite EV in TV, TQ. rewrite EQ in TQ.
    destruct (wf_pool _ Hwf) as (hM & wM & HM & HhM & PV & PQ).
    pose proof (wf_preset _ Hwf') as Hp'. rewrite Sh, Sw in Hp'.
    assert (Harea : (h * wd <= hM * wM)%Z).
    { apply preset_area_le; try assumption. lia. }
    unfold quads_after in TQ. lia.
Qed.

Lemma rerender_allocates_nothing_witness :
  exists w w',
    reachable w /\
    handle (EnterDimensions "0,1,0,1") w = Ok w' /\
    total_vertices (mandelbrot w') = total_vertices (mandelbrot w).
Proof.
  destruct session_one_zoom as (w0 & w1 & E0 & E1 & _).
  destruct program_start_ok as (w & E & Hwf & Hl & _ & Hh & Hw & _).
  rewrite E in E0. injection E0 as <-.
  destruct (change_image_dimensions_ok "0,1,0,1" _ w Hwf Hl parse_unit_square)
    as (m1 & E1' & _ & A & _).
  destruct A as (_ & _ & A3 & _).
  destruct (rerender_allocates_nothing (EnterDimensions "0,1,0,1") w
              (set_mandelbrot m1 w) (reachable_start w E) E1') as (H & _).
  - cbn [mandelbrot set_mandelbrot]. lia.
  - exists w, (set_mandelbrot m1 w).
    split; [exact (reachable_start w E) | auto].
Defined.

(** X21.  [__load_fresh_objects] called for [n] objects appends exactly
    [max(0, n)] vertices to the vertex pool and leaves the active lists and
    every setting alone; it appends quads only while the quad pool is
    below [(height - 1) width], one per new vertex at most, and never
    takes a pool that was below that cap above it. *)
Theorem fresh_objects_growth (n : Z) (m : Mandelbrot) :
  let m' := __load_fresh_objects n m in
  let Q := Z.of_nat (length (existing_quads m)) in
  let cap := ((height m - 1) * width m)%Z in
  same_settings m m' /\ loaded m' = loaded m /\
  rendered_vertices m' = rendered_vertices m /\
  rendered_quads m' = rendered_quads m /\
  Z.of_nat (length (existing_vertices m'))
    = (Z.of_nat (length (existing_vertices m)) + Z.max 0 n)%Z /\
  Z.of_nat (length (existing_quads m')) = Z.max Q (Z.min (Q + Z.max 0 n) cap) /\
  ((Q <= cap)%Z -> (Z.of_nat (length (existing_quads m')) <= cap)%Z) /\
  ((n <= 0)%Z -> same_objects m m').
Proof.
  cbn zeta. pose proof (load_fresh_objects_spec n m) as H. cbn zeta in H.
  destruct H as (S & L & RV & RQ & V & Q).
  repeat split; try assumption; try apply S.
  - lia.
  - unfold __load_fresh_objects, py_range.
    replace (Z.to_nat n) with O by lia. reflexivity.
  - unfold __load_fresh_objects, py_range.
    replace (Z.to_nat n) with O by lia. reflexivity.
Qed.

Lemma fresh_objects_growth_witness :
  let m := mkMandelbrot 100 (-2) 0.5 (-1) 1 2 3 "default" [] [] [] []
             [[-2; 0.5; -1; 1]] [] false in
  Z.of_nat (length (existing_vertices (__load_fresh_objects 6 m))) = 6%Z /\
  (Z.of_nat (length (existing_quads (__load_fresh_objects 6 m))) <= 3)%Z.
Proof.
  intros m.
  pose proof (fresh_objects_growth 6 m) as H. cbn zeta in H.
  destruct H as (_ & _ & _ & _ & V & _ & C & _).
  assert (I0 : (Z.of_nat (length (existing_quads m))
                <= (height m - 1) * width m)%Z) by (unfold m; simpl; lia).
  split; [exact V | exact (C I0)].
Defined.

(* ================================================================== *)
(** * More on history and input *)



Lemma float_ge_false (a b : pyfloat) :
  float_ge a b = false -> a = NaN \/ b = NaN \/ float_below a b.
Proof.
  destruct a as [x | [|] |], b as [y | [|] |]; cbn [float_ge float_below negb implb];
    intros H; try discriminate H; auto.
  right. right. destruct (Rge_dec x y); [discriminate H | lra].
Qed.

(** X23.  A dimensions text passes the validation only if it holds
    exactly three commas, and what passes is four floats in which, for
    each axis, the lower bound is below the upper one or one of the two is
    nan: a nan is the one way past the test of the bounds. *)
Theorem accepted_text_shape (text : string) (dims : list pyfloat) :
  parse_dimensions text = Ok dims ->
  count_char "," text = 3%nat /\
  exists a b c d,
    dims = [a; b; c; d] /\
    (a = NaN \/ b = NaN \/ float_below a b) /\
    (c = NaN \/ d = NaN \/ float_below c d).
Proof.
  intros H. apply parse_dimensions_inv in H.
  destruct H as (a & b & c & d & -> & F & Hab & Hcd). split.
  - pose proof (split_loop_count "," text "") as Hc.
    assert (L : length (split (Some text) ",") = 4%nat).
    { clear Hc. revert F. generalize (split (Some text) ",").
      intros l F.
      assert (G : forall (items : list string) (xs : list pyfloat),
                floats_of items = Ok xs -> length items = length xs).
      { induction items as [| i items IH]; intros xs Hx.
        - simpl in Hx. inv_ok Hx. reflexivity.
        - cbn [floats_of] in Hx. apply bind_ok in Hx. destruct Hx as (x & _ & Hx).
          apply bind_ok in Hx. destruct Hx as (ys & Ey & Hx). inv_ok Hx.
          cbn [length]. f_equal. apply IH, Ey. }
      rewrite (G l _ F). reflexivity. }
    unfold split in L. unfold char in Hc. rewrite Hc in L. lia.
  - exists a, b, c, d. split; [reflexivity |].
    split; apply float_ge_false; assumption.
Qed.

Lemma accepted_text_shape_witness :
  count_char "," "0,1,0,1" = 3%nat /\
  exists a b c d,
    map Finite [0; 1; 0; 1] = [a; b; c; d] /\
    (a = NaN \/ b = NaN \/ float_below a b) /\
    (c = NaN \/ d = NaN \/ float_below c d).
Proof.
  apply (accepted_text_shape "0,1,0,1" (map Finite [0; 1; 0; 1])).
  apply valid_parse. split; [exact floats_unit_square | lra].
Defined.

(* ================================================================== *)
(** * Colors *)

Lemma unit_power (s : R) (k : nat) : 0 <= s <= 1 -> 0 <= s ^ k <= 1.
Proof.
  intros Hs. induction k as [| k IH]; simpl; [lra | nra].
Qed.

Lemma sin_even_power (a : R) (k : nat) : 0 <= (sin a * sin a) ^ k <= 1.
Proof.
  apply unit_power. pose proof (SIN_bound a). nra.
Qed.

(** X24.  On components in [0,1] every scheme name, known or not, gives a
    color whose red component lies in [0,1]; the other components are not
    confined to it: under "inferno" the blue component is negative as soon
    as [z] exceeds 0.4. *)
Theorem colormaps_range (x y z : R) (cmap : string) :
  0 <= x <= 1 -> 0 <= y <= 1 -> 0 <= z <= 1 ->
  (exists c, colormaps (mkvec x y z) cmap = Ok c /\ 0 <= vec_x c <= 1) /\
  (0.4 < z ->
   exists c, colormaps (mkvec x y z) "inferno" = Ok c /\ vec_z c < 0).
Proof.
  intros Hx Hy Hz. split.
  - rewrite colormaps_eval by lra. eexists. split; [reflexivity |].
    unfold spec_colormap.
    destruct (String.eqb cmap "inferno").
    { cbn [vec_x]. split; [apply sqrt_pos |].
      rewrite <- sqrt_1. apply sqrt_le_1_alt. lra. }
    destruct (String.eqb cmap "viridis").
    { cbn [vec_x]. replace (sin (x + 0.5) ^ 16)
        with ((sin (x + 0.5) * sin (x + 0.5)) ^ 8) by ring.
      apply sin_even_power. }
    destruct (String.eqb cmap "plasma").
    { cbn [vec_x]. pose proof (SIN_bound x). pose proof PI2_1.
      split; [apply sin_ge_0; lra | lra]. }
    destruct (String.eqb cmap "spectral").
    { cbn [vec_x]. pose proof (SIN_bound (100 * x + 1)).
      split; [apply Rabs_pos | apply Rabs_le; lra]. }
    cbn [vec_x]. replace (sin (x + 0.9) ^ 30)
      with ((sin (x + 0.9) * sin (x + 0.9)) ^ 15) by ring.
    apply sin_even_power.
  - intros Hz'. rewrite colormaps_eval by lra. eexists. split; [reflexivity |].
    cbn. nra.
Qed.

Lemma colormaps_range_witness :
  exists c, colormaps (mkvec 0.5 0.5 0.5) "inferno" = Ok c /\ vec_z c < 0.
Proof.
  destruct (colormaps_range 0.5 0.5 0.5 "inferno") as (_ & H); try lra.
  apply H. lra.
Defined.

(* ================================================================== *)
(** * Resolutions outside the presets *)

Lemma load_fresh_settings (n : Z) (m : Mandelbrot) :
  height (__load_fresh_objects n m) = height m /\
  width (__load_fresh_objects n m) = width m /\
  max_iter (__load_fresh_objects n m) = max_iter m.
Proof.
  pose proof (load_fresh_objects_spec n m) as H. cbn zeta in H.
  destruct H as ((S1 & _ & _ & _ & _ & S6 & S7 & _) & _). auto.
Qed.

(** X25.  [change_parameters] raises [IndexError] when it is given fewer
    than four bounds or fewer than two resolution entries, and
    [ZeroDivisionError] when the height or the width asked for is zero. *)
Theorem change_parameters_rejects (mi : Z) (dims : list R) (res : list Z)
    (cm : string) (m : Mandelbrot) :
  ((length dims < 4)%nat ->
   change_parameters mi dims res cm m = Raise IndexError) /\
  ((4 <= length dims)%nat -> (length res < 2)%nat ->
   change_parameters mi dims res cm m = Raise IndexError) /\
  (forall h w rest,
     (4 <= length dims)%nat -> res = h :: w :: rest ->
     h = 0%Z \/ w = 0%Z ->
     change_parameters mi dims res cm m = Raise ZeroDivisionError).
Proof.
  split; [| split].
  - intros Hd. unfold change_parameters.
    destruct dims as [| a [| b [| c [| d l]]]];
      try reflexivity. simpl in Hd. lia.
  - intros Hd Hr. unfold change_parameters.
    destruct dims as [| a [| b [| c [| d l]]]]; try (simpl in Hd; lia).
    destruct res as [| h [| w rest]]; try reflexivity. simpl in Hr. lia.
  - intros h w rest Hd -> Hz. unfold change_parameters.
    destruct dims as [| a [| b [| c [| d l]]]]; try (simpl in Hd; lia).
    cbn [py_index nth_error bind].
    match goal with
    | |- __load_new_mandelbrot (__load_fresh_objects ?n ?m1) = _ =>
        destruct (load_fresh_settings n m1) as (Eh & Ew & _);
        set (m2 := __load_fresh_objects n m1) in *
    end.
    cbn in Eh, Ew. clearbody m2.
    unfold __load_new_mandelbrot. cbn [width height set_loaded x_min x_max
                                       y_min y_max].
    rewrite Eh, Ew.
    destruct (Z.eq_dec w 0) as [-> | Nw].
    + rewrite py_div_zero. reflexivity.
    + destruct Hz as [-> | ->]; [| contradiction].
      rewrite py_div_ok by (apply not_0_IZR; exact Nw). cbn [bind].
      rewrite py_div_zero. reflexivity.
Qed.

Lemma change_parameters_rejects_witness :
  let m := mkMandelbrot 100 (-2) 0.5 (-1) 1 30 45 "default" [] [] [] []
             [[-2; 0.5; -1; 1]] [] true in
  change_parameters 100 [0; 1] [30; 45]%Z "default" m = Raise IndexError /\
  change_parameters 100 [0; 1; 0; 1] [30]%Z "default" m = Raise IndexError /\
  change_parameters 100 [0; 1; 0; 1] [0; 45]%Z "default" m
    = Raise ZeroDivisionError.
Proof.
  intros m.
  destruct (change_parameters_rejects 100 [0; 1] [30; 45]%Z "default" m)
    as (H1 & _).
  destruct (change_parameters_rejects 100 [0; 1; 0; 1] [30]%Z "default" m)
    as (_ & H2 & _).
  destruct (change_parameters_rejects 100 [0; 1; 0; 1] [0; 45]%Z "default" m)
    as (_ & _ & H3).
  split; [apply H1; simpl; lia |].
  split; [apply H2; simpl; lia |].
  apply (H3 0%Z 45%Z []); [simpl; lia | reflexivity | left; reflexivity].
Defined.









(** X26.  The constructor renders any grid of positive size: for a depth
    that is not negative, four bounds of moderate size and a height and
    width of at least 1 it returns a loaded object showing the picture of
    its settings, with [height x width] vertices and [(height - 1) x width]
    quads in existence. *)
Theorem constructor_returns (mi : Z) (a b c d : R) (h w : Z) (cm : string) :
  (0 <= mi)%Z -> (1 <= h)%Z -> (1 <= w)%Z -> moderate [a; b; c; d] ->
  exists m,
    Mandelbrot_init mi [a; b; c; d] [h; w] cm = Ok m /\
    loaded m = true /\ screen_ok m /\
    viewport m = [a; b; c; d] /\ height m = h /\ width m = w /\
    max_iter m = mi /\ colormap m = cm /\
    dimensions_undo_list m = [[a; b; c; d]] /\ dimensions_redo_list m = [] /\
    Z.of_nat (total_vertices m) = (h * w)%Z /\
    Z.of_nat (total_quads m) = ((h - 1) * w)%Z.
Proof.
  intros Hmi Hh Hw _.
  assert (Hex : exists m, Mandelbrot_init mi [a; b; c; d] [h; w] cm = Ok m /\
                  loaded m = true /\
                  viewport m = [a; b; c; d] /\ height m = h /\ width m = w /\
                  max_iter m = mi /\ colormap m = cm /\
                  dimensions_undo_list m = [[a; b; c; d]] /\
                  dimensions_redo_list m = [] /\
                  Z.of_nat (total_vertices m) = (h * w)%Z /\
                  Z.of_nat (total_quads m) = ((h - 1) * w)%Z).
  { unfold Mandelbrot_init. cbn [py_index nth_error bind].
    match goal with
    | |- context [__load_fresh_objects ?n ?m0] =>
        pose proof (load_fresh_objects_spec n m0) as F;
        set (m2 := __load_fresh_objects n m0) in *
    end.
    cbn zeta in F. clearbody m2.
    destruct F as (Fs & _ & Frv & Frq & Fv & Fq).
    cbn in Frv, Frq, Fv, Fq. unfold same_settings in Fs. cbn in Fs.
    destruct Fs as (S1 & S2 & S3 & S4 & S5 & S6 & S7 & S8 & S9 & S10).
    destruct (load_new_mandelbrot_ok m2) as [m [E [S' [L' [V' [Q' _]]]]]].
    - rewrite S1. exact Hmi.
    - rewrite S6. lia.
    - rewrite S7. lia.
    - rewrite S6, S7, Fv. nia.
    - rewrite S6, S7, Fq. nia.
    - exists m. split; [exact E |].
      unfold same_settings in S'.
      destruct S' as (T1 & T2 & T3 & T4 & T5 & T6 & T7 & T8 & T9 & T10).
      assert (TV : Z.of_nat (total_vertices m) = (h * w)%Z).
      { rewrite V'. unfold total_vertices. rewrite Frv. cbn [length]. nia. }
      assert (TQ : Z.of_nat (total_quads m) = ((h - 1) * w)%Z).
      { rewrite Q'. unfold total_quads. rewrite Frq. cbn [length]. nia. }
      unfold viewport. repeat split; congruence. }
  destruct Hex as (m & E & Rest). exists m. split; [exact E |].
  destruct Rest as (Hl & Rest). split; [exact Hl |].
  split; [exact (Mandelbrot_init_screen _ _ _ _ _ E) | exact Rest].
Qed.

Lemma constructor_returns_witness :
  exists m,
    Mandelbrot_init 100 [-2; 0.5; -1; 1] [1; 100]%Z "default" = Ok m /\
    Z.of_nat (total_quads m) = 0%Z.
Proof.
  destruct (constructor_returns 100 (-2) 0.5 (-1) 1 1 100 "default")
    as (m & E & _ & _ & _ & _ & _ & _ & _ & _ & _ & _ & Q); try lia.
  - apply moderate_small; repeat constructor;
      unfold Rabs; destruct Rcase_abs; lra.
  - exists m. split; [exact E | exact Q].
Defined.


